(** * Subscription lifecycle and billing-period reconciliation

    A shallow embedding of the serverless billing handlers of the
    restaurant-loyalty dashboard: the plan hierarchy used by the
    change-plan handler, the period calculator of the webhook function,
    the invoice persister, and the user-initiated transition handlers
    (create-payment, change-plan, cancel-subscription and the three
    reactivate-subscription variants).

    Conventions.
    - JavaScript strings are [string]; a field that may be [undefined] or
      [null] is an [option].
    - Remote (Stripe) timestamps are Unix seconds, as [Z].  The local store
      keeps ISO-8601 strings produced by
      [new Date(sec * 1000).toISOString()]; a stored timestamp is modelled
      by the millisecond count that the ISO string denotes.
    - Monetary amounts are JavaScript numbers holding integers in minor
      currency units, as [Z].
    - An invocation reads the clock once: every [new Date()] of one
      invocation is the same instant [now].
    - Plan names inherited from [Object.prototype] (["constructor"], ...)
      are outside the model of [PLAN_HIERARCHY]. *)

From Stdlib Require Import ZArith String List Bool Lia.
Import ListNotations.
Local Open Scope string_scope.
Local Open Scope list_scope.
Local Open Scope Z_scope.

(* ===================================================================== *)
(** * Part I. Definitions *)
(* ===================================================================== *)

(** ** JavaScript helpers *)

(** [a === b] on strings. *)
Notation "a === b" := (String.eqb a b) (at level 70, no associativity).
(** [a !== b] on strings. *)
Notation "a !== b" := (negb (String.eqb a b)) (at level 70, no associativity).

(** Truthiness of a possibly-undefined string: [undefined], [null] and the
    empty string are falsy. *)
Definition truthy (v : option string) : bool :=
  match v with
  | Some s => s !== ""
  | None => false
  end.

(** Truthiness of a possibly-undefined number: [undefined], [null] and [0]
    are falsy. *)
Definition truthyZ (v : option Z) : bool :=
  match v with
  | Some n => negb (n =? 0)
  | None => false
  end.

(** [a || b] on possibly-undefined strings. *)
Definition js_or (a b : option string) : option string :=
  if truthy a then a else b.

(** [a || b] on possibly-undefined numbers. *)
Definition js_orZ (a b : option Z) : option Z :=
  if truthyZ a then a else b.

(** [a ?? b]: only [undefined] and [null] fall through. *)
Definition nullish {A : Type} (a : option A) (b : option A) : option A :=
  match a with
  | Some _ => a
  | None => b
  end.

(** [a ?? d] with a defined default. *)
Definition nullish_def {A : Type} (a : option A) (d : A) : A :=
  match a with
  | Some x => x
  | None => d
  end.

(** [Math.ceil(a / b)] for integers [a] and positive [b]. *)
Definition ceil_div (a b : Z) : Z := - ((- a) / b).

(** [1000 * 60 * 60 * 24] *)
Definition MS_PER_DAY : Z := 1000 * 60 * 60 * 24.

(** A thrown JavaScript [Error]; handlers only read its [message]. *)
Inductive Exn := Error (message : string).

Definition message_of (e : Exn) : string :=
  match e with Error m => m end.

(** ** Dates

    A [Date] holds an instant at most 8.64e15 milliseconds from the epoch;
    built from a number beyond that it is an invalid date, and
    [toISOString] of an invalid date throws [RangeError: Invalid time
    value].  An ISO string is modelled by the instant it spells. *)

Definition MAX_TIME : Z := 8640000000000000.

Definition Date_valid (ms : Z) : bool :=
  (- MAX_TIME <=? ms) && (ms <=? MAX_TIME).

(** [new Date(ms).toISOString()] *)
Definition toISOString (ms : Z) : Exn + Z :=
  if Date_valid ms then inr ms else inl (Error "Invalid time value").

(** ** Lookups in object literals

    The code keeps its small tables as object literals and reads them as
    [table[key] || fallback].  For a key the literal does not list, the
    lookup is [undefined] and the fallback is taken, unless the key is one
    of the names every object inherits from [Object.prototype]: then the
    lookup yields the inherited member, which is truthy, and the fallback
    is not taken.  The tables below are modelled on the keys that are not
    inherited names; the properties that depend on a lookup say so. *)

Definition Object_prototype_names : list string :=
  ["constructor"; "__defineGetter__"; "__defineSetter__"; "hasOwnProperty";
   "__lookupGetter__"; "__lookupSetter__"; "isPrototypeOf";
   "propertyIsEnumerable"; "toString"; "valueOf"; "__proto__";
   "toLocaleString"].

(** The key names a member of [Object.prototype]. *)
Definition inherited (k : string) : bool :=
  existsb (String.eqb k) Object_prototype_names.

(** ** Plan hierarchy resolver (change-plan and preview-plan-change) *)

(** The four plan types of the data model. *)
Inductive Plan := Trial | Monthly | Semiannual | Annual.

Definition plan_name (p : Plan) : string :=
  match p with
  | Trial => "trial"
  | Monthly => "monthly"
  | Semiannual => "semiannual"
  | Annual => "annual"
  end.

(** [const PLAN_HIERARCHY = { 'trial': 0, 'monthly': 1, 'semiannual': 2,
    'annual': 3 }], as a lookup that is [undefined] elsewhere (for a key
    that is not [inherited]). *)
Definition PLAN_HIERARCHY (k : string) : option Z :=
  if k === "trial" then Some 0
  else if k === "monthly" then Some 1
  else if k === "semiannual" then Some 2
  else if k === "annual" then Some 3
  else None.

(** [PLAN_HIERARCHY[k] || 0], for a key that is not [inherited]; for an
    inherited name the code gets a function, and both of its comparisons
    with a level are false. *)
Definition plan_level (k : string) : Z :=
  nullish_def (js_orZ (PLAN_HIERARCHY k) (Some 0)) 0.

(** [const isUpgrade = newPlanLevel > currentPlanLevel] *)
Definition isUpgrade (current target : string) : bool :=
  plan_level target >? plan_level current.

(** [const isDowngrade = newPlanLevel < currentPlanLevel], as in the
    preview handler. *)
Definition isDowngrade (current target : string) : bool :=
  plan_level target <? plan_level current.

(** The four-way disjunction computed by both handlers. *)
Definition hasIntervalChange (current target : string) : bool :=
  ((current === "monthly") && (target !== "monthly")) ||
  ((current !== "monthly") && (target === "monthly")) ||
  ((current === "semiannual") && (target === "annual")) ||
  ((current === "annual") && (target === "semiannual")).

(** [const isDowngrade = newPlanLevel < currentPlanLevel &&
    !hasIntervalChange], as in the change-plan handler after the remote
    update. *)
Definition isDeferredDowngrade (current target : string) : bool :=
  (plan_level target <? plan_level current) &&
  negb (hasIntervalChange current target).

(** ** Remote (Stripe) objects *)

(** Metadata maps are small string-keyed objects. *)
Definition Metadata := list (string * string).

Fixpoint md_get (k : string) (m : Metadata) : option string :=
  match m with
  | [] => None
  | (k', v) :: m' => if k' === k then Some v else md_get k m'
  end.

(** Object spread followed by a key: the key is overwritten in place when
    present, appended otherwise. *)
Fixpoint md_set (k v : string) (m : Metadata) : Metadata :=
  match m with
  | [] => [(k, v)]
  | (k', v') :: m' =>
      if k' === k then (k, v) :: m' else (k', v') :: md_set k v m'
  end.

(** [invoice.payment_intent]: an id, an expanded object, or absent. *)
Inductive PaymentIntentRef :=
| PI_none
| PI_id (id : string)
| PI_object (client_secret : option string).

(** [(x.payment_intent as any)?.client_secret] *)
Definition pi_client_secret (p : PaymentIntentRef) : option string :=
  match p with
  | PI_object cs => cs
  | _ => None
  end.

Record InvoicePeriod := {
  ip_start : option Z;
  ip_end : option Z
}.

Record LineItem := {
  li_period : option InvoicePeriod;
  li_description : option string
}.

(** [invoice.customer]: a string id or an expanded object with an [id]. *)
Inductive CustomerRef :=
| Cust_none
| Cust_id (id : string)
| Cust_object (id : option string).

(** The remote invoice payload, with the fields the handlers read. *)
Record Invoice := {
  inv_id : string;
  inv_customer : CustomerRef;
  inv_subscription : option string;
  inv_total : option Z;
  inv_amount_paid : option Z;
  inv_amount_due : option Z;
  inv_subtotal : option Z;
  inv_tax : option Z;
  inv_discount : option (option Z);          (* discount?.amount *)
  inv_total_discount_amounts : option (list Z);
  inv_lines : list LineItem;                 (* lines?.data *)
  inv_period_start : option Z;
  inv_period_end : option Z;
  inv_currency : option string;
  inv_status : option string;
  inv_created : option Z;
  inv_paid_at : option Z;                    (* status_transitions?.paid_at *)
  inv_due_date : option Z;
  inv_invoice_pdf : option string;
  inv_hosted_invoice_url : option string;
  inv_charge : option string;
  inv_payment_intent : PaymentIntentRef;
  inv_description : option string;
  inv_number : option string;
  inv_metadata : option Metadata
}.

(** [subscription.latest_invoice]: an id, an expanded invoice, or absent. *)
Inductive LatestInvoice :=
| LI_none
| LI_id (id : string)
| LI_object (inv : Invoice).

(** The remote subscription object.  The two period fields are modelled
    as present, whole numbers of seconds, as the provider sends them; a
    subscription object without them is outside the model. *)
Record Subscription := {
  sub_id : string;
  sub_status : string;
  sub_customer : string;
  sub_current_period_start : Z;    (* Unix seconds *)
  sub_current_period_end : Z;      (* Unix seconds *)
  sub_cancel_at_period_end : bool;
  sub_metadata : Metadata;
  sub_item0_id : string;           (* items.data[0].id *)
  sub_latest_invoice : LatestInvoice
}.

(** ** Period calculator (stripe-webhook) *)

Record PeriodCalculation := {
  start : Z;          (* Date, as milliseconds since the epoch *)
  end_ : Z;           (* Date, as milliseconds since the epoch *)
  source : string;
  durationDays : Z;
  isAccurate : bool
}.

(** The object [calculatePeriodFromStripe] builds from its two dates, when
    both are valid: start, end, the duration in days and the band test. *)
Definition stripe_period (subscription : Subscription)
    (planType : string) : PeriodCalculation :=
  let start := sub_current_period_start subscription * 1000 in
  let end_ := sub_current_period_end subscription * 1000 in
  let durationDays := ceil_div (end_ - start) MS_PER_DAY in
  let isAccurate :=
    if planType === "monthly" then
      (durationDays >=? 28) && (durationDays <=? 31)
    else if planType === "semiannual" then
      (durationDays >=? 180) && (durationDays <=? 186)
    else if planType === "annual" then
      (durationDays >=? 360) && (durationDays <=? 370)
    else if planType === "trial" then
      (durationDays >=? 28) && (durationDays <=? 32)
    else true in
  {| start := start;
     end_ := end_;
     source := "stripe_subscription";
     durationDays := durationDays;
     isAccurate := isAccurate |}.

(** [function calculatePeriodFromStripe(subscription, planType)]: before
    it returns the object it logs [start.toISOString()] and
    [end.toISOString()], so that it throws when either date is invalid. *)
Definition calculatePeriodFromStripe (subscription : Subscription)
    (planType : string) : Exn + PeriodCalculation :=
  let periodCalculation := stripe_period subscription planType in
  match toISOString (start periodCalculation) with
  | inl e => inl e
  | inr _ =>
      match toISOString (end_ periodCalculation) with
      | inl e => inl e
      | inr _ => inr periodCalculation
      end
  end.

(** The tolerance band of a plan type, in days. *)
Definition band (p : Plan) : Z * Z :=
  match p with
  | Monthly => (28, 31)
  | Semiannual => (180, 186)
  | Annual => (360, 370)
  | Trial => (28, 32)
  end.

Definition in_band (p : Plan) (d : Z) : bool :=
  (fst (band p) <=? d) && (d <=? snd (band p)).

(** ** Local store *)

(** The [pending_plan_change] JSONB column of the migration:
    [{ plan_type: string, price_id: string, requested_at: timestamp }]. *)
Record PendingPlanChange := {
  ppc_plan_type : string;
  ppc_price_id : string;
  ppc_requested_at : Z
}.

(** One row of the [subscriptions] table. *)
Record SubscriptionRow := {
  id : string;
  user_id : string;
  restaurant_id : option string;
  stripe_customer_id : option string;
  stripe_subscription_id : option string;
  plan_type : string;
  status : string;
  current_period_start : Z;
  current_period_end : Z;
  cancel_at_period_end : bool;
  card_fingerprint : option string;
  pending_plan_change : option PendingPlanChange;
  scheduled_payment_method_id : option string;
  updated_at : Z
}.

(** The object handed to [.update(...)]: a key that is absent (or whose
    value is [undefined]) leaves the column as it is. *)
Record RowPatch := {
  set_plan_type : option string;
  set_status : option string;
  set_stripe_subscription_id : option (option string);
  set_stripe_customer_id : option string;
  set_current_period_start : option Z;
  set_current_period_end : option Z;
  set_cancel_at_period_end : option bool;
  set_card_fingerprint : option string;
  set_pending_plan_change : option (option PendingPlanChange);
  set_scheduled_payment_method_id : option string;
  set_updated_at : option Z
}.

Definition apply_patch (p : RowPatch) (r : SubscriptionRow) : SubscriptionRow :=
  {| id := id r;
     user_id := user_id r;
     restaurant_id := restaurant_id r;
     stripe_customer_id :=
       match set_stripe_customer_id p with
       | Some c => Some c
       | None => stripe_customer_id r
       end;
     stripe_subscription_id :=
       nullish_def (set_stripe_subscription_id p) (stripe_subscription_id r);
     plan_type := nullish_def (set_plan_type p) (plan_type r);
     status := nullish_def (set_status p) (status r);
     current_period_start :=
       nullish_def (set_current_period_start p) (current_period_start r);
     current_period_end :=
       nullish_def (set_current_period_end p) (current_period_end r);
     cancel_at_period_end :=
       nullish_def (set_cancel_at_period_end p) (cancel_at_period_end r);
     card_fingerprint :=
       match set_card_fingerprint p with
       | Some f => Some f
       | None => card_fingerprint r
       end;
     pending_plan_change :=
       nullish_def (set_pending_plan_change p) (pending_plan_change r);
     scheduled_payment_method_id :=
       match set_scheduled_payment_method_id p with
       | Some m => Some m
       | None => scheduled_payment_method_id r
       end;
     updated_at := nullish_def (set_updated_at p) (updated_at r) |}.

(** One row of the [restaurants] table, as far as the persister reads it. *)
Record Restaurant := {
  owner_id : string;
  name : option string
}.

(** One row of the [invoices] table, as written by the persister. *)
Record InvoiceRow := {
  stripe_invoice_id : string;
  ir_user_id : string;
  ir_subscription_id : option string;
  total : Z;
  subtotal : Z;
  tax : Z;
  discount : Z;
  currency : string;
  ir_status : string;
  invoice_date : option Z;
  paid_at : option Z;
  due_date : option Z;
  period_start : option Z;
  period_end : option Z;
  invoice_pdf : option string;
  hosted_invoice_url : option string;
  payment_method : string;
  description : string;
  invoice_number : string;
  restaurant_name : string;
  metadata : Metadata;
  raw : Invoice;
  ir_updated_at : Z
}.

(** ** Remote calls *)

(** [trial_end]: the literal ['now'] or a Unix timestamp. *)
Inductive TrialEnd :=
| TE_now
| TE_at (t : Z).

(** The second argument of [stripe.subscriptions.update]. *)
Record UpdateParams := {
  up_items : option (string * string);       (* [{ id, price }] *)
  up_metadata : option Metadata;
  up_cancel_at_period_end : option bool;
  up_default_payment_method : option string;
  up_trial_end : option TrialEnd;
  up_proration_behavior : option string;
  up_billing_cycle_anchor : option string
}.

(** The argument of [stripe.subscriptions.create]. *)
Record CreateParams := {
  cp_customer : option string;
  cp_price : option string;                  (* items: [{ price }] *)
  cp_default_payment_method : option string;
  cp_trial_period_days : option Z;
  cp_trial_end : option Z;
  cp_cancel_at_period_end : option bool;
  cp_metadata : Metadata
}.

(** The calls a handler issues to the billing provider. *)
Inductive Call :=
| PaymentMethodsRetrieve (pm : string)
| CustomersCreate (email : option string) (supabase_user_id : string)
| PaymentMethodsAttach (pm : string) (customer : string)
| CustomersUpdate (customer : string) (default_payment_method : string)
| SubscriptionsRetrieve (sub : option string)
| SubscriptionsUpdate (sub : option string) (params : UpdateParams)
| SubscriptionsCreate (params : CreateParams)
| InvoicesRetrieve (inv : LatestInvoice).


(** The history of an invocation: each call issued so far, with the error
    it threw, if any. *)
Definition Log := list (Call * option Exn).

Definition outcome {A : Type} (r : Exn + A) : option Exn :=
  match r with
  | inl e => Some e
  | inr _ => None
  end.

(** The billing provider, seen from a handler: every call is answered (or
    throws) as a function of the calls issued before it and of its
    arguments. *)
Record Stripe := {
  paymentMethods_retrieve : Log -> string -> Exn + option string;
  customers_create : Log -> option string -> string -> Exn + string;
  paymentMethods_attach : Log -> string -> string -> Exn + unit;
  customers_update : Log -> string -> string -> Exn + unit;
  subscriptions_retrieve : Log -> option string -> Exn + Subscription;
  subscriptions_update :
    Log -> option string -> UpdateParams -> Exn + Subscription;
  subscriptions_create : Log -> CreateParams -> Exn + Subscription;
  invoices_retrieve : Log -> LatestInvoice -> Exn + Invoice
}.

(** ** Handler monad: state with exceptions that keep the state *)

(** What an invocation can change or observe: the two tables it writes,
    the table it reads, and the remote calls issued so far. *)
Record World := {
  subscriptions : list SubscriptionRow;
  invoices : list InvoiceRow;
  restaurants : list Restaurant;
  calls : Log
}.

Definition M (A : Type) : Type := World -> (Exn + A) * World.

Definition ret {A : Type} (a : A) : M A := fun w => (inr a, w).

Definition bind {A B : Type} (m : M A) (k : A -> M B) : M B :=
  fun w =>
    match m w with
    | (inl e, w') => (inl e, w')
    | (inr a, w') => k a w'
    end.

Notation "x <- m ;; k" := (bind m (fun x => k))
  (at level 61, m at next level, right associativity).
Notation "m ;;; k" := (bind m (fun _ => k))
  (at level 61, right associativity).

(** [throw new Error(msg)] *)
Definition throw {A : Type} (msg : string) : M A := fun w => (inl (Error msg), w).

(** [throw e] *)
Definition rethrow {A : Type} (e : Exn) : M A := fun w => (inl e, w).

(** A synchronous computation that may throw. *)
Definition lift {A : Type} (r : Exn + A) : M A := fun w => (r, w).

(** [try { m } catch (e) { h e }]: effects of [m] before the throw stay. *)
Definition try_catch {A : Type} (m : M A) (h : Exn -> M A) : M A :=
  fun w =>
    match m w with
    | (inl e, w') => h e w'
    | (inr a, w') => (inr a, w')
    end.

(** [if (c) { m }] *)
Definition when (c : bool) (m : M unit) : M unit :=
  if c then m else ret tt.

(** A truthiness test followed by a throw: [if (!v) throw new Error(msg)]. *)
Definition require (v : option string) (msg : string) : M string :=
  match v with
  | Some s => if s !== "" then ret s else throw msg
  | None => throw msg
  end.

(** Issue a remote call: the answer depends on the history, and the call
    joins the history whether it succeeds or throws. *)
Definition remote {A : Type} (c : Call) (answer : Log -> Exn + A) : M A :=
  fun w =>
    let r := answer (calls w) in
    (r,
     {| subscriptions := subscriptions w;
        invoices := invoices w;
        restaurants := restaurants w;
        calls := calls w ++ [(c, outcome r)] |}).

Definition get_subscriptions : M (list SubscriptionRow) :=
  fun w => (inr (subscriptions w), w).

Definition put_subscriptions (rows : list SubscriptionRow) : M unit :=
  fun w =>
    (inr tt,
     {| subscriptions := rows;
        invoices := invoices w;
        restaurants := restaurants w;
        calls := calls w |}).

Definition get_restaurants : M (list Restaurant) :=
  fun w => (inr (restaurants w), w).

Definition get_invoices : M (list InvoiceRow) :=
  fun w => (inr (invoices w), w).

Definition put_invoices (rows : list InvoiceRow) : M unit :=
  fun w =>
    (inr tt,
     {| subscriptions := subscriptions w;
        invoices := rows;
        restaurants := restaurants w;
        calls := calls w |}).

(** ** Queries on the [subscriptions] table *)

(** Row-level security is not modelled: a query through the caller's
    client and one through the service-role client see the same table.

    [.maybeSingle()] and [.single()] yield [data] only when exactly one row
    matches; otherwise [data] is [null]. *)
Definition exactly_one {A : Type} (l : list A) : option A :=
  match l with
  | [x] => Some x
  | _ => None
  end.

(** [.from('subscriptions').select('*').eq('user_id', uid).maybeSingle()] *)
Definition select_by_user (uid : string) : M (option SubscriptionRow) :=
  rows <- get_subscriptions ;;
  ret (exactly_one (filter (fun r => user_id r === uid) rows)).

(** [.select('*').eq('id', rid).eq('user_id', uid).single()] *)
Definition select_by_id_and_user (rid : option string) (uid : string)
  : M (option SubscriptionRow) :=
  rows <- get_subscriptions ;;
  ret (exactly_one
         (filter (fun r =>
                    match rid with
                    | Some i => (id r === i) && (user_id r === uid)
                    | None => false
                    end) rows)).

(** [.from('subscriptions').update(patch).eq('id', rid)] *)
Definition update_by_id (rid : option string) (p : RowPatch) : M unit :=
  rows <- get_subscriptions ;;
  put_subscriptions
    (map (fun r =>
            match rid with
            | Some i => if id r === i then apply_patch p r else r
            | None => r
            end) rows).

(** [.from('subscriptions').insert(row)] *)
Definition insert_row (r : SubscriptionRow) : M unit :=
  rows <- get_subscriptions ;;
  put_subscriptions (rows ++ [r]).

(** ** Requests and responses *)

(** The authenticated caller ([supabaseClient.auth.getUser()]). *)
Record User := {
  u_id : string;
  u_email : option string
}.

(** The JSON bodies the handlers answer with. *)
Inductive ResponseBody :=
| ErrorBody (error : string)
| ChangePlanBody (success requiresPayment : bool)
    (clientSecret : option string) (message : option string)
| CreatePaymentBody (clientSecret : option string) (subscriptionId : string)
| CancelBody (success : bool) (message : string)
| SuccessBody.

Record Response := {
  http_status : Z;
  body : ResponseBody
}.

(** The [try { ... } catch (error) { return 400 { error: error.message } }]
    wrapper every handler shares. *)
Definition serve (m : M ResponseBody) (w : World) : Response * World :=
  match m w with
  | (inr b, w') => ({| http_status := 200; body := b |}, w')
  | (inl e, w') =>
      ({| http_status := 400; body := ErrorBody (message_of e) |}, w')
  end.

(** [haystack.includes(needle)] *)
Fixpoint includes (needle haystack : string) : bool :=
  String.prefix needle haystack ||
  match haystack with
  | EmptyString => false
  | String _ rest => includes needle rest
  end.

(** The attach-and-set-default block shared by create-payment and
    change-plan: an error whose message mentions "attached" is swallowed. *)
Definition attach_payment_method (stripe : Stripe) (paymentMethodId : option string)
    (stripeCustomerId : string) : M unit :=
  match paymentMethodId with
  | Some pm =>
      when (pm !== "")
        (try_catch
           (remote (PaymentMethodsAttach pm stripeCustomerId)
              (fun h => paymentMethods_attach stripe h pm stripeCustomerId) ;;;
            remote (CustomersUpdate stripeCustomerId pm)
              (fun h => customers_update stripe h stripeCustomerId pm))
           (fun e =>
              if negb (includes "attached" (message_of e))
              then rethrow e else ret tt))
  | None => ret tt
  end.

(** [new Date(sec * 1000).toISOString()], as the instant it denotes. *)
Definition iso_of_seconds (sec : Z) : Z := sec * 1000.

(** ** change-plan handler *)

Record ChangePlanRequest := {
  newPlanType : option string;
  newPriceId : option string;
  cpr_paymentMethodId : option string
}.

(** [isCurrentlyTrial = currentSub.plan_type === 'trial' ||
    stripeStatus === 'trialing'] *)
Definition isCurrentlyTrial (currentSub : SubscriptionRow)
    (stripeSubscription : Subscription) : bool :=
  (plan_type currentSub === "trial") ||
  (sub_status stripeSubscription === "trialing").

(** The [updateParams] object of the change-plan handler: the common part,
    then one of the four branches. *)
Definition change_plan_updateParams (currentSub : SubscriptionRow)
    (stripeSubscription : Subscription) (newPlanType newPriceId : string)
  : UpdateParams :=
  let items := Some (sub_item0_id stripeSubscription, newPriceId) in
  let metadata :=
    Some (md_set "is_trial" "false"
            (md_set "plan_type" newPlanType (sub_metadata stripeSubscription))) in
  if isCurrentlyTrial currentSub stripeSubscription && (newPlanType !== "trial") then
    {| up_items := items; up_metadata := metadata;
       up_cancel_at_period_end := None; up_default_payment_method := None;
       up_trial_end := Some TE_now;
       up_proration_behavior := Some "create_prorations";
       up_billing_cycle_anchor := Some "now" |}
  else if hasIntervalChange (plan_type currentSub) newPlanType then
    {| up_items := items; up_metadata := metadata;
       up_cancel_at_period_end := None; up_default_payment_method := None;
       up_trial_end := None;
       up_proration_behavior := Some "create_prorations";
       up_billing_cycle_anchor := Some "now" |}
  else if isUpgrade (plan_type currentSub) newPlanType then
    {| up_items := items; up_metadata := metadata;
       up_cancel_at_period_end := None; up_default_payment_method := None;
       up_trial_end := None;
       up_proration_behavior := Some "create_prorations";
       up_billing_cycle_anchor := Some "unchanged" |}
  else
    {| up_items := items; up_metadata := metadata;
       up_cancel_at_period_end := None; up_default_payment_method := None;
       up_trial_end := None;
       up_proration_behavior := Some "none";
       up_billing_cycle_anchor := Some "unchanged" |}.

(** The [dbUpdate] object of the change-plan handler: [plan_type] is only
    assigned when the change is not a deferred downgrade. *)
Definition change_plan_dbUpdate (now : Z) (currentSub : SubscriptionRow)
    (updatedSubscription : Subscription) (newPlanType : string) : RowPatch :=
  {| set_plan_type :=
       if negb (isDeferredDowngrade (plan_type currentSub) newPlanType)
       then Some newPlanType else None;
     set_status := Some (sub_status updatedSubscription);
     set_stripe_subscription_id := None;
     set_stripe_customer_id := None;
     set_current_period_start :=
       Some (iso_of_seconds (sub_current_period_start updatedSubscription));
     set_current_period_end :=
       Some (iso_of_seconds (sub_current_period_end updatedSubscription));
     set_cancel_at_period_end := Some false;
     set_card_fingerprint := None;
     set_pending_plan_change := None;
     set_scheduled_payment_method_id := None;
     set_updated_at := Some now |}.

(** The message of the payment-required answer. *)
Definition change_plan_message (trial interval upgrade : bool) : string :=
  if trial then "Trial converted to paid plan."
  else if interval then
    "Billing interval changed. You'll be charged the prorated amount for the new plan."
  else if upgrade then
    "Plan upgraded. You'll be charged the prorated difference."
  else "Plan changed successfully.".

(** The body of the [try] block of the change-plan handler. *)
Definition change_plan_body (stripe : Stripe) (now : Z) (user : option User)
    (req : ChangePlanRequest) : M ResponseBody :=
  match user with
  | None => throw "Unauthorized"
  | Some user =>
    if negb (truthy (newPriceId req)) || negb (truthy (newPlanType req)) then
      throw "Missing required parameters"
    else
    let newPriceId := nullish_def (newPriceId req) "" in
    let newPlanType := nullish_def (newPlanType req) "" in
    found <- select_by_user (u_id user) ;;
    match found with
    | None =>
        throw "No subscription found. Please create a new subscription from the upgrade page."
    | Some currentSub =>
      stripeCustomerId <-
        require (stripe_customer_id currentSub) "No Stripe customer found" ;;
      attach_payment_method stripe (cpr_paymentMethodId req) stripeCustomerId ;;;
      stripeSubscriptionId <-
        require (stripe_subscription_id currentSub)
          "No active Stripe subscription found. Please purchase a new plan from the upgrade page." ;;
      stripeSubscription <-
        try_catch
          (remote (SubscriptionsRetrieve (Some stripeSubscriptionId))
             (fun h => subscriptions_retrieve stripe h (Some stripeSubscriptionId)))
          (fun _ =>
             throw "Stripe subscription not found. Please purchase a new plan from the upgrade page.") ;;
      let stripeStatus := sub_status stripeSubscription in
      let isCanceled := stripeStatus === "canceled" in
      let isExpired :=
        sub_current_period_end stripeSubscription * 1000 <=? now in
      let isTrial := isCurrentlyTrial currentSub stripeSubscription in
      if isCanceled && isExpired then
        let params :=
          {| cp_customer := Some stripeCustomerId;
             cp_price := Some newPriceId;
             cp_default_payment_method := cpr_paymentMethodId req;
             cp_trial_period_days := None;
             cp_trial_end := None;
             cp_cancel_at_period_end := None;
             cp_metadata :=
               [("user_id", u_id user); ("plan_type", newPlanType);
                ("is_trial", "false")] |} in
        newSubscription <-
          remote (SubscriptionsCreate params)
            (fun h => subscriptions_create stripe h params) ;;
        update_by_id (Some (id currentSub))
          {| set_plan_type := Some newPlanType;
             set_status := Some (sub_status newSubscription);
             set_stripe_subscription_id := Some (Some (sub_id newSubscription));
             set_stripe_customer_id := None;
             set_current_period_start :=
               Some (iso_of_seconds (sub_current_period_start newSubscription));
             set_current_period_end :=
               Some (iso_of_seconds (sub_current_period_end newSubscription));
             set_cancel_at_period_end := Some false;
             set_card_fingerprint := None;
             set_pending_plan_change := None;
             set_scheduled_payment_method_id := None;
             set_updated_at := Some now |} ;;;
        latestInvoice <-
          remote (InvoicesRetrieve (sub_latest_invoice newSubscription))
            (fun h => invoices_retrieve stripe h (sub_latest_invoice newSubscription)) ;;
        ret (ChangePlanBody true true
               (pi_client_secret (inv_payment_intent latestInvoice)) None)
      else
        let upgrade := isUpgrade (plan_type currentSub) newPlanType in
        let interval := hasIntervalChange (plan_type currentSub) newPlanType in
        let updateParams :=
          change_plan_updateParams currentSub stripeSubscription
            newPlanType newPriceId in
        updatedSubscription <-
          remote (SubscriptionsUpdate (Some stripeSubscriptionId) updateParams)
            (fun h => subscriptions_update stripe h (Some stripeSubscriptionId)
                        updateParams) ;;
        update_by_id (Some (id currentSub))
          (change_plan_dbUpdate now currentSub updatedSubscription newPlanType) ;;;
        let deferred :=
          ret (ChangePlanBody true false None
                 (Some "Plan change will take effect at the end of your current billing period.")) in
        if isTrial || upgrade || interval then
          latestInvoice <-
            remote (InvoicesRetrieve (sub_latest_invoice updatedSubscription))
              (fun h => invoices_retrieve stripe h
                          (sub_latest_invoice updatedSubscription)) ;;
          let clientSecret := pi_client_secret (inv_payment_intent latestInvoice) in
          if truthy clientSecret then
            ret (ChangePlanBody true true clientSecret
                   (Some (change_plan_message isTrial interval upgrade)))
          else deferred
        else deferred
    end
  end.

(** The change-plan handler for a POST request. *)
Definition change_plan (stripe : Stripe) (now : Z) (user : option User)
    (req : ChangePlanRequest) : World -> Response * World :=
  serve (change_plan_body stripe now user req).

(** ** cancel-subscription handler *)

Record CancelRequest := {
  cr_subscriptionId : option string
}.

Definition cancel_params : UpdateParams :=
  {| up_items := None; up_metadata := None;
     up_cancel_at_period_end := Some true; up_default_payment_method := None;
     up_trial_end := None; up_proration_behavior := None;
     up_billing_cycle_anchor := None |}.

Definition cancel_subscription_body (stripe : Stripe) (now : Z)
    (user : option User) (req : CancelRequest) : M ResponseBody :=
  match user with
  | None => throw "Unauthorized"
  | Some user =>
    found <- select_by_id_and_user (cr_subscriptionId req) (u_id user) ;;
    match found with
    | None => throw "Subscription not found"
    | Some currentSub =>
      sid <- require (stripe_subscription_id currentSub)
               "No Stripe subscription found" ;;
      remote (SubscriptionsUpdate (Some sid) cancel_params)
        (fun h => subscriptions_update stripe h (Some sid) cancel_params) ;;;
      update_by_id (cr_subscriptionId req)
        {| set_plan_type := None;
           set_status := Some "cancelled";
           set_stripe_subscription_id := None;
           set_stripe_customer_id := None;
           set_current_period_start := None;
           set_current_period_end := None;
           set_cancel_at_period_end := Some true;
           set_card_fingerprint := None;
           set_pending_plan_change := None;
           set_scheduled_payment_method_id := None;
           set_updated_at := Some now |} ;;;
      ret (CancelBody true
             "Subscription will be canceled at the end of the billing period")
    end
  end.

Definition cancel_subscription (stripe : Stripe) (now : Z) (user : option User)
    (req : CancelRequest) : World -> Response * World :=
  serve (cancel_subscription_body stripe now user req).

(** ** reactivate-subscription handlers

    The repository carries three versions of this handler.  They share the
    request and the lookup of the caller's row and differ in what they do
    with a remote subscription that is no longer active. *)

Record ReactivateRequest := {
  rr_subscriptionId : option string;
  rr_paymentMethodId : option string;
  rr_priceId : option string
}.

(** [{ cancel_at_period_end: false, default_payment_method: paymentMethodId }] *)
Definition resume_params (paymentMethodId : option string) : UpdateParams :=
  {| up_items := None; up_metadata := None;
     up_cancel_at_period_end := Some false;
     up_default_payment_method := paymentMethodId;
     up_trial_end := None; up_proration_behavior := None;
     up_billing_cycle_anchor := None |}.

(** [{ status: 'active', cancel_at_period_end: false, updated_at }] *)
Definition resume_patch (now : Z) : RowPatch :=
  {| set_plan_type := None;
     set_status := Some "active";
     set_stripe_subscription_id := None;
     set_stripe_customer_id := None;
     set_current_period_start := None;
     set_current_period_end := None;
     set_cancel_at_period_end := Some false;
     set_card_fingerprint := None;
     set_pending_plan_change := None;
     set_scheduled_payment_method_id := None;
     set_updated_at := Some now |}.

Definition MSG_EXPIRED : string :=
  "Subscription has expired. Please purchase a new plan from the upgrade page.".

Definition MSG_NOT_IN_STRIPE : string :=
  "Subscription not found in Stripe. Please purchase a new plan from the upgrade page.".

Definition MSG_CANNOT_REACTIVATE : string :=
  "Cannot reactivate subscription in current state. Please purchase a new plan from the upgrade page.".

(** Version that resumes: a remote status of [active], [trialing] or
    [canceled] is answered by an update of the existing remote
    subscription. *)
Definition reactivate_subscription_body (stripe : Stripe) (now : Z)
    (user : option User) (req : ReactivateRequest) : M ResponseBody :=
  match user with
  | None => throw "Unauthorized"
  | Some user =>
    found <- select_by_id_and_user (rr_subscriptionId req) (u_id user) ;;
    match found with
    | None => throw "Subscription not found"
    | Some currentSub =>
      let periodEnd := current_period_end currentSub in
      let isExpired := periodEnd <=? now in
      if isExpired then throw MSG_EXPIRED else
      stripeStatus <-
        try_catch
          (s <- remote (SubscriptionsRetrieve (stripe_subscription_id currentSub))
                  (fun h => subscriptions_retrieve stripe h
                              (stripe_subscription_id currentSub)) ;;
           ret (sub_status s))
          (fun _ => throw MSG_NOT_IN_STRIPE) ;;
      if (stripeStatus === "active") || (stripeStatus === "trialing") ||
         (stripeStatus === "canceled") then
        remote (SubscriptionsUpdate (stripe_subscription_id currentSub)
                  (resume_params (rr_paymentMethodId req)))
          (fun h => subscriptions_update stripe h
                      (stripe_subscription_id currentSub)
                      (resume_params (rr_paymentMethodId req))) ;;;
        update_by_id (rr_subscriptionId req) (resume_patch now) ;;;
        ret SuccessBody
      else throw MSG_CANNOT_REACTIVATE
    end
  end.

Definition reactivate_subscription (stripe : Stripe) (now : Z)
    (user : option User) (req : ReactivateRequest) : World -> Response * World :=
  serve (reactivate_subscription_body stripe now user req).

(** Version that recreates a fully canceled remote subscription, carrying
    the remaining paid time over as a trial. *)
Definition reactivate_recreate_canceled_body (stripe : Stripe) (now : Z)
    (user : option User) (req : ReactivateRequest) : M ResponseBody :=
  match user with
  | None => throw "Unauthorized"
  | Some user =>
    found <- select_by_id_and_user (rr_subscriptionId req) (u_id user) ;;
    match found with
    | None => throw "Subscription not found"
    | Some currentSub =>
      let periodEnd := current_period_end currentSub in
      let isExpired := periodEnd <=? now in
      if isExpired then throw MSG_EXPIRED else
      if negb (truthy (stripe_subscription_id currentSub)) then
        throw "No Stripe subscription found. Please purchase a new plan from the upgrade page."
      else
      stripeSubscription <-
        try_catch
          (remote (SubscriptionsRetrieve (stripe_subscription_id currentSub))
             (fun h => subscriptions_retrieve stripe h
                         (stripe_subscription_id currentSub)))
          (fun _ => throw MSG_NOT_IN_STRIPE) ;;
      let stripeStatus := sub_status stripeSubscription in
      if (stripeStatus === "active") || (stripeStatus === "trialing") then
        remote (SubscriptionsUpdate (stripe_subscription_id currentSub)
                  (resume_params (rr_paymentMethodId req)))
          (fun h => subscriptions_update stripe h
                      (stripe_subscription_id currentSub)
                      (resume_params (rr_paymentMethodId req))) ;;;
        update_by_id (rr_subscriptionId req) (resume_patch now) ;;;
        ret SuccessBody
      else if stripeStatus === "canceled" then
        let remainingSeconds := (periodEnd - now) / 1000 in
        let trialEnd :=
          if remainingSeconds >? 0 then Some (periodEnd / 1000) else None in
        let params :=
          {| cp_customer := stripe_customer_id currentSub;
             cp_price := rr_priceId req;
             cp_default_payment_method := rr_paymentMethodId req;
             cp_trial_period_days := None;
             cp_trial_end := trialEnd;
             cp_cancel_at_period_end := None;
             cp_metadata :=
               [("user_id", u_id user);
                ("plan_type", plan_type currentSub);
                ("is_trial",
                 if plan_type currentSub === "trial" then "true" else "false")] |} in
        newSubscription <-
          remote (SubscriptionsCreate params)
            (fun h => subscriptions_create stripe h params) ;;
        update_by_id (rr_subscriptionId req)
          {| set_plan_type := None;
             set_status := Some "active";
             set_stripe_subscription_id := Some (Some (sub_id newSubscription));
             set_stripe_customer_id := None;
             set_current_period_start :=
               Some (iso_of_seconds (sub_current_period_start newSubscription));
             set_current_period_end :=
               Some (iso_of_seconds (sub_current_period_end newSubscription));
             set_cancel_at_period_end := Some false;
             set_card_fingerprint := None;
             set_pending_plan_change := None;
             set_scheduled_payment_method_id := None;
             set_updated_at := Some now |} ;;;
        ret SuccessBody
      else throw MSG_CANNOT_REACTIVATE
    end
  end.

Definition reactivate_recreate_canceled (stripe : Stripe) (now : Z)
    (user : option User) (req : ReactivateRequest) : World -> Response * World :=
  serve (reactivate_recreate_canceled_body stripe now user req).

(** Version that recreates whenever the remote subscription is neither
    [active] nor [trialing] (a failed retrieval counts as ['missing']). *)
Definition reactivate_recreate_any_body (stripe : Stripe) (now : Z)
    (user : option User) (req : ReactivateRequest) : M ResponseBody :=
  match user with
  | None => throw "Unauthorized"
  | Some user =>
    found <- select_by_id_and_user (rr_subscriptionId req) (u_id user) ;;
    match found with
    | None => throw "Subscription not found"
    | Some currentSub =>
      stripeStatus <-
        try_catch
          (s <- remote (SubscriptionsRetrieve (stripe_subscription_id currentSub))
                  (fun h => subscriptions_retrieve stripe h
                              (stripe_subscription_id currentSub)) ;;
           ret (sub_status s))
          (fun _ => ret "missing") ;;
      newStripeSubscriptionId <-
        (if (stripeStatus === "active") || (stripeStatus === "trialing") then
           remote (SubscriptionsUpdate (stripe_subscription_id currentSub)
                     (resume_params (rr_paymentMethodId req)))
             (fun h => subscriptions_update stripe h
                         (stripe_subscription_id currentSub)
                         (resume_params (rr_paymentMethodId req))) ;;;
           ret (stripe_subscription_id currentSub)
         else
           let periodEnd := current_period_end currentSub in
           let trialEndTimestamp :=
             if periodEnd >? now then Some (periodEnd / 1000) else None in
           let params :=
             {| cp_customer := stripe_customer_id currentSub;
                cp_price := rr_priceId req;
                cp_default_payment_method := rr_paymentMethodId req;
                cp_trial_period_days := None;
                cp_trial_end := trialEndTimestamp;
                cp_cancel_at_period_end := None;
                cp_metadata :=
                  [("user_id", u_id user);
                   ("plan_type", plan_type currentSub)] |} in
           newSub <-
             remote (SubscriptionsCreate params)
               (fun h => subscriptions_create stripe h params) ;;
           ret (Some (sub_id newSub))) ;;
      update_by_id (rr_subscriptionId req)
        {| set_plan_type := None;
           set_status := Some "active";
           set_stripe_subscription_id := Some newStripeSubscriptionId;
           set_stripe_customer_id := None;
           set_current_period_start := None;
           set_current_period_end := None;
           set_cancel_at_period_end := Some false;
           set_card_fingerprint := None;
           set_pending_plan_change := None;
           set_scheduled_payment_method_id := rr_paymentMethodId req;
           set_updated_at := Some now |} ;;;
      ret SuccessBody
    end
  end.

Definition reactivate_recreate_any (stripe : Stripe) (now : Z)
    (user : option User) (req : ReactivateRequest) : World -> Response * World :=
  serve (reactivate_recreate_any_body stripe now user req).

(** ** create-payment handler *)

Record CreatePaymentRequest := {
  planType : string;
  autoRenew : bool;
  paymentMethodId : option string;
  priceId : option string;
  isTrial : bool
}.

Definition MSG_DUPLICATE_TRIAL_CARD : string :=
  "This card has already been used for a trial.".

(** Step 1 (first half): resolve the card fingerprint of the supplied
    payment method; a failed retrieval leaves it [null]. *)
Definition resolve_fingerprint (stripe : Stripe) (paymentMethodId : option string)
  : M (option string) :=
  match paymentMethodId with
  | Some pm =>
      if pm !== "" then
        try_catch
          (fp <- remote (PaymentMethodsRetrieve pm)
                   (fun h => paymentMethods_retrieve stripe h pm) ;;
           ret (js_or fp None))
          (fun _ => ret None)
      else ret None
  | None => ret None
  end.

(** [.select('id').eq('card_fingerprint', fp).neq('user_id', uid).limit(1)]
    has a row. *)
Definition has_duplicate_fingerprint (fp uid : string)
    (rows : list SubscriptionRow) : bool :=
  existsb (fun r =>
             match card_fingerprint r with
             | Some f => (f === fp) && (user_id r !== uid)
             | None => false
             end) rows.

(** Step 1 (second half): the trial fingerprint guard. *)
Definition trial_fingerprint_guard (isTrial : bool) (cardFingerprint : option string)
    (uid : string) : M unit :=
  if isTrial && truthy cardFingerprint then
    rows <- get_subscriptions ;;
    if has_duplicate_fingerprint (nullish_def cardFingerprint "") uid rows
    then throw MSG_DUPLICATE_TRIAL_CARD
    else ret tt
  else ret tt.

(** [String(!!b)] *)
Definition string_of_bool (b : bool) : string :=
  if b then "true" else "false".

(** [(subscription.latest_invoice as any)?.payment_intent?.client_secret] *)
Definition latest_invoice_client_secret (l : LatestInvoice) : option string :=
  match l with
  | LI_object inv => pi_client_secret (inv_payment_intent inv)
  | _ => None
  end.

(** Steps 2 to 4 of the create-payment handler (customer setup, create or
    update, database write), for the price and the card fingerprint that
    step 1 settled.  [new_id] is the primary key the database draws for an
    inserted row. *)
Definition create_payment_after_check (stripe : Stripe) (now : Z)
    (new_id : string) (user : User) (req : CreatePaymentRequest)
    (priceId : string) (cardFingerprint : option string) : M ResponseBody :=
    dbSub <- select_by_user (u_id user) ;;
    stripeCustomerId <-
      (match dbSub with
       | Some r =>
           if truthy (stripe_customer_id r)
           then ret (nullish_def (stripe_customer_id r) "")
           else remote (CustomersCreate (u_email user) (u_id user))
                  (fun h => customers_create stripe h (u_email user) (u_id user))
       | None =>
           remote (CustomersCreate (u_email user) (u_id user))
             (fun h => customers_create stripe h (u_email user) (u_id user))
       end) ;;
    attach_payment_method stripe (paymentMethodId req) stripeCustomerId ;;;
    let storedSubId :=
      match dbSub with
      | Some r => stripe_subscription_id r
      | None => None
      end in
    activeStripeSubId <-
      (if truthy storedSubId then
         try_catch
           (s <- remote (SubscriptionsRetrieve storedSubId)
                   (fun h => subscriptions_retrieve stripe h storedSubId) ;;
            ret (if sub_status s === "canceled" then None else storedSubId))
           (fun _ => ret None)
       else ret storedSubId) ;;
    let finalPlanType := if isTrial req then "trial" else planType req in
    subscription <-
      (if truthy activeStripeSubId then
         currentSub <-
           remote (SubscriptionsRetrieve activeStripeSubId)
             (fun h => subscriptions_retrieve stripe h activeStripeSubId) ;;
         let isSwitchingFromRealTrial :=
           match dbSub with
           | Some r => plan_type r === "trial"
           | None => false
           end in
         let items := Some (sub_item0_id currentSub, priceId) in
         let metadata :=
           Some [("plan_type", finalPlanType);
                 ("is_trial", string_of_bool (isTrial req))] in
         let updateParams :=
           if isSwitchingFromRealTrial && negb (isTrial req) then
             {| up_items := items; up_metadata := metadata;
                up_cancel_at_period_end := Some (negb (autoRenew req));
                up_default_payment_method := None;
                up_trial_end := Some TE_now;
                up_proration_behavior := Some "create_prorations";
                up_billing_cycle_anchor := None |}
           else
             {| up_items := items; up_metadata := metadata;
                up_cancel_at_period_end := Some (negb (autoRenew req));
                up_default_payment_method := None;
                up_trial_end := Some (TE_at (sub_current_period_end currentSub));
                up_proration_behavior := Some "none";
                up_billing_cycle_anchor := None |} in
         remote (SubscriptionsUpdate activeStripeSubId updateParams)
           (fun h => subscriptions_update stripe h activeStripeSubId updateParams)
       else
         let params :=
           {| cp_customer := Some stripeCustomerId;
              cp_price := Some priceId;
              cp_default_payment_method := paymentMethodId req;
              cp_trial_period_days := if isTrial req then Some 30 else None;
              cp_trial_end := None;
              cp_cancel_at_period_end :=
                Some (negb (isTrial req) && negb (autoRenew req));
              cp_metadata :=
                [("user_id", u_id user); ("plan_type", finalPlanType);
                 ("is_trial", string_of_bool (isTrial req))] |} in
         remote (SubscriptionsCreate params)
           (fun h => subscriptions_create stripe h params)) ;;
    (match dbSub with
     | Some r =>
         update_by_id (Some (id r))
           {| set_plan_type := Some finalPlanType;
              set_status := Some (sub_status subscription);
              set_stripe_subscription_id := Some (Some (sub_id subscription));
              set_stripe_customer_id := Some stripeCustomerId;
              set_current_period_start :=
                Some (iso_of_seconds (sub_current_period_start subscription));
              set_current_period_end :=
                Some (iso_of_seconds (sub_current_period_end subscription));
              set_cancel_at_period_end :=
                Some (sub_cancel_at_period_end subscription);
              set_card_fingerprint :=
                if truthy cardFingerprint then cardFingerprint else None;
              set_pending_plan_change := None;
              set_scheduled_payment_method_id := None;
              set_updated_at := Some now |}
     | None =>
         insert_row
           {| id := new_id;
              user_id := u_id user;
              restaurant_id := None;
              stripe_customer_id := Some stripeCustomerId;
              stripe_subscription_id := Some (sub_id subscription);
              plan_type := finalPlanType;
              status := sub_status subscription;
              current_period_start :=
                iso_of_seconds (sub_current_period_start subscription);
              current_period_end :=
                iso_of_seconds (sub_current_period_end subscription);
              cancel_at_period_end := sub_cancel_at_period_end subscription;
              card_fingerprint :=
                if truthy cardFingerprint then cardFingerprint else None;
              pending_plan_change := None;
              scheduled_payment_method_id := None;
              updated_at := now |}
     end) ;;;
    ret (CreatePaymentBody
           (latest_invoice_client_secret (sub_latest_invoice subscription))
           (sub_id subscription)).

(** The body of the [try] block of the create-payment handler: the
    request is checked, step 1 settles the card fingerprint and runs the
    trial guard, and steps 2 to 4 follow. *)
Definition create_payment_body (stripe : Stripe) (now : Z) (new_id : string)
    (user : option User) (req : CreatePaymentRequest) : M ResponseBody :=
  match user with
  | None => throw "Unauthorized"
  | Some user =>
    priceId <- require (priceId req) "Missing Price ID." ;;
    cardFingerprint <- resolve_fingerprint stripe (paymentMethodId req) ;;
    trial_fingerprint_guard (isTrial req) cardFingerprint (u_id user) ;;;
    create_payment_after_check stripe now new_id user req priceId cardFingerprint
  end.

Definition create_payment (stripe : Stripe) (now : Z) (new_id : string)
    (user : option User) (req : CreatePaymentRequest) : World -> Response * World :=
  serve (create_payment_body stripe now new_id user req).

(** ** Webhook sync (stripe-webhook) *)

(** The arguments of the [handle_subscription_webhook] database function. *)
Record WebhookArgs := {
  p_user_id : string;
  p_plan_type : string;
  p_status : string;
  p_stripe_subscription_id : option string;
  p_stripe_customer_id : string;
  p_period_start : Z;
  p_period_end : Z
}.

(** What a webhook branch reports back to the dispatcher. *)
Record ProcessingResult := {
  pr_success : bool;
  pr_action : string;
  pr_userId : option string;
  pr_planType : option string;
  pr_billingPeriodAccurate : option bool;
  pr_actualDuration : option Z;
  pr_error : option string
}.

Definition result_skipped (action : string) : ProcessingResult :=
  {| pr_success := true; pr_action := action; pr_userId := None;
     pr_planType := None; pr_billingPeriodAccurate := None;
     pr_actualDuration := None; pr_error := None |}.

Definition result_failed (action : string) (e : Exn) : ProcessingResult :=
  {| pr_success := false; pr_action := action; pr_userId := None;
     pr_planType := None; pr_billingPeriodAccurate := None;
     pr_actualDuration := None; pr_error := Some (message_of e) |}.

Definition result_done (action userId planType : string)
    (pc : PeriodCalculation) : ProcessingResult :=
  {| pr_success := true; pr_action := action; pr_userId := Some userId;
     pr_planType := Some planType;
     pr_billingPeriodAccurate := Some (isAccurate pc);
     pr_actualDuration := Some (durationDays pc); pr_error := None |}.

(** The [switch (subscription.status)] of [handleSubscriptionUpdated]. *)
Definition local_status_of_remote (s : string) : string :=
  if (s === "active") || (s === "trialing") then "active"
  else if s === "past_due" then "past_due"
  else if (s === "canceled") || (s === "cancelled") then "canceled"
  else if (s === "unpaid") || (s === "incomplete") || (s === "incomplete_expired")
  then s
  else "active".

(** [subscription.metadata.plan_type || 'monthly'] *)
Definition metadata_plan_type (subscription : Subscription) : string :=
  nullish_def (js_or (md_get "plan_type" (sub_metadata subscription))
                 (Some "monthly")) "monthly".

(** The arguments [handleSubscriptionUpdated] passes to the database
    function, once [calculatePeriodFromStripe] has returned. *)
Definition subscription_updated_args (subscription : Subscription) (userId : string)
  : WebhookArgs :=
  let planType := metadata_plan_type subscription in
  let periodCalculation := stripe_period subscription planType in
  {| p_user_id := userId;
     p_plan_type := planType;
     p_status := local_status_of_remote (sub_status subscription);
     p_stripe_subscription_id := Some (sub_id subscription);
     p_stripe_customer_id := sub_customer subscription;
     p_period_start := start periodCalculation;
     p_period_end := end_ periodCalculation |}.

(** The arguments [handleSubscriptionDeleted] passes to the database
    function, once [calculatePeriodFromStripe] has returned. *)
Definition subscription_deleted_args (subscription : Subscription) (userId : string)
  : WebhookArgs :=
  let planType := metadata_plan_type subscription in
  let periodCalculation := stripe_period subscription planType in
  {| p_user_id := userId;
     p_plan_type := planType;
     p_status := "canceled";
     p_stripe_subscription_id := Some (sub_id subscription);
     p_stripe_customer_id := sub_customer subscription;
     p_period_start := start periodCalculation;
     p_period_end := end_ periodCalculation |}.

Section Webhook.

(** The database function [handle_subscription_webhook] is SQL that the
    handlers only call: from the rows and the arguments it yields the
    new rows, or an error. *)
Variable handle_subscription_webhook :
  WebhookArgs -> list SubscriptionRow -> Exn + list SubscriptionRow.

(** [supabase.rpc('handle_subscription_webhook', args)] followed by
    [if (error) throw error]. *)
Definition rpc (args : WebhookArgs) : M unit :=
  rows <- get_subscriptions ;;
  match handle_subscription_webhook args rows with
  | inl e => rethrow e
  | inr rows' => put_subscriptions rows'
  end.

(** [async function handleSubscriptionUpdated(event, stripe, supabase)],
    applied to [event.data.object]. *)
Definition handleSubscriptionUpdated (subscription : Subscription)
  : M ProcessingResult :=
  try_catch
    (if negb (truthy (md_get "user_id" (sub_metadata subscription))) then
       ret (result_skipped "subscription_updated_no_user_metadata")
     else
       let userId := nullish_def (md_get "user_id" (sub_metadata subscription)) "" in
       let planType := metadata_plan_type subscription in
       periodCalculation <-
         lift (calculatePeriodFromStripe subscription planType) ;;
       rpc (subscription_updated_args subscription userId) ;;;
       ret (result_done "subscription_updated" userId planType
              periodCalculation))
    (fun e => ret (result_failed "subscription_updated" e)).

(** [async function handleSubscriptionDeleted(event, stripe, supabase)],
    applied to [event.data.object]. *)
Definition handleSubscriptionDeleted (subscription : Subscription)
  : M ProcessingResult :=
  try_catch
    (if negb (truthy (md_get "user_id" (sub_metadata subscription))) then
       ret (result_skipped "subscription_deleted_no_user_metadata")
     else
       let userId := nullish_def (md_get "user_id" (sub_metadata subscription)) "" in
       let planType := metadata_plan_type subscription in
       periodCalculation <-
         lift (calculatePeriodFromStripe subscription planType) ;;
       rpc (subscription_deleted_args subscription userId) ;;;
       ret (result_done "subscription_deleted" userId planType
              periodCalculation))
    (fun e => ret (result_failed "subscription_deleted" e)).

End Webhook.

(** ** Invoice persister (stripe-webhook) *)

(** [typeof invoice.customer === 'string' ? invoice.customer :
    invoice.customer?.id] *)
Definition invoice_customer_id (c : CustomerRef) : option string :=
  match c with
  | Cust_none => None
  | Cust_id i => Some i
  | Cust_object i => i
  end.

(** [.eq('stripe_customer_id', cid).limit(1).maybeSingle()] *)
Definition first_by_customer (cid : string) (rows : list SubscriptionRow)
  : option SubscriptionRow :=
  find (fun r =>
          match stripe_customer_id r with
          | Some c => c === cid
          | None => false
          end) rows.

(** [.from('restaurants').select('name').eq('owner_id', uid).limit(1)
    .maybeSingle()] *)
Definition first_restaurant (uid : string) (rs : list Restaurant)
  : option Restaurant :=
  find (fun r => owner_id r === uid) rs.

(** [invoice.total ?? invoice.amount_paid ?? invoice.amount_due ?? 0] *)
Definition invoice_total (invoice : Invoice) : Z :=
  nullish_def
    (nullish (inv_total invoice)
       (nullish (inv_amount_paid invoice) (inv_amount_due invoice))) 0.

(** [invoice.subtotal ?? total] *)
Definition invoice_subtotal (invoice : Invoice) : Z :=
  nullish_def (inv_subtotal invoice) (invoice_total invoice).

(** [invoice.tax ?? 0] *)
Definition invoice_tax (invoice : Invoice) : Z :=
  nullish_def (inv_tax invoice) 0.

(** [invoice.discount?.amount ??
     invoice.total_discount_amounts?.reduce((sum, d) => sum + d.amount, 0)
     ?? 0] *)
Definition invoice_discount (invoice : Invoice) : Z :=
  let direct :=
    match inv_discount invoice with
    | Some a => a
    | None => None
    end in
  let summed :=
    match inv_total_discount_amounts invoice with
    | Some ds => Some (fold_left (fun sum d => sum + d) ds 0)
    | None => None
    end in
  nullish_def (nullish direct summed) 0.

(** [x ? new Date(x * 1000).toISOString() : null], which throws when [x]
    is truthy and beyond the range of [Date]. *)
Definition toISOString_optional (x : option Z) : Exn + option Z :=
  if truthyZ x then
    match toISOString (nullish_def x 0 * 1000) with
    | inl e => inl e
    | inr iso => inr (Some iso)
    end
  else inr None.

(** The value of [x ? new Date(x * 1000).toISOString() : null] when it does
    not throw. *)
Definition iso_of_optional (x : option Z) : option Z :=
  if truthyZ x then Some (iso_of_seconds (nullish_def x 0)) else None.

(** [lineItem?.period?.start || invoice.period_start] and
    [lineItem?.period?.end || invoice.period_end] *)
Definition periodStartRaw (invoice : Invoice) : option Z :=
  js_orZ (match hd_error (inv_lines invoice) with
          | Some li =>
              match li_period li with Some p => ip_start p | None => None end
          | None => None
          end) (inv_period_start invoice).

Definition periodEndRaw (invoice : Invoice) : option Z :=
  js_orZ (match hd_error (inv_lines invoice) with
          | Some li =>
              match li_period li with Some p => ip_end p | None => None end
          | None => None
          end) (inv_period_end invoice).

(** The five date conversions [persistInvoiceToDatabase] evaluates while
    it builds the row, in the order of the code: the first that throws
    ends the function. *)
Definition invoiceRow_dates (invoice : Invoice) : Exn + unit :=
  match toISOString_optional (periodStartRaw invoice) with
  | inl e => inl e
  | inr _ =>
  match toISOString_optional (periodEndRaw invoice) with
  | inl e => inl e
  | inr _ =>
  match toISOString_optional (inv_created invoice) with
  | inl e => inl e
  | inr _ =>
  match toISOString_optional (inv_paid_at invoice) with
  | inl e => inl e
  | inr _ =>
  match toISOString_optional (inv_due_date invoice) with
  | inl e => inl e
  | inr _ => inr tt
  end end end end end.

(** The row [persistInvoiceToDatabase] builds, once its date conversions
    went through. *)
Definition invoiceRow (now : Z) (invoice : Invoice) (userId : string)
    (subscriptionId : option string) (restaurantName : string) : InvoiceRow :=
  let lineItem := hd_error (inv_lines invoice) in
  {| stripe_invoice_id := inv_id invoice;
     ir_user_id := userId;
     ir_subscription_id := subscriptionId;
     total := invoice_total invoice;
     subtotal := invoice_subtotal invoice;
     tax := invoice_tax invoice;
     discount := invoice_discount invoice;
     currency := nullish_def (js_or (inv_currency invoice) (Some "usd")) "usd";
     ir_status := nullish_def (js_or (inv_status invoice) (Some "unknown")) "unknown";
     invoice_date := iso_of_optional (inv_created invoice);
     paid_at := iso_of_optional (inv_paid_at invoice);
     due_date := iso_of_optional (inv_due_date invoice);
     period_start := iso_of_optional (periodStartRaw invoice);
     period_end := iso_of_optional (periodEndRaw invoice);
     invoice_pdf := js_or (inv_invoice_pdf invoice) None;
     hosted_invoice_url := js_or (inv_hosted_invoice_url invoice) None;
     payment_method :=
       if truthy (inv_charge invoice) then "card"
       else match inv_payment_intent invoice with
            | PI_none => "unknown"
            | PI_id i => if i !== "" then "card" else "unknown"
            | PI_object _ => "card"
            end;
     description :=
       nullish_def
         (js_or (inv_description invoice)
            (js_or (match lineItem with
                    | Some li => li_description li
                    | None => None
                    end) (Some "Subscription"))) "Subscription";
     invoice_number :=
       nullish_def
         (js_or (inv_number invoice)
            (Some ("INV-" ++ substring 3 8 (inv_id invoice))%string))
         "";
     restaurant_name := restaurantName;
     metadata := nullish_def (inv_metadata invoice) [];
     raw := invoice;
     ir_updated_at := now |}.

(** [.from('invoices').upsert(row, { onConflict: 'stripe_invoice_id' })]:
    the row with the same remote invoice id is overwritten, and the row is
    appended when there is none. *)
Fixpoint upsert (row : InvoiceRow) (table : list InvoiceRow) : list InvoiceRow :=
  match table with
  | [] => [row]
  | r :: table' =>
      if stripe_invoice_id r === stripe_invoice_id row
      then row :: table'
      else r :: upsert row table'
  end.

(** [let restaurantName = 'Restaurant'], replaced by the name of the
    owner's restaurant when the owner is known and the name is set. *)
Definition restaurant_name_for (userId : option string) (rests : list Restaurant)
  : string :=
  match userId with
  | Some u =>
      match first_restaurant u rests with
      | Some r => nullish_def (js_or (name r) (Some "Restaurant")) "Restaurant"
      | None => "Restaurant"
      end
  | None => "Restaurant"
  end.

(** [async function persistInvoiceToDatabase(invoice, stripe, supabase)] *)
Definition persistInvoiceToDatabase (now : Z) (invoice : Invoice) : M unit :=
  let stripeCustomerId := invoice_customer_id (inv_customer invoice) in
  rows <- get_subscriptions ;;
  rests <- get_restaurants ;;
  let subs :=
    if truthy stripeCustomerId
    then first_by_customer (nullish_def stripeCustomerId "") rows
    else None in
  let userId :=
    match subs with
    | Some s => js_or (Some (user_id s)) None
    | None => None
    end in
  let subscriptionId :=
    match subs with
    | Some s => js_or (Some (id s)) None
    | None => None
    end in
  let restaurantName := restaurant_name_for userId rests in
  match userId with
  | None =>
      throw ("CRITICAL: Could not find user_id for Customer: " ++
             nullish_def stripeCustomerId "undefined")%string
  | Some u =>
      lift (invoiceRow_dates invoice) ;;;
      table <- get_invoices ;;
      put_invoices (upsert (invoiceRow now invoice u subscriptionId restaurantName) table)
  end.

(** The invoice table after the payload was delivered at each of the given
    instants, oldest delivery first; a delivery that throws leaves the
    table to the next one. *)
Fixpoint deliver_invoice (invoice : Invoice) (times : list Z) (w : World) : World :=
  match times with
  | [] => w
  | t :: times' => deliver_invoice invoice times' (snd (persistInvoiceToDatabase t invoice w))
  end.

(** How many rows of the invoice table carry a given remote invoice id. *)
Definition rows_with_id (i : string) (table : list InvoiceRow) : nat :=
  length (filter (fun r => stripe_invoice_id r === i) table).

(** ** Plan display (billing page) *)



(** ** Vocabulary of the properties *)

(** Neither an upgrade nor a downgrade: the two plans have the same rank. *)
Definition isLateral (current target : string) : bool :=
  plan_level target =? plan_level current.

(** A remote subscription with its current period replaced. *)
Definition with_period (subscription : Subscription) (s e : Z) : Subscription :=
  {| sub_id := sub_id subscription;
     sub_status := sub_status subscription;
     sub_customer := sub_customer subscription;
     sub_current_period_start := s;
     sub_current_period_end := e;
     sub_cancel_at_period_end := sub_cancel_at_period_end subscription;
     sub_metadata := sub_metadata subscription;
     sub_item0_id := sub_item0_id subscription;
     sub_latest_invoice := sub_latest_invoice subscription |}.

(** Seconds in [n] days. *)
Definition days (n : Z) : Z := n * 86400.

(** The user-initiated transition handlers, as one family. *)
Inductive Invocation :=
| CreatePayment (new_id : string) (req : CreatePaymentRequest)
| ChangePlan (req : ChangePlanRequest)
| CancelSubscription (req : CancelRequest)
| ReactivateSubscription (req : ReactivateRequest)
| ReactivateRecreateCanceled (req : ReactivateRequest)
| ReactivateRecreateAny (req : ReactivateRequest).

Definition invoke (stripe : Stripe) (now : Z) (user : option User)
    (i : Invocation) : World -> Response * World :=
  match i with
  | CreatePayment new_id req => create_payment stripe now new_id user req
  | ChangePlan req => change_plan stripe now user req
  | CancelSubscription req => cancel_subscription stripe now user req
  | ReactivateSubscription req => reactivate_subscription stripe now user req
  | ReactivateRecreateCanceled req => reactivate_recreate_canceled stripe now user req
  | ReactivateRecreateAny req => reactivate_recreate_any stripe now user req
  end.

(** The calls issued between two worlds of one invocation. *)
Definition new_calls (w w' : World) : Log :=
  skipn (length (calls w)) (calls w').



(** ** Ordering of remote calls and local writes *)







(** The world after one more call. *)
Definition logged (w : World) (entry : Call * option Exn) : World :=
  {| subscriptions := subscriptions w; invoices := invoices w;
     restaurants := restaurants w; calls := calls w ++ [entry] |}.



(** Whether the change-plan handler charges at once. *)
Definition charges_now (currentSub : SubscriptionRow)
    (stripeSubscription : Subscription) (target : string) : bool :=
  isCurrentlyTrial currentSub stripeSubscription ||
  isUpgrade (plan_type currentSub) target ||
  hasIntervalChange (plan_type currentSub) target.

(** The answer of the change-plan handler when nothing is due now. *)
Definition DEFERRED_ANSWER : ResponseBody :=
  ChangePlanBody true false None
    (Some "Plan change will take effect at the end of your current billing period.").

(** The classification asked of the update parameters, read case by case:
    a trial row moving to a paid plan, an interval change, and an upgrade
    without interval change. *)
Definition update_follows_classification : Prop :=
  forall (stripe : Stripe) (now : Z) (user : User) (req : ChangePlanRequest)
         (w : World) (currentSub : SubscriptionRow) (target : string)
         (sid : option string) (p : UpdateParams),
    let run := change_plan stripe now (Some user) req w in
    exactly_one (filter (fun r => user_id r === u_id user) (subscriptions w))
      = Some currentSub ->
    newPlanType req = Some target ->
    In (SubscriptionsUpdate sid p, None) (new_calls w (snd run)) ->
    (plan_type currentSub = "trial" -> target <> "trial" ->
     up_trial_end p = Some TE_now /\
     up_proration_behavior p = Some "create_prorations" /\
     exists secret message,
       body (fst run) = ChangePlanBody true true (Some secret) message) /\
    (hasIntervalChange (plan_type currentSub) target = true ->
     up_billing_cycle_anchor p = Some "now" /\
     up_proration_behavior p = Some "create_prorations") /\
    (isUpgrade (plan_type currentSub) target = true ->
     hasIntervalChange (plan_type currentSub) target = false ->
     up_proration_behavior p = Some "create_prorations" /\
     up_billing_cycle_anchor p = Some "unchanged").

(** The decision table of the change-plan handler, first match first:
    trial to paid; otherwise interval change; otherwise upgrade; otherwise
    the deferred case. *)
Definition follows_cascade (currentSub : SubscriptionRow)
    (stripeSubscription : Subscription) (target : string) (p : UpdateParams)
  : Prop :=
  let trial_to_paid :=
    isCurrentlyTrial currentSub stripeSubscription && (target !== "trial") in
  let interval := hasIntervalChange (plan_type currentSub) target in
  let upgrade := isUpgrade (plan_type currentSub) target in
  (trial_to_paid = true ->
   up_trial_end p = Some TE_now /\
   up_proration_behavior p = Some "create_prorations" /\
   up_billing_cycle_anchor p = Some "now") /\
  (interval = true ->
   up_proration_behavior p = Some "create_prorations" /\
   up_billing_cycle_anchor p = Some "now") /\
  (trial_to_paid = false -> interval = false -> upgrade = true ->
   up_trial_end p = None /\
   up_proration_behavior p = Some "create_prorations" /\
   up_billing_cycle_anchor p = Some "unchanged") /\
  (trial_to_paid = false -> interval = false -> upgrade = false ->
   up_trial_end p = None /\
   up_proration_behavior p = Some "none" /\
   up_billing_cycle_anchor p = Some "unchanged").

(** What C6 says of the trial guard.  The card of payment method [pm]
    has fingerprint [fp]: some retrieval of [pm] reports it, and every
    retrieval that is answered reports it.  A trial request that supplies
    [pm] while another user's row carries [fp] ends with the
    duplicate-trial-card error. *)
Definition duplicate_card_always_rejected : Prop :=
  forall (stripe : Stripe) (now : Z) (new_id : string) (user : User)
         (req : CreatePaymentRequest) (w : World) (price pm fp : string)
         (other : SubscriptionRow),
    priceId req = Some price -> price <> "" ->
    isTrial req = true ->
    paymentMethodId req = Some pm -> pm <> "" ->
    fp <> "" ->
    (exists h, paymentMethods_retrieve stripe h pm = inr (Some fp)) ->
    (forall h answer,
       paymentMethods_retrieve stripe h pm = inr answer -> answer = Some fp) ->
    In other (subscriptions w) ->
    card_fingerprint other = Some fp ->
    user_id other <> u_id user ->
    body (fst (create_payment stripe now new_id (Some user) req w)) =
    ErrorBody MSG_DUPLICATE_TRIAL_CARD.

(** What C8 says of the period calculator: whatever the remote
    subscription and the plan type, it returns a result, with the remote
    start and end as they are. *)
Definition period_never_rejected : Prop :=
  forall (subscription : Subscription) (planType : string),
    exists pc,
      calculatePeriodFromStripe subscription planType = inr pc /\
      start pc = sub_current_period_start subscription * 1000 /\
      end_ pc = sub_current_period_end subscription * 1000.

(** What C9 says of the invoice persister: whatever the payload, once it
    was delivered any number of times (at least once) the invoice table
    holds exactly one row with its id. *)
Definition every_payload_is_stored : Prop :=
  forall (invoice : Invoice) (w : World) (t : Z) (times : list Z),
    (rows_with_id (inv_id invoice) (invoices w) <= 1)%nat ->
    rows_with_id (inv_id invoice)
      (invoices (deliver_invoice invoice (t :: times) w)) = 1%nat.


(** ** Fixtures *)

(** 2025-01-01T00:00:00Z and 2026-01-01T00:00:00Z, in Unix seconds. *)
Definition JAN_2025 : Z := 1735689600.
Definition JAN_2026 : Z := 1767225600.
(** 2025-02-01T00:00:00Z and 2025-03-01T00:00:00Z, in Unix seconds. *)
Definition FEB_2025 : Z := 1738368000.
Definition MAR_2025 : Z := 1740787200.

(** An invoice payload with the given customer, total and payment intent,
    and nothing else set. *)
Definition fixture_invoice (i : string) (customer : CustomerRef)
    (total : option Z) (pi : PaymentIntentRef) : Invoice :=
  {| inv_id := i; inv_customer := customer; inv_subscription := None;
     inv_total := total; inv_amount_paid := None; inv_amount_due := None;
     inv_subtotal := None; inv_tax := None; inv_discount := None;
     inv_total_discount_amounts := None; inv_lines := [];
     inv_period_start := None; inv_period_end := None;
     inv_currency := None; inv_status := None; inv_created := None;
     inv_paid_at := None; inv_due_date := None; inv_invoice_pdf := None;
     inv_hosted_invoice_url := None; inv_charge := None;
     inv_payment_intent := pi; inv_description := None;
     inv_number := None; inv_metadata := None |}.

Definition empty_invoice (i : string) : Invoice :=
  fixture_invoice i Cust_none None PI_none.

(** A remote subscription [sid] of customer ["cus_1"] and user ["user_1"]. *)
Definition remote_sub (sid status plan : string) (s e : Z) : Subscription :=
  {| sub_id := sid; sub_status := status; sub_customer := "cus_1";
     sub_current_period_start := s; sub_current_period_end := e;
     sub_cancel_at_period_end := false;
     sub_metadata := [("user_id", "user_1"); ("plan_type", plan)];
     sub_item0_id := "si_1"; sub_latest_invoice := LI_id "in_1" |}.

(** The local row of user ["user_1"], linked to ["sub_old"]. *)
Definition local_row (plan status : string) (s e : Z) : SubscriptionRow :=
  {| id := "row_1"; user_id := "user_1"; restaurant_id := None;
     stripe_customer_id := Some "cus_1";
     stripe_subscription_id := Some "sub_old";
     plan_type := plan; status := status;
     current_period_start := s; current_period_end := e;
     cancel_at_period_end := false; card_fingerprint := None;
     pending_plan_change := None; scheduled_payment_method_id := None;
     updated_at := 0 |}.

Definition world_of (rows : list SubscriptionRow) : World :=
  {| subscriptions := rows; invoices := []; restaurants := []; calls := [] |}.

Definition user_1 : User := {| u_id := "user_1"; u_email := None |}.
Definition user_2 : User := {| u_id := "user_2"; u_email := None |}.

(** A provider that answers every retrieval with [current], every update
    and creation with [next], every invoice retrieval with [invoice], and
    reports fingerprint [fp] for every payment method. *)
Definition stripe_stub (current next : Subscription) (invoice : Invoice)
    (fp : option string) : Stripe :=
  {| paymentMethods_retrieve := fun _ _ => inr fp;
     customers_create := fun _ _ _ => inr "cus_new";
     paymentMethods_attach := fun _ _ _ => inr tt;
     customers_update := fun _ _ _ => inr tt;
     subscriptions_retrieve := fun _ _ => inr current;
     subscriptions_update := fun _ _ _ => inr next;
     subscriptions_create := fun _ _ => inr next;
     invoices_retrieve := fun _ _ => inr invoice |}.


(** A provider that reports fingerprint ["fp_Y"] for payment method
    ["pm_y"] and ["fp_X"] for every other one, and starts a trial for every
    new subscription. *)
Definition stripe_cards : Stripe :=
  {| paymentMethods_retrieve :=
       fun _ pm => inr (Some (if pm === "pm_y" then "fp_Y" else "fp_X"));
     customers_create := fun _ _ uid => inr ("cus_" ++ uid)%string;
     paymentMethods_attach := fun _ _ _ => inr tt;
     customers_update := fun _ _ _ => inr tt;
     subscriptions_retrieve := fun _ _ => inl (Error "No such subscription");
     subscriptions_update := fun _ _ _ => inl (Error "No such subscription");
     subscriptions_create :=
       fun _ p =>
         inr {| sub_id := ("sub_" ++ nullish_def (cp_customer p) "")%string;
                sub_status := "trialing";
                sub_customer := nullish_def (cp_customer p) "";
                sub_current_period_start := JAN_2025;
                sub_current_period_end := JAN_2025 + days 30;
                sub_cancel_at_period_end := false;
                sub_metadata := cp_metadata p;
                sub_item0_id := "si_1";
                sub_latest_invoice := LI_none |};
     invoices_retrieve := fun _ _ => inr (empty_invoice "in_1") |}.

(** The same provider, out of reach for the first call of an invocation
    and answering every later one. *)
Definition stripe_cards_unreachable_once : Stripe :=
  {| paymentMethods_retrieve :=
       fun h pm =>
         match h with
         | [] => inl (Error "An error occurred with our connection to Stripe.")
         | _ => paymentMethods_retrieve stripe_cards h pm
         end;
     customers_create := customers_create stripe_cards;
     paymentMethods_attach := paymentMethods_attach stripe_cards;
     customers_update := customers_update stripe_cards;
     subscriptions_retrieve := subscriptions_retrieve stripe_cards;
     subscriptions_update := subscriptions_update stripe_cards;
     subscriptions_create := subscriptions_create stripe_cards;
     invoices_retrieve := invoices_retrieve stripe_cards |}.

(** The row of user ["user_1"], on a trial started with the card of
    fingerprint ["fp_X"]. *)
Definition trial_row_1 : SubscriptionRow :=
  {| id := "row_1"; user_id := "user_1"; restaurant_id := None;
     stripe_customer_id := Some "cus_1";
     stripe_subscription_id := Some "sub_old";
     plan_type := "trial"; status := "trialing";
     current_period_start := 0; current_period_end := 0;
     cancel_at_period_end := false; card_fingerprint := Some "fp_X";
     pending_plan_change := None; scheduled_payment_method_id := None;
     updated_at := 0 |}.

(** The world a later invocation starts from: the tables as they are, and
    an empty history. *)
Definition next_invocation (w : World) : World :=
  {| subscriptions := subscriptions w; invoices := invoices w;
     restaurants := restaurants w; calls := [] |}.

(** An annual plan started on 2025-01-01, and what the provider answers
    when it is changed to monthly on 2025-02-01: the billing cycle restarts
    that day. *)
Definition annual_sub : Subscription :=
  remote_sub "sub_old" "active" "annual" JAN_2025 JAN_2026.

Definition monthly_sub_restarted : Subscription :=
  remote_sub "sub_old" "active" "monthly" FEB_2025 MAR_2025.




(** A provider that opens the annual subscription on creation, reports it
    on retrieval, and restarts the cycle as monthly on update. *)
Definition stripe_year_then_month : Stripe :=
  {| paymentMethods_retrieve := fun _ _ => inr None;
     customers_create := fun _ _ _ => inr "cus_1";
     paymentMethods_attach := fun _ _ _ => inr tt;
     customers_update := fun _ _ _ => inr tt;
     subscriptions_retrieve := fun _ _ => inr annual_sub;
     subscriptions_update := fun _ _ _ => inr monthly_sub_restarted;
     subscriptions_create := fun _ _ => inr annual_sub;
     invoices_retrieve := fun _ _ => inr (empty_invoice "in_1") |}.

Definition annual_checkout : CreatePaymentRequest :=
  {| planType := "annual"; autoRenew := true; paymentMethodId := Some "pm_1";
     priceId := Some "price_annual"; isTrial := false |}.

(** A monthly plan and what the provider answers when it is changed to
    annual, with a latest invoice that carries a client secret. *)
Definition monthly_sub : Subscription :=
  remote_sub "sub_old" "active" "monthly" JAN_2025 FEB_2025.

Definition monthly_row : SubscriptionRow :=
  local_row "monthly" "active" (JAN_2025 * 1000) (FEB_2025 * 1000).

Definition stripe_monthly_to_annual : Stripe :=
  stripe_stub monthly_sub annual_sub
    (fixture_invoice "in_1" (Cust_id "cus_1") (Some 2999)
       (PI_object (Some "pi_1_secret")))
    None.

(** An invoice of customer ["cus_1"] with a total of 29.99 in minor units. *)
Definition invoice_2999 : Invoice :=
  fixture_invoice "in_1" (Cust_id "cus_1") (Some 2999) PI_none.

(** The same invoice with a due date beyond the range of [Date], which
    ends 8.64e12 seconds after the epoch. *)
Definition invoice_due_out_of_range : Invoice :=
  {| inv_id := "in_1"; inv_customer := Cust_id "cus_1";
     inv_subscription := None;
     inv_total := Some 2999; inv_amount_paid := None; inv_amount_due := None;
     inv_subtotal := None; inv_tax := None; inv_discount := None;
     inv_total_discount_amounts := None; inv_lines := [];
     inv_period_start := None; inv_period_end := None;
     inv_currency := None; inv_status := None; inv_created := None;
     inv_paid_at := None; inv_due_date := Some 10000000000000;
     inv_invoice_pdf := None;
     inv_hosted_invoice_url := None; inv_charge := None;
     inv_payment_intent := PI_none; inv_description := None;
     inv_number := None; inv_metadata := None |}.

Definition change_request (t price : string) : ChangePlanRequest :=
  {| newPlanType := Some t; newPriceId := Some price;
     cpr_paymentMethodId := None |}.



Definition reactivate_request : ReactivateRequest :=
  {| rr_subscriptionId := Some "row_1"; rr_paymentMethodId := Some "pm_1";
     rr_priceId := Some "price_monthly" |}.

Definition trial_request (pm : string) : CreatePaymentRequest :=
  {| planType := "trial"; autoRenew := true; paymentMethodId := Some pm;
     priceId := Some "price_trial"; isTrial := true |}.


(* ===================================================================== *)
(** * Part I, continued. The rest of the webhook function *)
(* ===================================================================== *)

(** ** One-time payments and checkout sessions (stripe-webhook) *)

(** A Checkout session, with the fields the webhook reads.  The session's
    customer is modelled as present. *)
Record CheckoutSession := {
  cs_metadata : option Metadata;
  cs_mode : option string;
  cs_subscription : option string;
  cs_customer : string
}.

(** A payment intent, with the fields the webhook reads.  The intent's
    customer is modelled as present. *)
Record PaymentIntent := {
  pin_metadata : option Metadata;
  pin_customer : string
}.

(** [object.metadata?.[k]] *)
Definition md_get_opt (k : string) (m : option Metadata) : option string :=
  match m with
  | Some m => md_get k m
  | None => None
  end.

(** The events the webhook dispatches on; every other event type is
    carried by its name only. *)
Inductive Event :=
| CheckoutSessionCompleted (session : CheckoutSession)
| PaymentIntentSucceeded (paymentIntent : PaymentIntent)
| InvoicePaymentSucceeded (invoice : Invoice)
| InvoiceFinalized (invoice : Invoice)
| InvoiceCreated (invoice : Invoice)
| InvoicePaymentFailed (invoice : Invoice)
| CustomerSubscriptionUpdated (subscription : Subscription)
| CustomerSubscriptionDeleted (subscription : Subscription)
| OtherEvent (type : string).

(** A verified event: [event.created], in Unix seconds, and what
    [event.type] and [event.data.object] carry. *)
Record StripeEvent := {
  ev_created : Z;
  ev_carried : Event
}.

(** [event.type] *)
Definition event_type (e : Event) : string :=
  match e with
  | CheckoutSessionCompleted _ => "checkout.session.completed"
  | PaymentIntentSucceeded _ => "payment_intent.succeeded"
  | InvoicePaymentSucceeded _ => "invoice.payment_succeeded"
  | InvoiceFinalized _ => "invoice.finalized"
  | InvoiceCreated _ => "invoice.created"
  | InvoicePaymentFailed _ => "invoice.payment_failed"
  | CustomerSubscriptionUpdated _ => "customer.subscription.updated"
  | CustomerSubscriptionDeleted _ => "customer.subscription.deleted"
  | OtherEvent t => t
  end.

(** What the webhook function answers: a bare text, the report of a
    processed event, or the report of an error thrown before dispatch. *)
Inductive WebhookResponse :=
| TextResponse (status : Z) (text : string)
| EventResponse (status : Z) (event_type : string) (result : ProcessingResult)
    (timestamp : Z)
| ErrorResponse (status : Z) (error : string) (event_type : string)
    (timestamp : Z).

Definition response_status (r : WebhookResponse) : Z :=
  match r with
  | TextResponse s _ => s
  | EventResponse s _ _ _ => s
  | ErrorResponse s _ _ _ => s
  end.

(** The status an invoice event hands to the database function:
    [invoice.status === 'paid' ? 'active' : invoice.status === 'open' ?
    'past_due' : subscription.status]. *)
Definition invoice_event_status (invoice : Invoice) (subscription : Subscription)
  : string :=
  match inv_status invoice with
  | Some s =>
      if s === "paid" then "active"
      else if s === "open" then "past_due"
      else sub_status subscription
  | None => sub_status subscription
  end.

(** The arguments the two invoice branches pass to the database function,
    for the status they settled on, once [calculatePeriodFromStripe] has
    returned. *)
Definition invoice_webhook_args (subscription : Subscription) (userId : string)
    (status : string) : WebhookArgs :=
  let planType := metadata_plan_type subscription in
  let periodCalculation := stripe_period subscription planType in
  {| p_user_id := userId;
     p_plan_type := planType;
     p_status := status;
     p_stripe_subscription_id := Some (sub_id subscription);
     p_stripe_customer_id := sub_customer subscription;
     p_period_start := start periodCalculation;
     p_period_end := end_ periodCalculation |}.

(** The log [handleInvoiceEvent] writes when the invoice has both a
    [period_start] and a [period_end]: it spells the two as ISO strings,
    and throws when either is beyond the range of [Date]. *)
Definition cross_reference_log (invoice : Invoice) : Exn + unit :=
  if truthyZ (inv_period_start invoice) && truthyZ (inv_period_end invoice) then
    match toISOString (nullish_def (inv_period_start invoice) 0 * 1000) with
    | inl e => inl e
    | inr _ =>
        match toISOString (nullish_def (inv_period_end invoice) 0 * 1000) with
        | inl e => inl e
        | inr _ => inr tt
        end
    end
  else inr tt.

Section WebhookFunction.

(** The database function, as in the section above. *)
Variable handle_subscription_webhook :
  WebhookArgs -> list SubscriptionRow -> Exn + list SubscriptionRow.

(** The calendar arithmetic of the runtime's [Date], in the time zone the
    function runs in: [d.setMonth(d.getMonth() + n)],
    [d.setFullYear(d.getFullYear() + n)] and [d.setDate(d.getDate() + n)],
    each from an instant to an instant. *)
Variable addMonths : Z -> Z -> Z.
Variable addYears : Z -> Z -> Z.
Variable addDays : Z -> Z -> Z.

(** [stripe.webhooks.constructEventAsync(body, signature, secret)]: the
    verified event, or the error of a signature that does not verify. *)
Variable constructEvent : string -> string -> string -> Exn + StripeEvent.

(** [function calculatePeriodForPayment(planType)], with [new Date()]
    being [now]; once the end is computed, the log of
    [start.toISOString()] and [end.toISOString()] throws for an invalid
    date. *)
Definition calculatePeriodForPayment (now : Z) (planType : string)
  : Exn + PeriodCalculation :=
  let start := now in
  let finish (end_ : Z) : Exn + PeriodCalculation :=
    match toISOString start with
    | inl e => inl e
    | inr _ =>
        match toISOString end_ with
        | inl e => inl e
        | inr _ =>
            inr {| start := start;
                   end_ := end_;
                   source := "calculated";
                   durationDays := ceil_div (end_ - start) MS_PER_DAY;
                   isAccurate := true |}
        end
    end in
  if planType === "monthly" then finish (addMonths start 1)
  else if planType === "semiannual" then finish (addMonths start 6)
  else if planType === "annual" then finish (addYears start 1)
  else if planType === "trial" then finish (addDays start 30)
  else inl (Error ("Invalid plan type: " ++ planType)%string).

(** [async function handleCheckoutCompleted(event, stripe, supabase)],
    applied to [event.data.object]. *)
Definition handleCheckoutCompleted (stripe : Stripe) (now : Z)
    (session : CheckoutSession) : M ProcessingResult :=
  try_catch
    (if negb (truthy (md_get_opt "user_id" (cs_metadata session))) ||
        negb (truthy (md_get_opt "plan_type" (cs_metadata session))) then
       throw "Missing required metadata in checkout session"
     else
       let userId := nullish_def (md_get_opt "user_id" (cs_metadata session)) "" in
       let planType := nullish_def (md_get_opt "plan_type" (cs_metadata session)) "" in
       periodCalculation <-
         (if match cs_mode session with
             | Some m => m === "subscription"
             | None => false
             end && truthy (cs_subscription session) then
            subscription <-
              remote (SubscriptionsRetrieve (cs_subscription session))
                (fun h => subscriptions_retrieve stripe h (cs_subscription session)) ;;
            lift (calculatePeriodFromStripe subscription planType)
          else lift (calculatePeriodForPayment now planType)) ;;
       rpc handle_subscription_webhook
         {| p_user_id := userId;
            p_plan_type := planType;
            p_status := "active";
            p_stripe_subscription_id := js_or (cs_subscription session) None;
            p_stripe_customer_id := cs_customer session;
            p_period_start := start periodCalculation;
            p_period_end := end_ periodCalculation |} ;;;
       ret (result_done "checkout_completed" userId planType periodCalculation))
    (fun e => ret (result_failed "checkout_completed" e)).

(** [async function handlePaymentSucceeded(event, stripe, supabase)],
    applied to [event.data.object]. *)
Definition handlePaymentSucceeded (now : Z) (paymentIntent : PaymentIntent)
  : M ProcessingResult :=
  try_catch
    (if negb (truthy (md_get_opt "user_id" (pin_metadata paymentIntent))) ||
        negb (truthy (md_get_opt "plan_type" (pin_metadata paymentIntent))) then
       ret (result_skipped "payment_succeeded_no_metadata")
     else
       let userId :=
         nullish_def (md_get_opt "user_id" (pin_metadata paymentIntent)) "" in
       let planType :=
         nullish_def (md_get_opt "plan_type" (pin_metadata paymentIntent)) "" in
       periodCalculation <- lift (calculatePeriodForPayment now planType) ;;
       rpc handle_subscription_webhook
         {| p_user_id := userId;
            p_plan_type := planType;
            p_status := "active";
            p_stripe_subscription_id := None;
            p_stripe_customer_id := pin_customer paymentIntent;
            p_period_start := start periodCalculation;
            p_period_end := end_ periodCalculation |} ;;;
       ret (result_done "payment_succeeded" userId planType periodCalculation))
    (fun e => ret (result_failed "payment_succeeded" e)).

(** [async function handleInvoiceEvent(event, stripe, supabase)], applied
    to [event.data.object]. *)
Definition handleInvoiceEvent (stripe : Stripe) (now : Z) (invoice : Invoice)
  : M ProcessingResult :=
  try_catch
    (persistInvoiceToDatabase now invoice ;;;
     if negb (truthy (inv_subscription invoice)) then
       ret (result_skipped "invoice_persisted_no_subscription")
     else
       subscription <-
         remote (SubscriptionsRetrieve (inv_subscription invoice))
           (fun h => subscriptions_retrieve stripe h (inv_subscription invoice)) ;;
       if negb (truthy (md_get "user_id" (sub_metadata subscription))) then
         ret (result_skipped "invoice_persisted_no_user_metadata")
       else
         let userId := nullish_def (md_get "user_id" (sub_metadata subscription)) "" in
         let planType := metadata_plan_type subscription in
         periodCalculation <-
           lift (calculatePeriodFromStripe subscription planType) ;;
         lift (cross_reference_log invoice) ;;;
         rpc handle_subscription_webhook
           (invoice_webhook_args subscription userId
              (invoice_event_status invoice subscription)) ;;;
         ret (result_done "invoice_processed" userId planType
                periodCalculation))
    (fun e => ret (result_failed "invoice_processing_failed" e)).

(** [async function handleInvoicePaymentFailed(event, stripe, supabase)],
    applied to [event.data.object]. *)
Definition handleInvoicePaymentFailed (stripe : Stripe) (now : Z)
    (invoice : Invoice) : M ProcessingResult :=
  try_catch
    (persistInvoiceToDatabase now invoice ;;;
     if negb (truthy (inv_subscription invoice)) then
       ret (result_skipped "invoice_payment_failed_no_subscription")
     else
       subscription <-
         remote (SubscriptionsRetrieve (inv_subscription invoice))
           (fun h => subscriptions_retrieve stripe h (inv_subscription invoice)) ;;
       if negb (truthy (md_get "user_id" (sub_metadata subscription))) then
         ret (result_skipped "invoice_payment_failed_no_user_metadata")
       else
         let userId := nullish_def (md_get "user_id" (sub_metadata subscription)) "" in
         let planType := metadata_plan_type subscription in
         periodCalculation <-
           lift (calculatePeriodFromStripe subscription planType) ;;
         rpc handle_subscription_webhook
           (invoice_webhook_args subscription userId "past_due") ;;;
         ret (result_done "invoice_payment_failed" userId planType
                periodCalculation))
    (fun e => ret (result_failed "invoice_payment_failed" e)).

(** The [switch (event.type)] of the webhook function. *)
Definition dispatch (stripe : Stripe) (now : Z) (event : Event)
  : M ProcessingResult :=
  match event with
  | CheckoutSessionCompleted session => handleCheckoutCompleted stripe now session
  | PaymentIntentSucceeded paymentIntent => handlePaymentSucceeded now paymentIntent
  | InvoicePaymentSucceeded invoice
  | InvoiceFinalized invoice
  | InvoiceCreated invoice => handleInvoiceEvent stripe now invoice
  | InvoicePaymentFailed invoice => handleInvoicePaymentFailed stripe now invoice
  | CustomerSubscriptionUpdated subscription =>
      handleSubscriptionUpdated handle_subscription_webhook subscription
  | CustomerSubscriptionDeleted subscription =>
      handleSubscriptionDeleted handle_subscription_webhook subscription
  | OtherEvent _ => ret (result_skipped "ignored")
  end.

(** The webhook function for a POST request: the signature header, the
    configured secret and the raw body come with the request and the
    environment.  Between the verification and the [switch] the function
    logs [new Date(event.created * 1000).toISOString()], which throws into
    the outer [catch] for an invalid date. *)
Definition stripe_webhook (stripe : Stripe) (now : Z)
    (signature : option string) (webhookSecret : option string) (body : string)
    (w : World) : WebhookResponse * World :=
  if negb (truthy signature) then (TextResponse 400 "No signature", w)
  else if negb (truthy webhookSecret) then
    (TextResponse 500 "Webhook secret not configured", w)
  else
    match constructEvent body (nullish_def signature "")
            (nullish_def webhookSecret "") with
    | inl e => (ErrorResponse 400 (message_of e) "unknown" now, w)
    | inr event =>
        match toISOString (ev_created event * 1000) with
        | inl e => (ErrorResponse 400 (message_of e) "unknown" now, w)
        | inr _ =>
            match dispatch stripe now (ev_carried event) w with
            | (inr processingResult, w') =>
                (EventResponse
                   (if pr_success processingResult then 200 else 400)
                   (event_type (ev_carried event)) processingResult now, w')
            | (inl e, w') =>
                (ErrorResponse 400 (message_of e) "unknown" now, w')
            end
        end
    end.

End WebhookFunction.

(** ** Fixtures for the webhook function *)

(** A database function that stamps plan, status and period on the rows
    of the user it is called for. *)
Definition db_stamps (args : WebhookArgs) (rows : list SubscriptionRow)
  : Exn + list SubscriptionRow :=
  inr (map (fun r =>
              if user_id r === p_user_id args then
                apply_patch
                  {| set_plan_type := Some (p_plan_type args);
                     set_status := Some (p_status args);
                     set_stripe_subscription_id := None;
                     set_stripe_customer_id := None;
                     set_current_period_start := Some (p_period_start args);
                     set_current_period_end := Some (p_period_end args);
                     set_cancel_at_period_end := None;
                     set_card_fingerprint := None;
                     set_pending_plan_change := None;
                     set_scheduled_payment_method_id := None;
                     set_updated_at := None |} r
              else r) rows).

(** A calendar in which every month has 30 days and every year 365. *)
Definition calendar_months (t n : Z) : Z := t + n * 30 * MS_PER_DAY.
Definition calendar_years (t n : Z) : Z := t + n * 365 * MS_PER_DAY.
Definition calendar_days (t n : Z) : Z := t + n * MS_PER_DAY.

(** A verifier that accepts the signature ["sig_ok"] only, and reads
    every body as the given event. *)
Definition verifier (event : Event) (body signature secret : string)
  : Exn + StripeEvent :=
  if signature === "sig_ok"
  then inr {| ev_created := JAN_2025; ev_carried := event |}
  else inl (Error "No signatures found matching the expected signature for payload").

Definition session_without_metadata : CheckoutSession :=
  {| cs_metadata := None; cs_mode := Some "payment"; cs_subscription := None;
     cs_customer := "cus_1" |}.

Definition intent_without_metadata : PaymentIntent :=
  {| pin_metadata := None; pin_customer := "cus_1" |}.

Definition session_of_plan (plan : string) : CheckoutSession :=
  {| cs_metadata := Some [("user_id", "user_1"); ("plan_type", plan)];
     cs_mode := Some "payment"; cs_subscription := None;
     cs_customer := "cus_1" |}.

Definition intent_of_plan (plan : string) : PaymentIntent :=
  {| pin_metadata := Some [("user_id", "user_1"); ("plan_type", plan)];
     pin_customer := "cus_1" |}.

(** An invoice of customer ["cus_1"] for subscription ["sub_old"], in the
    given status. *)
Definition subscription_invoice (status : string) : Invoice :=
  {| inv_id := "in_2"; inv_customer := Cust_id "cus_1";
     inv_subscription := Some "sub_old";
     inv_total := Some 2999; inv_amount_paid := None; inv_amount_due := None;
     inv_subtotal := None; inv_tax := None; inv_discount := None;
     inv_total_discount_amounts := None; inv_lines := [];
     inv_period_start := None; inv_period_end := None;
     inv_currency := None; inv_status := Some status; inv_created := None;
     inv_paid_at := None; inv_due_date := None; inv_invoice_pdf := None;
     inv_hosted_invoice_url := None; inv_charge := None;
     inv_payment_intent := PI_none; inv_description := None;
     inv_number := None; inv_metadata := None |}.

(** A provider that knows no subscription. *)
Definition stripe_without_subscriptions : Stripe :=
  {| paymentMethods_retrieve := fun _ _ => inr None;
     customers_create := fun _ _ _ => inr "cus_new";
     paymentMethods_attach := fun _ _ _ => inr tt;
     customers_update := fun _ _ _ => inr tt;
     subscriptions_retrieve := fun _ _ => inl (Error "No such subscription");
     subscriptions_update := fun _ _ _ => inl (Error "No such subscription");
     subscriptions_create := fun _ _ => inl (Error "No such subscription");
     invoices_retrieve := fun _ _ => inr (empty_invoice "in_1") |}.

(** ** Writes of one invocation *)

(** A computation that leaves the [subscriptions] table as it is. *)
Definition reads {A : Type} (m : M A) : Prop :=
  forall w, subscriptions (snd (m w)) = subscriptions w.

(** What one invocation by user [u] may do to the table: nothing; patch
    the rows that carry the id of one of [u]'s rows; or, where the handler
    inserts at all and [u] has no single row, append one row of [u]. *)
Inductive write_of (inserts : bool) (u : string) (rows : list SubscriptionRow)
  : list SubscriptionRow -> Prop :=
| write_none : write_of inserts u rows rows
| write_update (c : SubscriptionRow) (p : RowPatch) :
    In c rows -> user_id c = u ->
    write_of inserts u rows
      (map (fun r => if id r === id c then apply_patch p r else r) rows)
| write_insert (r : SubscriptionRow) :
    inserts = true ->
    user_id r = u ->
    exactly_one (filter (fun r => user_id r === u) rows) = None ->
    write_of inserts u rows (rows ++ [r]).

(** Started on the table [rows], the computation writes at most once, on
    behalf of [u]. *)
Definition once {A : Type} (inserts : bool) (rows : list SubscriptionRow)
    (u : string) (m : M A) : Prop :=
  forall w, subscriptions w = rows ->
            write_of inserts u rows (subscriptions (snd (m w))).

(** The value [a] is a result of [m] on the table [rows]. *)
Definition yields {A : Type} (rows : list SubscriptionRow) (m : M A) (a : A)
  : Prop :=
  exists w, subscriptions w = rows /\ fst (m w) = inr a.

(** The part of a row that identifies it and its owner. *)
Definition row_key (r : SubscriptionRow) : string * string * option string :=
  (id r, user_id r, restaurant_id r).

(** Whether a handler of the family ever inserts a row. *)
Definition may_insert (i : Invocation) : bool :=
  match i with
  | CreatePayment _ _ => true
  | _ => false
  end.

(* ===================================================================== *)
(** * Part I, continued. The preview-plan-change handler *)
(* ===================================================================== *)

(** The parameters of [stripe.invoices.retrieveUpcoming]. *)
Record InvoiceParams := {
  uip_customer : option string;
  uip_subscription : option string;
  uip_subscription_items : string * string;
  uip_subscription_trial_end : option TrialEnd;
  uip_subscription_billing_cycle_anchor : option string;
  uip_subscription_proration_behavior : option string
}.

(** The upcoming invoice, with the fields the handler reads. *)
Record UpcomingInvoice := {
  ui_amount_due : option Z;
  ui_currency : option string;
  ui_period_end : Z
}.

(** The JSON bodies the preview handler answers with: the new-subscription
    answer, the change answer, and the two error shapes. *)
Inductive PreviewBody :=
| PreviewNew (currency message : string)
| PreviewChange (amount : Z) (currency message changeType : string)
    (prorationDate : option Z) (nextBillingDate : Z)
    (currentPlan newPlan : string) (willChargeNow : bool)
    (currentPeriodEnd : Z)
| PreviewFailed (error message : string)
| PreviewError (error : string).

Record PreviewResponse := {
  preview_status : Z;
  preview_body : PreviewBody
}.

(** The [invoiceParams] object of the preview handler: the common part,
    then one of three branches, or none. *)
Definition preview_invoiceParams (currentSub : SubscriptionRow)
    (stripeSubscription : Subscription) (newPlanType newPriceId : string)
  : InvoiceParams :=
  let customer := stripe_customer_id currentSub in
  let subscription := stripe_subscription_id currentSub in
  let items := (sub_item0_id stripeSubscription, newPriceId) in
  if isCurrentlyTrial currentSub stripeSubscription && (newPlanType !== "trial") then
    {| uip_customer := customer; uip_subscription := subscription;
       uip_subscription_items := items;
       uip_subscription_trial_end := Some TE_now;
       uip_subscription_billing_cycle_anchor := Some "now";
       uip_subscription_proration_behavior := Some "create_prorations" |}
  else if hasIntervalChange (plan_type currentSub) newPlanType then
    {| uip_customer := customer; uip_subscription := subscription;
       uip_subscription_items := items;
       uip_subscription_trial_end := None;
       uip_subscription_billing_cycle_anchor := Some "now";
       uip_subscription_proration_behavior := Some "create_prorations" |}
  else if isUpgrade (plan_type currentSub) newPlanType then
    {| uip_customer := customer; uip_subscription := subscription;
       uip_subscription_items := items;
       uip_subscription_trial_end := None;
       uip_subscription_billing_cycle_anchor := Some "unchanged";
       uip_subscription_proration_behavior := Some "create_prorations" |}
  else
    {| uip_customer := customer; uip_subscription := subscription;
       uip_subscription_items := items;
       uip_subscription_trial_end := None;
       uip_subscription_billing_cycle_anchor := None;
       uip_subscription_proration_behavior := None |}.

Section Preview.

(** [stripe.subscriptions.retrieve] and [stripe.invoices.retrieveUpcoming],
    and the [currency] of a remote subscription. *)
Variable retrieve : option string -> Exn + Subscription.
Variable retrieveUpcoming : InvoiceParams -> Exn + UpcomingInvoice.
Variable subscription_currency : Subscription -> option string.

(** The runtime's [toLocaleDateString('en-US', { month: 'long', day:
    'numeric', year: 'numeric' })] and [toUpperCase]. *)
Variable toLocaleDateString : Z -> string.
Variable toUpperCase : string -> string.

(** [s.charAt(0).toUpperCase() + s.slice(1)] *)
Definition capitalized (s : string) : string :=
  (toUpperCase (substring 0 1 s) ++ substring 1 (String.length s - 1) s)%string.

(** The message of the downgrade answer. *)
Definition preview_downgrade_message (newPlanType : string) (periodEnd : Z)
  : string :=
  ("Your plan will change to " ++ capitalized newPlanType ++ " Plan on " ++
   toLocaleDateString periodEnd ++
   ". You'll keep full access to your current plan until then. No charge today.")%string.

(** The [message] and [changeType] of the change answer. *)
Definition preview_message (trial interval upgrade : bool) (newPlanType : string)
  : string * string :=
  if trial then
    (("Converting from trial to " ++ newPlanType ++ " plan.")%string,
     "trial_conversion")
  else if interval then
    ("Changing billing interval. New billing cycle starts immediately with prorated adjustment.",
     "interval_change")
  else if upgrade then
    (("Upgrading to " ++ capitalized newPlanType ++
      " Plan. You'll be charged the prorated difference based on your remaining billing period.")%string,
     "upgrade")
  else ("", "").

(** The preview handler for a POST request: it reads the caller's row and
    asks the provider, and writes nothing. *)
Definition preview_plan_change (now : Z) (user : option User)
    (req : ChangePlanRequest) (rows : list SubscriptionRow) : PreviewResponse :=
  let ok b := {| preview_status := 200; preview_body := b |} in
  let failed b := {| preview_status := 400; preview_body := b |} in
  match user with
  | None => failed (PreviewError "Unauthorized")
  | Some user =>
    if negb (truthy (newPriceId req)) || negb (truthy (newPlanType req)) then
      failed (PreviewError "Missing required parameters")
    else
    let newPriceId := nullish_def (newPriceId req) "" in
    let newPlanType := nullish_def (newPlanType req) "" in
    match exactly_one (filter (fun r => user_id r === u_id user) rows) with
    | None => ok (PreviewNew "usd" "This will be a new subscription.")
    | Some currentSub =>
      if negb (truthy (stripe_subscription_id currentSub)) then
        ok (PreviewNew "usd" "This will be a new subscription.")
      else
      match retrieve (stripe_subscription_id currentSub) with
      | inl _ => failed (PreviewError "Subscription not found")
      | inr stripeSubscription =>
        let stripeStatus := sub_status stripeSubscription in
        let isCanceled := stripeStatus === "canceled" in
        let periodEnd := sub_current_period_end stripeSubscription * 1000 in
        let isExpired := periodEnd <=? now in
        let isTrial := isCurrentlyTrial currentSub stripeSubscription in
        let currency :=
          nullish_def (js_or (subscription_currency stripeSubscription)
                         (Some "usd")) "usd" in
        if isCanceled && isExpired then
          ok (PreviewNew currency
                "Your subscription has expired. This will create a new subscription.")
        else
        let upgrade := isUpgrade (plan_type currentSub) newPlanType in
        let interval := hasIntervalChange (plan_type currentSub) newPlanType in
        if isDowngrade (plan_type currentSub) newPlanType then
          ok (PreviewChange 0 currency
                (preview_downgrade_message newPlanType periodEnd)
                "downgrade" None periodEnd (plan_type currentSub) newPlanType
                false periodEnd)
        else
        match retrieveUpcoming
                (preview_invoiceParams currentSub stripeSubscription
                   newPlanType newPriceId) with
        | inl e =>
            failed (PreviewFailed "Could not calculate preview" (message_of e))
        | inr upcomingInvoice =>
            let amountDue :=
              nullish_def (js_orZ (ui_amount_due upcomingInvoice) (Some 0)) 0 in
            let currency :=
              nullish_def (js_or (ui_currency upcomingInvoice) (Some "usd"))
                "usd" in
            let nextBillingDate := ui_period_end upcomingInvoice * 1000 in
            let (message, changeType) :=
              preview_message isTrial interval upgrade newPlanType in
            ok (PreviewChange amountDue currency message changeType (Some now)
                  nextBillingDate (plan_type currentSub) newPlanType
                  (isTrial || upgrade || interval) periodEnd)
        end
      end
    end
  end.

End Preview.

(** ** Fixtures for the preview handler *)

(** A provider that answers every retrieval with [s] and every upcoming
    invoice with the amount [due], in no stated currency. *)
Definition preview_retrieve (s : Subscription) (_ : option string)
  : Exn + Subscription := inr s.

Definition preview_upcoming (due : Z) (_ : InvoiceParams)
  : Exn + UpcomingInvoice :=
  inr {| ui_amount_due := Some due; ui_currency := None;
         ui_period_end := JAN_2026 |}.

Definition no_currency (_ : Subscription) : option string := None.

(** A date rendering that knows one date, and an upper-casing of the
    letters a to z. *)
Definition date_stub (_ : Z) : string := "January 1, 2026".

Fixpoint upper_ascii (s : string) : string :=
  match s with
  | EmptyString => EmptyString
  | String c s' =>
      let n := Ascii.nat_of_ascii c in
      String (if (Nat.leb 97 n && Nat.leb n 122)%bool
              then Ascii.ascii_of_nat (n - 32) else c)
        (upper_ascii s')
  end.

(* ===================================================================== *)
(** * Part I, continued. Starter-pack orders *)
(* ===================================================================== *)

(** ** Hardware prices (currencyConfig) *)

(** [export const DEFAULT_CURRENCY: CurrencyCode = 'USD'] *)
Definition DEFAULT_CURRENCY : string := "USD".

(** The two items of [HARDWARE_PRICING]. *)
Inductive HardwareItem := starter_kit | tablet_bundle.

(** [HARDWARE_PRICING[item].prices], as a lookup that is [undefined] for
    every key other than the ten currency codes (for a key that is not
    [inherited]). *)
Definition HARDWARE_PRICING (item : HardwareItem) (code : string) : option Z :=
  match item with
  | starter_kit =>
      if code === "USD" then Some 1500
      else if code === "EUR" then Some 1400
      else if code === "CAD" then Some 2000
      else if code === "INR" then Some 120000
      else if code === "AED" then Some 5000
      else if code === "MYR" then Some 6000
      else if code === "AUD" then Some 2200
      else if code === "SAR" then Some 5000
      else if code === "QAR" then Some 5000
      else if code === "GBP" then Some 1200
      else None
  | tablet_bundle =>
      if code === "USD" then Some 14900
      else if code === "EUR" then Some 13900
      else if code === "CAD" then Some 19900
      else if code === "INR" then Some 1250000
      else if code === "AED" then Some 49900
      else if code === "MYR" then Some 69900
      else if code === "AUD" then Some 22900
      else if code === "SAR" then Some 55000
      else if code === "QAR" then Some 55000
      else if code === "GBP" then Some 11900
      else None
  end.

(** ** [StarterPackService] *)

(** [private static getCents(item, currency)]:
    [priceMap[currency || DEFAULT_CURRENCY] || priceMap[DEFAULT_CURRENCY]],
    for a currency that is not [inherited]; for an inherited name the code
    returns the inherited member, not a number. *)
Definition getCents (item : HardwareItem) (currency : string) : Z :=
  let code := if currency !== "" then currency else DEFAULT_CURRENCY in
  nullish_def
    (js_orZ (HARDWARE_PRICING item code) (HARDWARE_PRICING item DEFAULT_CURRENCY))
    0.

(** [static calculateStripeAmount(isFirstOrder, hasActivePaidSubscription,
    includesTablet, currency)] *)
Definition calculateStripeAmount (isFirstOrder hasActivePaidSubscription
    includesTablet : bool) (currency : string) : Z :=
  let basePackCents :=
    if isFirstOrder && hasActivePaidSubscription then 0
    else getCents starter_kit currency in
  let tabletCents :=
    if includesTablet then getCents tablet_bundle currency else 0 in
  basePackCents + tabletCents.

(** A row of [starter_pack_orders], with the columns the service reads. *)
Record OrderRow := {
  o_id : string;
  o_user_id : string;
  o_payment_status : string
}.

(** [static async isFirstOrder(userId)]: no completed order of the user. *)
Definition isFirstOrder (orders : list OrderRow) (userId : string) : bool :=
  match find (fun o => (o_user_id o === userId) &&
                       (o_payment_status o === "completed")) orders with
  | Some _ => false
  | None => true
  end.

(** [static async hasActivePaidSubscription(userId)]:
    [data?.plan_type !== 'trial'] on the result of
    [.eq('user_id', userId).eq('status', 'active').maybeSingle()]. *)
Definition hasActivePaidSubscription (rows : list SubscriptionRow)
    (userId : string) : bool :=
  match exactly_one
          (filter (fun r => (user_id r === userId) && (status r === "active"))
             rows) with
  | Some data => plan_type data !== "trial"
  | None => true
  end.

(** [static getStatusLabel(status)]: [labels[status] || status], for a
    status that is not [inherited]; for an inherited name the code returns
    the inherited member, not a string. *)
Definition getStatusLabel (status : string) : string :=
  if status === "pending" then "Pending"
  else if status === "received" then "Order Received"
  else if status === "preparing" then "Preparing"
  else if status === "configuring" then "Configuring"
  else if status === "out_for_delivery" then "Out for Delivery"
  else if status === "delivered" then "Delivered"
  else status.

(** [Array.prototype.indexOf] on an array of strings. *)
Fixpoint indexOf (x : string) (l : list string) : Z :=
  match l with
  | [] => -1
  | y :: l' =>
      if y === x then 0
      else let i := indexOf x l' in if i <? 0 then -1 else i + 1
  end.

(** [static getStatusIndex(status)] *)
Definition getStatusIndex (status : string) : Z :=
  indexOf status
    ["pending"; "received"; "preparing"; "configuring"; "out_for_delivery";
     "delivered"].

(** ** Estimated delivery

    Instants are milliseconds, read in a time zone with a fixed offset from
    UTC: [offset] is added to an instant to get the local clock. *)

Definition MS_PER_HOUR : Z := 1000 * 60 * 60.

Section Delivery.

Variable offset : Z.

(** The local day number and [getHours()]. *)
Definition local_day (t : Z) : Z := (t + offset) / MS_PER_DAY.

Definition getHours (t : Z) : Z := ((t + offset) mod MS_PER_DAY) / MS_PER_HOUR.

(** [getDay()]: 0 is Sunday; 1 January 1970 was a Thursday. *)
Definition getDay (t : Z) : Z := (local_day t + 4) mod 7.

(** [d.setHours(h, 0, 0, 0)]: the local day of [d] at [h] o'clock, hours
    past 23 running into the next day. *)
Definition setHours (t h : Z) : Z :=
  local_day t * MS_PER_DAY + h * MS_PER_HOUR - offset.

(** [d.setDate(d.getDate() + 1)] *)
Definition nextDay (t : Z) : Z := t + MS_PER_DAY.

(** The [while] loop: as long as the day is a Saturday or a Sunday, move
    to the next day at 10 o'clock.  [None] when the rounds run out. *)
Fixpoint skipWeekend (rounds : nat) (deliveryDate : Z) : option Z :=
  if (getDay deliveryDate =? 0) || (getDay deliveryDate =? 6) then
    match rounds with
    | O => None
    | S rounds' => skipWeekend rounds' (setHours (nextDay deliveryDate) 10)
    end
  else Some deliveryDate.

(** [static calculateEstimatedDeliveryDate(orderDate)] *)
Definition calculateEstimatedDeliveryDate (rounds : nat) (orderDate : Z)
  : option Z :=
  let orderHour := getHours orderDate in
  let deliveryDate :=
    if orderHour >=? 17 then setHours (nextDay orderDate) 10
    else setHours orderDate (orderHour + 9) in
  skipWeekend rounds deliveryDate.

End Delivery.

(** [static isDelayed(orderDate, currentStatus, estimatedDelivery)], with
    [new Date()] being [now]. *)
Definition isDelayed (now : Z) (currentStatus : string) (estimatedDelivery : Z)
  : bool :=
  if (currentStatus === "delivered") || (currentStatus === "out_for_delivery")
  then false
  else now >? estimatedDelivery.

(* ===================================================================== *)
(** * Part I, continued. Pages *)
(* ===================================================================== *)

(** ** Payment methods on the billing page *)

(** The card of a payment method, as the page reads it. *)
Record Card := {
  brand : string;
  last4 : string;
  exp_month : Z;
  exp_year : Z
}.

Record PaymentMethod := {
  pm_id : string;
  pm_card : option Card
}.

Section PaymentMethods.

(** How a template literal renders a number. *)
Variable render : Z -> string.

(** [`${method.card?.brand}-${method.card?.last4}-${method.card?.exp_month}-${method.card?.exp_year}`] *)
Definition cardKey (method : PaymentMethod) : string :=
  match pm_card method with
  | Some c =>
      (brand c ++ "-" ++ last4 c ++ "-" ++ render (exp_month c) ++ "-" ++
       render (exp_year c))%string
  | None => "undefined-undefined-undefined-undefined"
  end.

(** The [forEach] of [loadPaymentMethods]: [seenCards] is the set of keys
    met so far, and a method is pushed when its key is new. *)
Fixpoint uniqueMethods_from (seenCards : list string)
    (methods : list PaymentMethod) : list PaymentMethod :=
  match methods with
  | [] => []
  | method :: methods' =>
      if existsb (fun k => k === cardKey method) seenCards
      then uniqueMethods_from seenCards methods'
      else method :: uniqueMethods_from (cardKey method :: seenCards) methods'
  end.

(** The list [loadPaymentMethods] hands to the page. *)
Definition uniqueMethods (methods : list PaymentMethod) : list PaymentMethod :=
  uniqueMethods_from [] methods.

End PaymentMethods.

(** ** Plans on the upgrade page *)

(** The [planId]s of [allPlans], in the order of the page. *)
Definition allPlans : list string := ["monthly"; "semiannual"; "annual"].

(** [const plans = allPlans.filter(p => ...)], for the subscription the
    page has loaded, if any. *)
Definition plans (currentSubscription : option SubscriptionRow) : list string :=
  filter (fun p =>
            match currentSubscription with
            | None => true
            | Some s =>
                if (plan_type s === "trial") || (status s === "trialing")
                then true
                else p !== plan_type s
            end) allPlans.

(** [plans.find(p => p.planId === selectedPlan) || plans[0]] *)
Definition currentPlan (currentSubscription : option SubscriptionRow)
    (selectedPlan : string) : option string :=
  match find (fun p => p === selectedPlan) (plans currentSubscription) with
  | Some p => Some p
  | None => hd_error (plans currentSubscription)
  end.

(* ===================================================================== *)
(** * Part II. Properties *)
(* ===================================================================== *)

(** ** Plan hierarchy *)

Lemma plan_level_rank (p : Plan) :
  plan_level (plan_name p) =
  match p with Trial => 0 | Monthly => 1 | Semiannual => 2 | Annual => 3 end.
Proof. destruct p; reflexivity. Qed.

(** C7. Over the rank order trial(0) < monthly(1) < semiannual(2) <
    annual(3), for two different plans exactly one of upgrade and
    downgrade holds (they exclude each other, and with the lateral case
    they cover every pair; two different plans are never lateral), and
    there is an interval change exactly when one of the two plans, and not
    the other, is monthly, or the two plans are semiannual and annual in
    either order. *)
Theorem plan_change_classification (current target : Plan)
    (Hdiff : current <> target) :
  let c := plan_name current in
  let t := plan_name target in
  (plan_level "trial" = 0 /\ plan_level "monthly" = 1 /\
   plan_level "semiannual" = 2 /\ plan_level "annual" = 3) /\
  (isUpgrade c t && isDowngrade c t = false) /\
  (isUpgrade c t || isDowngrade c t || isLateral c t = true) /\
  isLateral c t = false /\
  isUpgrade c t = negb (isDowngrade c t) /\
  (hasIntervalChange c t = true <->
   (current = Monthly /\ target <> Monthly) \/
   (current <> Monthly /\ target = Monthly) \/
   (current = Semiannual /\ target = Annual) \/
   (current = Annual /\ target = Semiannual)).
Proof.
  cbv zeta.
  split; [repeat split; reflexivity |].
  split; [destruct current, target; reflexivity |].
  split; [destruct current, target; reflexivity |].
  split; [destruct current, target; try reflexivity; congruence |].
  split; [destruct current, target; try reflexivity; congruence |].
  split.
  - destruct current, target; cbn; intros H; try discriminate H;
      try congruence;
      first [ left; split; [reflexivity | discriminate]
            | right; left; split; [discriminate | reflexivity]
            | right; right; left; split; reflexivity
            | right; right; right; split; reflexivity ].
  - destruct current, target; cbn; intros H; try reflexivity;
      exfalso; intuition congruence.
Qed.

Lemma plan_change_classification_witness :
  isUpgrade "monthly" "annual" = negb (isDowngrade "monthly" "annual") /\
  hasIntervalChange "monthly" "annual" = true.
Proof.
  assert (Hd : Monthly <> Annual) by discriminate.
  destruct (plan_change_classification Monthly Annual Hd)
    as (_ & _ & _ & _ & Hu & Hi).
  split; [exact Hu | apply Hi; left; split; [reflexivity | discriminate]].
Defined.

(** In the change-plan handler the deferred downgrade excludes both the
    upgrade and the interval change. *)
Lemma deferred_downgrade_exclusive (c t : string) :
  isDeferredDowngrade c t = true ->
  isUpgrade c t = false /\ hasIntervalChange c t = false.
Proof.
  unfold isDeferredDowngrade, isUpgrade.
  intros H. apply andb_true_iff in H. destruct H as [Hlt Hint].
  apply Z.ltb_lt in Hlt. apply negb_true_iff in Hint.
  split; [| exact Hint].
  rewrite Z.gtb_ltb. apply Z.ltb_ge. lia.
Qed.

(** ** Period calculator *)

Lemma ceil_div_bounds (a b : Z) :
  0 < b -> (ceil_div a b - 1) * b < a <= ceil_div a b * b.
Proof.
  intros Hb. unfold ceil_div.
  pose proof (Z.mul_div_le (- a) b Hb) as Hle.
  pose proof (Z.mul_succ_div_gt (- a) b Hb) as Hgt.
  lia.
Qed.

Lemma ceil_div_exact (n b : Z) : 0 < b -> ceil_div (n * b) b = n.
Proof.
  intros Hb. unfold ceil_div.
  replace (- (n * b)) with ((- n) * b) by ring.
  rewrite Z.div_mul by lia. lia.
Qed.

Lemma duration_of_days (subscription : Subscription) (T n : Z) (planType : string) :
  durationDays
    (stripe_period (with_period subscription T (T + days n)) planType)
  = n.
Proof.
  unfold stripe_period, with_period, days; cbn [durationDays
    sub_current_period_start sub_current_period_end].
  replace ((T + n * 86400) * 1000 - T * 1000) with (n * MS_PER_DAY)
    by (unfold MS_PER_DAY; ring).
  apply ceil_div_exact. reflexivity.
Qed.

Lemma toISOString_valid (ms : Z) :
  Date_valid ms = true -> toISOString ms = inr ms.
Proof. intros H. unfold toISOString. now rewrite H. Qed.

Lemma toISOString_invalid (ms : Z) :
  Date_valid ms = false -> toISOString ms = inl (Error "Invalid time value").
Proof. intros H. unfold toISOString. now rewrite H. Qed.

(** With two valid dates the function returns the object it built. *)
Lemma calculatePeriodFromStripe_valid (subscription : Subscription)
    (planType : string) :
  Date_valid (sub_current_period_start subscription * 1000) = true ->
  Date_valid (sub_current_period_end subscription * 1000) = true ->
  calculatePeriodFromStripe subscription planType =
  inr (stripe_period subscription planType).
Proof.
  intros Hs He. unfold calculatePeriodFromStripe. cbv zeta.
  change (start (stripe_period subscription planType))
    with (sub_current_period_start subscription * 1000).
  change (end_ (stripe_period subscription planType))
    with (sub_current_period_end subscription * 1000).
  now rewrite (toISOString_valid _ Hs), (toISOString_valid _ He).
Qed.

(** Whatever it returns is the object built from the two dates, and both
    dates are valid then. *)
Lemma calculatePeriodFromStripe_inr (subscription : Subscription)
    (planType : string) (pc : PeriodCalculation) :
  calculatePeriodFromStripe subscription planType = inr pc ->
  pc = stripe_period subscription planType /\
  Date_valid (sub_current_period_start subscription * 1000) = true /\
  Date_valid (sub_current_period_end subscription * 1000) = true.
Proof.
  unfold calculatePeriodFromStripe, toISOString. cbv zeta.
  change (start (stripe_period subscription planType))
    with (sub_current_period_start subscription * 1000).
  change (end_ (stripe_period subscription planType))
    with (sub_current_period_end subscription * 1000).
  destruct (Date_valid (sub_current_period_start subscription * 1000));
    [|discriminate].
  destruct (Date_valid (sub_current_period_end subscription * 1000));
    [|discriminate].
  intros H. inversion H. auto.
Qed.

(** C8, as stated, fails for a remote subscription whose period end lies
    beyond the range of [Date]: the function throws on the way to its
    result. *)
Lemma unrepresentable_period_is_rejected : ~ period_never_rejected.
Proof.
  intros Hclaim.
  destruct (Hclaim (with_period monthly_sub JAN_2025 10000000000000) "monthly")
    as (pc & Hpc & _).
  vm_compute in Hpc. discriminate Hpc.
Qed.

(** C8, amended. For every remote subscription whose period start and end
    are dates [Date] can hold, and every plan type,
    [calculatePeriodFromStripe] returns the remote period start and end as
    they are (as instants), the duration in whole days rounded up, and
    [isAccurate] telling whether that duration lies in the band of the plan
    type (monthly 28..31, semiannual 180..186, annual 360..370, trial
    28..32); a duration outside the band is not rejected.  For plan type
    monthly, a period of 30 days is accurate, and a period of 15 days is
    flagged inaccurate while start and end are still returned as they
    are. *)
Theorem period_from_remote (subscription : Subscription) (p : Plan) (T : Z)
    (Hstart : Date_valid (sub_current_period_start subscription * 1000) = true)
    (Hend : Date_valid (sub_current_period_end subscription * 1000) = true)
    (HT : Date_valid (T * 1000) = true)
    (HT30 : Date_valid ((T + days 30) * 1000) = true) :
  exists pc m30 m15,
    calculatePeriodFromStripe subscription (plan_name p) = inr pc /\
    calculatePeriodFromStripe (with_period subscription T (T + days 30))
      "monthly" = inr m30 /\
    calculatePeriodFromStripe (with_period subscription T (T + days 15))
      "monthly" = inr m15 /\
    start pc = sub_current_period_start subscription * 1000 /\
    end_ pc = sub_current_period_end subscription * 1000 /\
    (durationDays pc - 1) * MS_PER_DAY < end_ pc - start pc
      <= durationDays pc * MS_PER_DAY /\
    isAccurate pc = in_band p (durationDays pc) /\
    band Monthly = (28, 31) /\ band Semiannual = (180, 186) /\
    band Annual = (360, 370) /\ band Trial = (28, 32) /\
    (durationDays m30 = 30 /\ isAccurate m30 = true) /\
    (durationDays m15 = 15 /\ isAccurate m15 = false /\
     start m15 = T * 1000 /\ end_ m15 = (T + days 15) * 1000).
Proof.
  assert (HT15 : Date_valid ((T + days 15) * 1000) = true).
  { revert HT HT30. unfold Date_valid, MAX_TIME, days. lia. }
  exists (stripe_period subscription (plan_name p)),
    (stripe_period (with_period subscription T (T + days 30)) "monthly"),
    (stripe_period (with_period subscription T (T + days 15)) "monthly").
  split; [now apply calculatePeriodFromStripe_valid |].
  split; [now apply calculatePeriodFromStripe_valid |].
  split; [now apply calculatePeriodFromStripe_valid |].
  split; [reflexivity |]. split; [reflexivity |].
  split; [apply ceil_div_bounds; reflexivity |].
  split.
  { unfold stripe_period, in_band; cbn [isAccurate durationDays].
    destruct p; cbn [plan_name band fst snd String.eqb Ascii.eqb Bool.eqb];
      rewrite Z.geb_leb; reflexivity. }
  repeat (split; [reflexivity |]).
  split.
  - pose proof (duration_of_days subscription T 30 "monthly") as Hd.
    split; [exact Hd |].
    unfold stripe_period in *. cbn [isAccurate durationDays] in *.
    rewrite Hd. reflexivity.
  - pose proof (duration_of_days subscription T 15 "monthly") as Hd.
    split; [exact Hd |].
    split; [| split; reflexivity].
    unfold stripe_period in *. cbn [isAccurate durationDays] in *.
    rewrite Hd. reflexivity.
Qed.

Lemma period_from_remote_witness :
  Date_valid (sub_current_period_end annual_sub * 1000) = true /\
  exists pc,
    calculatePeriodFromStripe annual_sub "annual" = inr pc /\
    end_ pc = JAN_2026 * 1000 /\ durationDays pc = 365 /\ isAccurate pc = true.
Proof.
  split; [reflexivity |].
  destruct (period_from_remote annual_sub Annual JAN_2025
              eq_refl eq_refl eq_refl eq_refl)
    as (pc & m30 & m15 & Hpc & _ & _ & _ & Hend & _).
  exists pc. split; [exact Hpc |].
  vm_compute in Hpc. inversion Hpc. repeat split.
Defined.

(** ** Invoice persister *)

Lemma truthy_Some (s : string) : s <> "" -> truthy (Some s) = true.
Proof.
  intros H. unfold truthy. apply negb_true_iff. apply String.eqb_neq. exact H.
Qed.

Lemma js_or_Some (s : string) (b : option string) :
  s <> "" -> js_or (Some s) b = Some s.
Proof. intros H. unfold js_or. rewrite (truthy_Some s H). reflexivity. Qed.

Lemma upsert_upsert (r1 r2 : InvoiceRow) (table : list InvoiceRow) :
  stripe_invoice_id r1 = stripe_invoice_id r2 ->
  upsert r2 (upsert r1 table) = upsert r2 table.
Proof.
  intros Hid. induction table as [| x table IH]; cbn.
  - rewrite Hid, String.eqb_refl. reflexivity.
  - rewrite Hid. destruct (stripe_invoice_id x === stripe_invoice_id r2) eqn:E; cbn.
    + rewrite Hid, String.eqb_refl. reflexivity.
    + rewrite E, IH. reflexivity.
Qed.

Lemma upsert_In (row : InvoiceRow) (table : list InvoiceRow) :
  In row (upsert row table).
Proof.
  induction table as [| x table IH]; cbn.
  - left. reflexivity.
  - destruct (stripe_invoice_id x === stripe_invoice_id row).
    + left. reflexivity.
    + right. exact IH.
Qed.

Lemma rows_with_id_upsert (row : InvoiceRow) (table : list InvoiceRow) :
  (rows_with_id (stripe_invoice_id row) table <= 1)%nat ->
  rows_with_id (stripe_invoice_id row) (upsert row table) = 1%nat.
Proof.
  unfold rows_with_id. induction table as [| x table IH]; cbn.
  - intros _. rewrite String.eqb_refl. reflexivity.
  - destruct (stripe_invoice_id x === stripe_invoice_id row) eqn:E; cbn.
    + rewrite String.eqb_refl. cbn. intros Hle. lia.
    + rewrite E. exact IH.
Qed.

Lemma rows_with_id_upsert_other (j : string) (row : InvoiceRow)
    (table : list InvoiceRow) :
  j <> stripe_invoice_id row ->
  rows_with_id j (upsert row table) = rows_with_id j table.
Proof.
  intros Hj. assert (Hrow : (stripe_invoice_id row === j) = false)
    by (apply String.eqb_neq; congruence).
  unfold rows_with_id. induction table as [| x table IH]; cbn.
  - rewrite Hrow. reflexivity.
  - destruct (stripe_invoice_id x === stripe_invoice_id row) eqn:E; cbn.
    + apply String.eqb_eq in E. rewrite E, Hrow. reflexivity.
    + destruct (stripe_invoice_id x === j); cbn; rewrite IH; reflexivity.
Qed.

Lemma upsert_length (row : InvoiceRow) (table : list InvoiceRow) :
  (rows_with_id (stripe_invoice_id row) table <= 1)%nat ->
  length (upsert row table) =
  (length table + 1 - rows_with_id (stripe_invoice_id row) table)%nat.
Proof.
  unfold rows_with_id. induction table as [| x table IH]; cbn.
  - reflexivity.
  - destruct (stripe_invoice_id x === stripe_invoice_id row) eqn:E; cbn.
    + intros Hle. lia.
    + intros Hle. rewrite IH by exact Hle.
      pose proof (filter_length_le
                    (fun r => stripe_invoice_id r === stripe_invoice_id row) table)
        as Hfilter.
      destruct (length (filter _ table)); lia.
Qed.

(** One delivery of an invoice whose customer owns a subscription row and
    whose dates can be converted. *)
Lemma persist_owned (now : Z) (invoice : Invoice) (w : World) (cid : string)
    (owner : SubscriptionRow) :
  invoice_customer_id (inv_customer invoice) = Some cid ->
  cid <> "" ->
  first_by_customer cid (subscriptions w) = Some owner ->
  user_id owner <> "" ->
  invoiceRow_dates invoice = inr tt ->
  persistInvoiceToDatabase now invoice w =
  (inr tt,
   {| subscriptions := subscriptions w;
      invoices :=
        upsert (invoiceRow now invoice (user_id owner)
                  (js_or (Some (id owner)) None)
                  (restaurant_name_for (Some (user_id owner)) (restaurants w)))
               (invoices w);
      restaurants := restaurants w;
      calls := calls w |}).
Proof.
  intros Hc Hcid Hfind Hu Hdates.
  unfold persistInvoiceToDatabase, bind, lift, get_subscriptions,
    get_restaurants, get_invoices, put_invoices, ret; cbn.
  rewrite Hc, (truthy_Some cid Hcid); cbn.
  rewrite Hfind, (js_or_Some _ None Hu), Hdates. reflexivity.
Qed.

(** One delivery of an invoice one of whose dates cannot be converted:
    the conversion throws and nothing is stored. *)
Lemma persist_owned_invalid (now : Z) (invoice : Invoice) (w : World)
    (cid : string) (owner : SubscriptionRow) (e : Exn) :
  invoice_customer_id (inv_customer invoice) = Some cid ->
  cid <> "" ->
  first_by_customer cid (subscriptions w) = Some owner ->
  user_id owner <> "" ->
  invoiceRow_dates invoice = inl e ->
  persistInvoiceToDatabase now invoice w = (inl e, w).
Proof.
  intros Hc Hcid Hfind Hu Hdates.
  unfold persistInvoiceToDatabase, bind, lift, get_subscriptions,
    get_restaurants, get_invoices, put_invoices, ret; cbn.
  rewrite Hc, (truthy_Some cid Hcid); cbn.
  rewrite Hfind, (js_or_Some _ None Hu), Hdates. reflexivity.
Qed.

Lemma last_cons {A : Type} (a d : A) (l : list A) :
  last (a :: l) d = last l a.
Proof.
  revert a d. induction l as [| b l IH]; intros a d; [reflexivity |].
  change (last (a :: b :: l) d) with (last (b :: l) d).
  rewrite (IH b d), (IH b a). reflexivity.
Qed.

(** Any number of deliveries, the first at [t] and the others at [times]:
    the table is the original one with the row of the last delivery
    upserted once. *)
Lemma deliver_invoice_owned (invoice : Invoice) (cid : string)
    (owner : SubscriptionRow) (times : list Z) :
  forall (t : Z) (w : World),
  invoice_customer_id (inv_customer invoice) = Some cid ->
  cid <> "" ->
  first_by_customer cid (subscriptions w) = Some owner ->
  user_id owner <> "" ->
  invoiceRow_dates invoice = inr tt ->
  deliver_invoice invoice (t :: times) w =
  {| subscriptions := subscriptions w;
     invoices :=
       upsert (invoiceRow (last times t) invoice (user_id owner)
                 (js_or (Some (id owner)) None)
                 (restaurant_name_for (Some (user_id owner)) (restaurants w)))
              (invoices w);
     restaurants := restaurants w;
     calls := calls w |}.
Proof.
  induction times as [| t' times IH]; intros t w Hc Hcid Hfind Hu Hdates.
  - cbn [deliver_invoice last].
    rewrite (persist_owned t invoice w cid owner Hc Hcid Hfind Hu Hdates).
    reflexivity.
  - change (deliver_invoice invoice (t :: t' :: times) w)
      with (deliver_invoice invoice (t' :: times)
              (snd (persistInvoiceToDatabase t invoice w))).
    rewrite (persist_owned t invoice w cid owner Hc Hcid Hfind Hu Hdates).
    cbn [snd]. rewrite IH by assumption.
    cbn [subscriptions invoices restaurants calls].
    rewrite upsert_upsert by reflexivity.
    rewrite (last_cons t' t times). reflexivity.
Qed.

(** C9, as stated, fails for two kinds of payload, neither of which is
    stored however often it is delivered: the payload of a customer who
    owns no subscription row (the persister throws its CRITICAL error
    before it builds the row), and the payload of a known customer one of
    whose timestamps is beyond the range of [Date] (the conversion throws
    before the upsert). *)
Lemma payloads_that_are_not_stored :
  rows_with_id "in_1"
    (invoices (deliver_invoice invoice_2999 [1; 2; 3] (world_of []))) = 0%nat /\
  rows_with_id "in_1"
    (invoices (deliver_invoice invoice_due_out_of_range [1; 2; 3]
                 (world_of [local_row "monthly" "active" 0 0]))) = 0%nat /\
  ~ every_payload_is_stored.
Proof.
  split; [reflexivity |]. split; [reflexivity |].
  intros Hclaim.
  specialize (Hclaim invoice_due_out_of_range
                (world_of [local_row "monthly" "active" 0 0]) 1 [2; 3]
                (le_0_n 1)).
  vm_compute in Hclaim. discriminate Hclaim.
Qed.

(** C9, amended. Persisting the same remote invoice payload any number of
    times (at least once), for a customer who owns a subscription row and
    with every timestamp the row converts (line-item or invoice period
    start and end, created, paid_at, due_date) either absent or within the
    range of [Date], leaves exactly one invoice row with the remote invoice
    id: the row written by the last delivery, which replaces rather than
    joins the earlier one; rows of other invoices are not touched.  The
    stored total, subtotal, tax and discount are the integers received (a
    payload with total 2999 is stored with total 2999). *)
Theorem invoice_persist_idempotent (invoice : Invoice) (w : World)
    (t : Z) (times : list Z) (cid : string) (owner : SubscriptionRow)
    (Hcustomer : invoice_customer_id (inv_customer invoice) = Some cid)
    (Hcid : cid <> "")
    (Howner : first_by_customer cid (subscriptions w) = Some owner)
    (Huser : user_id owner <> "")
    (Hdates : invoiceRow_dates invoice = inr tt)
    (Hunique : (rows_with_id (inv_id invoice) (invoices w) <= 1)%nat) :
  let w' := deliver_invoice invoice (t :: times) w in
  rows_with_id (inv_id invoice) (invoices w') = 1%nat /\
  length (invoices w') =
    (length (invoices w) + 1 - rows_with_id (inv_id invoice) (invoices w))%nat /\
  (forall j, j <> inv_id invoice ->
             rows_with_id j (invoices w') = rows_with_id j (invoices w)) /\
  subscriptions w' = subscriptions w /\
  (exists r, In r (invoices w') /\
             stripe_invoice_id r = inv_id invoice /\
             raw r = invoice /\
             ir_updated_at r = last times t /\
             (forall v, inv_total invoice = Some v -> total r = v) /\
             (forall v, inv_subtotal invoice = Some v -> subtotal r = v) /\
             (forall v, inv_tax invoice = Some v -> tax r = v) /\
             (forall v, inv_discount invoice = Some (Some v) -> discount r = v) /\
             (inv_total invoice = Some 2999 -> total r = 2999)).
Proof.
  cbv zeta.
  rewrite (deliver_invoice_owned invoice cid owner times t w
             Hcustomer Hcid Howner Huser Hdates).
  cbn [subscriptions invoices restaurants calls].
  set (row := invoiceRow (last times t) invoice (user_id owner)
                (js_or (Some (id owner)) None)
                (restaurant_name_for (Some (user_id owner)) (restaurants w))).
  assert (Hid : stripe_invoice_id row = inv_id invoice) by reflexivity.
  split; [rewrite <- Hid; apply rows_with_id_upsert; rewrite Hid; exact Hunique |].
  split; [rewrite <- Hid; apply upsert_length; rewrite Hid; exact Hunique |].
  split; [intros j Hj; apply rows_with_id_upsert_other; rewrite Hid; exact Hj |].
  split; [reflexivity |].
  exists row. split; [apply upsert_In |].
  split; [reflexivity |]. split; [reflexivity |]. split; [reflexivity |].
  unfold row, invoiceRow, invoice_subtotal, invoice_tax, invoice_discount,
    invoice_total; cbn [total subtotal tax discount].
  repeat split; intros; rewrite H; reflexivity.
Qed.

Lemma invoice_persist_idempotent_witness :
  let w := world_of [local_row "monthly" "active" 0 0] in
  let w' := deliver_invoice invoice_2999 [1; 2; 3] w in
  rows_with_id "in_1" (invoices w') = 1%nat /\
  exists r, In r (invoices w') /\ total r = 2999.
Proof.
  cbv zeta.
  destruct (invoice_persist_idempotent invoice_2999
              (world_of [local_row "monthly" "active" 0 0]) 1 [2; 3] "cus_1"
              (local_row "monthly" "active" 0 0)
              eq_refl ltac:(discriminate) eq_refl ltac:(discriminate)
              eq_refl (le_0_n 1))
    as (Hone & _ & _ & _ & r & HIn & _ & _ & _ & Htotal & _).
  split; [exact Hone |].
  exists r. split; [exact HIn | apply Htotal; reflexivity].
Defined.

(** ** Ordering of remote calls and local writes *)

Lemma skipn_app_exact {A : Type} (l x : list A) : skipn (length l) (l ++ x) = x.
Proof. induction l as [| a l IH]; [reflexivity | exact IH]. Qed.

Lemma skipn_exact {A : Type} (l : list A) : skipn (length l) l = [].
Proof. induction l as [| a l IH]; [reflexivity | exact IH]. Qed.






Section Discipline.

Variable w0 : World.








(** *** Rules *)

























End Discipline.















(** ** Trial fingerprint guard *)

Lemma neq_eqb (a b : string) : a <> b -> (a !== b) = true.
Proof. intros H. apply negb_true_iff, String.eqb_neq, H. Qed.

Lemma has_duplicate_fingerprint_true (fp uid : string) (rows : list SubscriptionRow) :
  has_duplicate_fingerprint fp uid rows = true <->
  exists other, In other rows /\ card_fingerprint other = Some fp /\
                user_id other <> uid.
Proof.
  unfold has_duplicate_fingerprint. rewrite existsb_exists. split.
  - intros (r & HIn & Hr). exists r. split; [exact HIn |].
    destruct (card_fingerprint r) as [f |]; [| discriminate Hr].
    apply andb_true_iff in Hr. destruct Hr as [Hf Hu].
    apply String.eqb_eq in Hf. apply negb_true_iff, String.eqb_neq in Hu.
    split; [congruence | exact Hu].
  - intros (r & HIn & Hf & Hu). exists r. split; [exact HIn |].
    rewrite Hf, String.eqb_refl, (neq_eqb _ _ Hu). reflexivity.
Qed.

Lemma has_duplicate_fingerprint_false (fp uid : string) (rows : list SubscriptionRow) :
  (forall other, In other rows -> card_fingerprint other = Some fp ->
                 user_id other = uid) ->
  has_duplicate_fingerprint fp uid rows = false.
Proof.
  intros Hnone. destruct (has_duplicate_fingerprint fp uid rows) eqn:E; [| reflexivity].
  apply has_duplicate_fingerprint_true in E. destruct E as (r & HIn & Hf & Hu).
  elim Hu. exact (Hnone r HIn Hf).
Qed.

Lemma truthy_js_or (v : option string) :
  truthy (js_or v None) = truthy v /\
  (truthy v = true -> js_or v None = v) /\
  (truthy v = false -> js_or v None = None).
Proof.
  unfold js_or. destruct (truthy v) eqn:E;
    repeat split; auto; try discriminate.
Qed.

(** C6, as stated, fails when the fingerprint cannot be read: the
    retrieval of the payment method runs in a [try] with an empty [catch],
    so a retrieval that throws leaves the fingerprint [null] and the guard
    [if (isTrial && cardFingerprint)] is passed over.  With the provider
    out of reach for that one call, user 2 starts a trial on the card user
    1 already used. *)
Lemma unread_fingerprint_is_not_checked : ~ duplicate_card_always_rejected.
Proof.
  intros Hclaim.
  specialize (Hclaim stripe_cards_unreachable_once 0 "row_2" user_2
                (trial_request "pm_x") (world_of [trial_row_1])
                "price_trial" "pm_x" "fp_X" trial_row_1).
  assert (Hbody :
            body (fst (create_payment stripe_cards_unreachable_once 0 "row_2"
                         (Some user_2) (trial_request "pm_x")
                         (world_of [trial_row_1]))) =
            ErrorBody MSG_DUPLICATE_TRIAL_CARD).
  { apply Hclaim; try reflexivity; try discriminate.
    - exists [(PaymentMethodsRetrieve "pm_x",
               Some (Error "An error occurred with our connection to Stripe."))].
      reflexivity.
    - intros h answer. destruct h; cbn; [discriminate |].
      intros H. inversion H. reflexivity.
    - left. reflexivity. }
  vm_compute in Hbody. discriminate Hbody.
Qed.

(** C6, amended. For every authenticated create-payment request with a
    price and a payment method: when the request asks for a trial, the
    retrieval of the payment method is answered with a non-empty
    fingerprint, and the subscription row of another user carries that
    fingerprint, the request is answered 400 with the duplicate-trial-card
    error, and the only thing that happened before is the retrieval of the
    payment method (no customer or subscription was created or updated
    remotely and no row was written).  In every other case (no trial asked
    for, the retrieval threw or reported no fingerprint, or no other
    user's row carries the fingerprint, which includes a different
    fingerprint and the user's own) the check does not block: the handler
    answers what its steps 2 to 4 answer after the retrieval. *)
Theorem duplicate_trial_card_rejected (stripe : Stripe) (now : Z)
    (new_id : string) (user : User) (req : CreatePaymentRequest) (w : World)
    (price pm : string)
    (Hprice : priceId req = Some price) (Hprice_set : price <> "")
    (Hpm : paymentMethodId req = Some pm) (Hpm_set : pm <> "") :
  let answer := paymentMethods_retrieve stripe (calls w) pm in
  let w1 := logged w (PaymentMethodsRetrieve pm, outcome answer) in
  let cardFingerprint :=
    match answer with
    | inr fp => js_or fp None
    | inl _ => None
    end in
  let duplicate :=
    isTrial req = true /\
    exists fp other,
      answer = inr (Some fp) /\ fp <> "" /\
      In other (subscriptions w) /\
      card_fingerprint other = Some fp /\
      user_id other <> u_id user in
  (duplicate ->
   create_payment stripe now new_id (Some user) req w =
   ({| http_status := 400; body := ErrorBody MSG_DUPLICATE_TRIAL_CARD |}, w1)) /\
  (~ duplicate ->
   create_payment stripe now new_id (Some user) req w =
   serve (create_payment_after_check stripe now new_id user req price
            cardFingerprint) w1).
Proof.
  intros answer w1 cardFingerprint duplicate.
  assert (Hresolve :
            resolve_fingerprint stripe (paymentMethodId req) w =
            (inr cardFingerprint, w1)).
  { unfold resolve_fingerprint. rewrite Hpm, (neq_eqb _ _ Hpm_set).
    unfold try_catch, bind, remote, ret. fold answer.
    subst cardFingerprint w1. destruct answer as [e | fp]; reflexivity. }
  assert (Hrun :
            create_payment stripe now new_id (Some user) req w =
            serve (trial_fingerprint_guard (isTrial req) cardFingerprint
                     (u_id user) ;;;
                   create_payment_after_check stripe now new_id user req price
                     cardFingerprint) w1).
  { unfold create_payment, serve, create_payment_body.
    unfold bind at 1. unfold require. rewrite Hprice, (neq_eqb _ _ Hprice_set).
    unfold ret at 1. unfold bind at 1. rewrite Hresolve. reflexivity. }
  rewrite Hrun. clear Hrun Hresolve.
  unfold serve, bind at 1, trial_fingerprint_guard.
  split.
  - intros (Htrial & fp & other & Hanswer & Hfp & HIn & Hcard & Huser).
    assert (Hc : cardFingerprint = Some fp).
    { subst cardFingerprint. rewrite Hanswer. apply js_or_Some, Hfp. }
    rewrite Hc, Htrial, (truthy_Some fp Hfp). cbn [andb].
    unfold bind, get_subscriptions. subst w1.
    cbn [logged subscriptions nullish_def].
    assert (Hdup : has_duplicate_fingerprint fp (u_id user) (subscriptions w) = true)
      by (apply has_duplicate_fingerprint_true; exists other; auto).
    rewrite Hdup. reflexivity.
  - intros Hnone.
    destruct (isTrial req && truthy cardFingerprint) eqn:Hguard;
      [| reflexivity].
    apply andb_true_iff in Hguard. destruct Hguard as [Htrial Htruthy].
    unfold bind, get_subscriptions.
    destruct (has_duplicate_fingerprint (nullish_def cardFingerprint "")
                (u_id user) (subscriptions w1)) eqn:Hdup; [| reflexivity].
    exfalso. apply Hnone. split; [exact Htrial |].
    apply has_duplicate_fingerprint_true in Hdup.
    destruct Hdup as (other & HIn & Hcard & Huser).
    subst cardFingerprint. destruct answer as [e | fp] eqn:Hanswer;
      [discriminate Htruthy |].
    destruct (truthy_js_or fp) as (Ht & Hsame & _).
    rewrite Ht in Htruthy. rewrite (Hsame Htruthy) in Hcard.
    destruct fp as [fp |]; [| discriminate Htruthy].
    exists fp, other. cbn [nullish_def] in Hcard.
    repeat split; auto.
    intros ->. discriminate Htruthy.
Qed.

Lemma duplicate_trial_card_rejected_witness :
  let w := world_of [trial_row_1] in
  create_payment stripe_cards 0 "row_2" (Some user_2) (trial_request "pm_x") w =
  ({| http_status := 400; body := ErrorBody MSG_DUPLICATE_TRIAL_CARD |},
   logged w (PaymentMethodsRetrieve "pm_x", None)) /\
  create_payment stripe_cards 0 "row_2" (Some user_2) (trial_request "pm_y") w =
  serve (create_payment_after_check stripe_cards 0 "row_2" user_2
           (trial_request "pm_y") "price_trial" (Some "fp_Y"))
    (logged w (PaymentMethodsRetrieve "pm_y", None)) /\
  http_status
    (fst (create_payment stripe_cards 0 "row_2" (Some user_2)
            (trial_request "pm_y") w)) = 200.
Proof.
  cbv zeta. split; [| split; [| reflexivity]].
  - apply (proj1 (duplicate_trial_card_rejected stripe_cards 0 "row_2" user_2
                    (trial_request "pm_x") (world_of [trial_row_1])
                    "price_trial" "pm_x"
                    eq_refl ltac:(discriminate) eq_refl ltac:(discriminate))).
    split; [reflexivity |]. exists "fp_X", trial_row_1.
    split; [reflexivity |]. split; [discriminate |].
    split; [left; reflexivity |]. split; [reflexivity | discriminate].
  - apply (proj2 (duplicate_trial_card_rejected stripe_cards 0 "row_2" user_2
                    (trial_request "pm_y") (world_of [trial_row_1])
                    "price_trial" "pm_y"
                    eq_refl ltac:(discriminate) eq_refl ltac:(discriminate))).
    intros (_ & fp & other & Hanswer & _ & [<- | []] & Hcard & _).
    inversion Hanswer. subst fp. discriminate Hcard.
Defined.

(** The scenario of the guard: the first trial on a card succeeds and
    records the fingerprint; a trial of another user on the same card is
    refused; a trial of that user on another card succeeds. *)
Example trial_fingerprint_scenario :
  let r1 := create_payment stripe_cards 0 "row_1" (Some user_1)
              (trial_request "pm_x") (world_of []) in
  let w1 := next_invocation (snd r1) in
  let r2 := create_payment stripe_cards 0 "row_2" (Some user_2)
              (trial_request "pm_x2") w1 in
  let w2 := next_invocation (snd r2) in
  let r3 := create_payment stripe_cards 0 "row_2" (Some user_2)
              (trial_request "pm_y") w2 in
  http_status (fst r1) = 200 /\
  map card_fingerprint (subscriptions w1) = [Some "fp_X"] /\
  fst r2 = {| http_status := 400; body := ErrorBody MSG_DUPLICATE_TRIAL_CARD |} /\
  subscriptions w2 = subscriptions w1 /\
  http_status (fst r3) = 200 /\
  map (fun r => (user_id r, plan_type r, card_fingerprint r))
      (subscriptions (snd r3)) =
  [("user_1", "trial", Some "fp_X"); ("user_2", "trial", Some "fp_Y")].
Proof. vm_compute. repeat split. Qed.

(** ** Case analysis of one handler run *)

Ltac unfold_monad H :=
  unfold serve, select_by_user, select_by_id_and_user, update_by_id, insert_row,
    attach_payment_method, resolve_fingerprint, trial_fingerprint_guard,
    require, when, try_catch, remote, get_subscriptions, put_subscriptions,
    bind, ret, throw, rethrow in H.

Ltac simp H :=
  cbv beta iota in H;
  cbn [calls subscriptions invoices restaurants outcome fst snd] in H.

(** Split the run recorded in [H : handler w = (resp, w')] into its paths,
    innermost test first, and read off [resp] and [w'] on each path. *)
Ltac exec H :=
  unfold_monad H;
  repeat (simp H;
          match type of H with
          | context [match ?x with _ => _ end] =>
              lazymatch x with
              | context [match _ with _ => _ end] => fail
              | _ => first [ is_var x; destruct x | destruct x eqn:? ]
              end
          end);
  simp H; inversion H; subst; clear H.

(** Read a hypothesis [HIn : In entry (new_calls w w')] as the list of
    calls it allows. *)
Ltac log_cases HIn :=
  unfold new_calls in HIn; cbn [calls snd] in HIn;
  rewrite <- ?app_assoc in HIn;
  first [ rewrite skipn_app_exact in HIn | rewrite skipn_exact in HIn ];
  cbn [app In] in HIn;
  repeat match type of HIn with
         | _ \/ _ => destruct HIn as [HIn | HIn]
         | False => destruct HIn
         | (_, _) = (_, _) => inversion HIn; subst; clear HIn
         end.

(** ** Deferred downgrade *)

Lemma pending_after_update (rid : string) (p : RowPatch)
    (rows : list SubscriptionRow) :
  set_pending_plan_change p = None ->
  map pending_plan_change
      (map (fun r => if id r === rid then apply_patch p r else r) rows)
  = map pending_plan_change rows.
Proof.
  intros Hp. rewrite map_map. apply map_ext. intros r.
  destruct (id r === rid); [| reflexivity].
  unfold apply_patch; cbn [pending_plan_change]. rewrite Hp. reflexivity.
Qed.

(** No run of the change-plan handler writes the pending-change marker. *)
Lemma change_plan_keeps_pending (stripe : Stripe) (now : Z) (user : option User)
    (req : ChangePlanRequest) (w : World) :
  map pending_plan_change
      (subscriptions (snd (change_plan stripe now user req w)))
  = map pending_plan_change (subscriptions w).
Proof.
  destruct (change_plan stripe now user req w) as [resp w'] eqn:Hrun.
  unfold change_plan, change_plan_body in Hrun. exec Hrun;
    cbn [snd subscriptions]; try reflexivity;
    apply pending_after_update; reflexivity.
Qed.

(** A deferred downgrade that goes through keeps [plan_type] as it was. *)
Lemma deferred_downgrade_keeps_plan_type (now : Z) (currentSub : SubscriptionRow)
    (updatedSubscription : Subscription) (target : string) :
  isDeferredDowngrade (plan_type currentSub) target = true ->
  plan_type (apply_patch
               (change_plan_dbUpdate now currentSub updatedSubscription target)
               currentSub)
  = plan_type currentSub.
Proof.
  intros Hd. unfold apply_patch, change_plan_dbUpdate; cbn [plan_type set_plan_type].
  rewrite Hd. reflexivity.
Qed.

(** Among the four plan types, the changes the handler defers are exactly
    those from semiannual or annual to trial: every other downgrade changes
    the interval. *)
Lemma deferred_downgrade_pairs (current target : Plan) :
  isDeferredDowngrade (plan_name current) (plan_name target) = true <->
  target = Trial /\ (current = Semiannual \/ current = Annual).
Proof.
  destruct current, target; cbn; split; intros H;
    first [ discriminate H | reflexivity | tauto
          | destruct H as [H1 [H2 | H2]]; discriminate ].
Qed.

(** C1. The annual plan of an active row is downgraded to the trial plan,
    a downgrade without interval change.  The handler answers that the
    change takes effect at the end of the period and leaves [plan_type] at
    ["annual"], but the row's [pending_plan_change] is still empty after the
    write: the target plan type, the target price and the request time are
    recorded nowhere in the local store.  No run of the change-plan handler
    ever writes that column. *)
Theorem deferred_downgrade_leaves_pending_change_empty :
  let current := remote_sub "sub_old" "active" "annual" JAN_2025 JAN_2026 in
  let updated := remote_sub "sub_old" "active" "trial" JAN_2025 JAN_2026 in
  let stripe := stripe_stub current updated (empty_invoice "in_1") None in
  let row := local_row "annual" "active" (JAN_2025 * 1000) (JAN_2026 * 1000) in
  let run := change_plan stripe (FEB_2025 * 1000) (Some user_1)
               (change_request "trial" "price_trial") (world_of [row]) in
  isDeferredDowngrade "annual" "trial" = true /\
  hasIntervalChange "annual" "trial" = false /\
  fst run =
    {| http_status := 200;
       body := ChangePlanBody true false None
                 (Some "Plan change will take effect at the end of your current billing period.") |} /\
  map (fun r => (plan_type r, status r, pending_plan_change r))
      (subscriptions (snd run)) = [("annual", "active", None)] /\
  (forall stripe now user req w,
     map pending_plan_change
         (subscriptions (snd (change_plan stripe now user req w)))
     = map pending_plan_change (subscriptions w)).
Proof.
  cbv zeta. repeat split; try (vm_compute; reflexivity).
  intros. apply change_plan_keeps_pending.
Qed.

(** ** Reactivation of a fully canceled remote subscription *)

(** C2. The row's remote subscription is fully canceled and the stored
    period end is still in the future.  The reactivate handler that
    resumes answers 200 after updating the canceled remote subscription in
    place: it creates no remote subscription, sends no [trial_end], and the
    row keeps the old remote subscription id.  On the same input the two
    handlers that recreate do create a remote subscription whose
    [trial_end] is the stored period end in seconds, and the row adopts
    the new id with [plan_type] as it was. *)
Theorem reactivation_of_canceled_does_not_recreate :
  let current := remote_sub "sub_old" "canceled" "monthly" FEB_2025 MAR_2025 in
  let created := remote_sub "sub_new" "trialing" "monthly" FEB_2025 MAR_2025 in
  let stripe := stripe_stub current created (empty_invoice "in_1") None in
  let row := local_row "monthly" "canceled" (FEB_2025 * 1000) (MAR_2025 * 1000) in
  let now := (FEB_2025 + days 10) * 1000 in
  let run := reactivate_subscription stripe now (Some user_1)
               reactivate_request (world_of [row]) in
  let run_any := reactivate_recreate_any stripe now (Some user_1)
                   reactivate_request (world_of [row]) in
  let run_canceled := reactivate_recreate_canceled stripe now (Some user_1)
                        reactivate_request (world_of [row]) in
  fst run = {| http_status := 200; body := SuccessBody |} /\
  calls (snd run) =
    [(SubscriptionsRetrieve (Some "sub_old"), None);
     (SubscriptionsUpdate (Some "sub_old") (resume_params (Some "pm_1")), None)] /\
  map (fun r => (stripe_subscription_id r, plan_type r, status r))
      (subscriptions (snd run)) = [(Some "sub_old", "monthly", "active")] /\
  (exists p,
      calls (snd run_any) =
        [(SubscriptionsRetrieve (Some "sub_old"), None);
         (SubscriptionsCreate p, None)] /\
      cp_trial_end p = Some MAR_2025) /\
  map (fun r => (stripe_subscription_id r, plan_type r, status r))
      (subscriptions (snd run_any)) = [(Some "sub_new", "monthly", "active")] /\
  (exists p,
      calls (snd run_canceled) =
        [(SubscriptionsRetrieve (Some "sub_old"), None);
         (SubscriptionsCreate p, None)] /\
      cp_trial_end p = Some MAR_2025) /\
  map (fun r => (stripe_subscription_id r, plan_type r, status r))
      (subscriptions (snd run_canceled)) = [(Some "sub_new", "monthly", "active")].
Proof.
  cbv zeta.
  split; [vm_compute; reflexivity |].
  split; [vm_compute; reflexivity |].
  split; [vm_compute; reflexivity |].
  split; [eexists; split; vm_compute; reflexivity |].
  split; [vm_compute; reflexivity |].
  split; [eexists; split; vm_compute; reflexivity |].
  vm_compute; reflexivity.
Qed.

Lemma exactly_one_In {A : Type} (l : list A) (x : A) :
  exactly_one l = Some x -> In x l.
Proof.
  destruct l as [| a [| b l]]; cbn; intros H; inversion H. left. reflexivity.
Qed.

(** What the caller's row lookup tells about the request. *)
Lemma select_by_id_and_user_found (rid : option string) (uid : string) (w : World)
    (row : SubscriptionRow) :
  select_by_id_and_user rid uid w = (inr (Some row), w) ->
  rid = Some (id row) /\ user_id row = uid /\ In row (subscriptions w).
Proof.
  unfold select_by_id_and_user, bind, get_subscriptions, ret. intros H.
  inversion H as [Hone]. apply exactly_one_In, filter_In in Hone.
  destruct Hone as [HIn Htest]. destruct rid as [i |]; [| discriminate Htest].
  apply andb_true_iff in Htest. destruct Htest as [Hi Hu].
  apply String.eqb_eq in Hi, Hu. subst. auto.
Qed.

(** The claim of C2 holds of the handler that recreates whenever the remote
    subscription is not active: a canceled remote subscription with paid
    time left is replaced by a new one whose trial ends at the stored period
    end (in seconds); the row adopts the new id and keeps its plan type. *)
Lemma recreate_any_carries_paid_time (stripe : Stripe) (now : Z) (user : User)
    (req : ReactivateRequest) (w : World) (row : SubscriptionRow)
    (canceled created : Subscription) :
  select_by_id_and_user (rr_subscriptionId req) (u_id user) w = (inr (Some row), w) ->
  (forall h sid, subscriptions_retrieve stripe h sid = inr canceled) ->
  sub_status canceled = "canceled" ->
  (forall h p, subscriptions_create stripe h p = inr created) ->
  now < current_period_end row ->
  let run := reactivate_recreate_any stripe now (Some user) req w in
  fst run = {| http_status := 200; body := SuccessBody |} /\
  (exists p,
      new_calls w (snd run) =
        [(SubscriptionsRetrieve (stripe_subscription_id row), None);
         (SubscriptionsCreate p, None)] /\
      cp_trial_end p = Some (current_period_end row / 1000)) /\
  map plan_type (subscriptions (snd run)) = map plan_type (subscriptions w) /\
  (forall r', In r' (subscriptions (snd run)) -> id r' = id row ->
              stripe_subscription_id r' = Some (sub_id created)).
Proof.
  intros Hsel Hret Hst Hcre Hfuture. cbv zeta.
  destruct (select_by_id_and_user_found _ _ _ _ Hsel) as (Hrid & _ & _).
  assert (Hgt : (current_period_end row >? now) = true)
    by (apply Z.gtb_lt; exact Hfuture).
  destruct (reactivate_recreate_any stripe now (Some user) req w)
    as [resp w'] eqn:Hrun.
  unfold reactivate_recreate_any, serve, reactivate_recreate_any_body in Hrun.
  unfold bind at 1 in Hrun. rewrite Hsel in Hrun.
  unfold try_catch, bind, remote, ret in Hrun. rewrite Hret in Hrun.
  cbn [outcome] in Hrun. rewrite Hst in Hrun.
  cbn [String.eqb Ascii.eqb Bool.eqb orb] in Hrun.
  rewrite Hcre, Hgt, Hrid in Hrun.
  unfold update_by_id, bind, get_subscriptions, put_subscriptions, ret in Hrun.
  cbn [outcome calls subscriptions invoices restaurants] in Hrun.
  inversion Hrun; subst resp w'; clear Hrun.
  cbn [fst snd subscriptions].
  split; [reflexivity |]. split; [| split].
  - eexists. split.
    + unfold new_calls. cbn [calls]. rewrite <- app_assoc.
      rewrite skipn_app_exact. reflexivity.
    + reflexivity.
  - rewrite map_map. apply map_ext. intros r.
    destruct (id r === id row); reflexivity.
  - intros r' HIn Hid. apply in_map_iff in HIn. destruct HIn as (r & Hr & _).
    destruct (id r === id row) eqn:E; subst r'.
    + reflexivity.
    + apply String.eqb_neq in E. contradiction.
Qed.

(** ** Stored period end *)


(** The same regression as a sequence of two writes: the checkout of the
    annual plan on 2025-01-01 stores the period end 2026-01-01, and the
    change to monthly on 2025-02-01 stores 2025-03-01 for the same remote
    subscription id. *)
Example period_end_regresses_across_two_writes :
  let w1 := next_invocation
              (snd (create_payment stripe_year_then_month (JAN_2025 * 1000)
                      "row_1" (Some user_1) annual_checkout (world_of []))) in
  let w2 := snd (change_plan stripe_year_then_month (FEB_2025 * 1000)
                   (Some user_1) (change_request "monthly" "price_monthly") w1) in
  map (fun r => (stripe_subscription_id r, current_period_end r))
      (subscriptions w1) = [(Some "sub_old", JAN_2026 * 1000)] /\
  map (fun r => (stripe_subscription_id r, current_period_end r))
      (subscriptions w2) = [(Some "sub_old", MAR_2025 * 1000)] /\
  MAR_2025 * 1000 < JAN_2026 * 1000.
Proof. vm_compute. repeat split. Qed.



(** ** Update parameters of a plan change *)

Lemma truthy_inv (v : option string) :
  truthy v = true -> exists s, v = Some s /\ s <> "".
Proof.
  destruct v as [s |]; [| discriminate]. cbn. intros H.
  exists s. split; [reflexivity |]. apply String.eqb_neq, negb_true_iff, H.
Qed.

Lemma updateParams_cascade (currentSub : SubscriptionRow)
    (stripeSubscription : Subscription) (target price : string) :
  follows_cascade currentSub stripeSubscription target
    (change_plan_updateParams currentSub stripeSubscription target price).
Proof.
  unfold follows_cascade, change_plan_updateParams. cbv zeta.
  destruct (isCurrentlyTrial currentSub stripeSubscription && (target !== "trial"));
    destruct (hasIntervalChange (plan_type currentSub) target);
    destruct (isUpgrade (plan_type currentSub) target);
    cbn; repeat split; intros; try discriminate; reflexivity.
Qed.

(** C4, as stated, fails in its last case: a trial row moving to the annual
    plan is an upgrade without interval change, and the handler resets the
    billing-cycle anchor to now, because the trial case comes first. *)
Lemma trial_upgrade_resets_anchor : ~ update_follows_classification.
Proof.
  intros Hclaim.
  pose (current := remote_sub "sub_old" "trialing" "trial"
                     JAN_2025 (JAN_2025 + days 30)).
  pose (updated := remote_sub "sub_old" "active" "annual" FEB_2025 (FEB_2025 + days 365)).
  pose (row := local_row "trial" "trialing" (JAN_2025 * 1000)
                 ((JAN_2025 + days 30) * 1000)).
  destruct (Hclaim (stripe_stub current updated (empty_invoice "in_1") None)
              (FEB_2025 * 1000) user_1 (change_request "annual" "price_annual")
              (world_of [row]) row "annual" (Some "sub_old")
              (change_plan_updateParams row current "annual" "price_annual")
              eq_refl eq_refl)
    as (_ & _ & Hupgrade).
  - vm_compute. right. left. reflexivity.
  - destruct (Hupgrade eq_refl eq_refl) as [_ Hanchor].
    vm_compute in Hanchor. discriminate Hanchor.
Qed.

(** Its first case fails too when the latest invoice comes back with its
    payment intent unexpanded: the trial is ended at once, and the answer
    carries [requiresPayment = false] and no client secret. *)
Example trial_to_paid_without_client_secret :
  let current := remote_sub "sub_old" "trialing" "trial"
                   JAN_2025 (JAN_2025 + days 30) in
  let updated := remote_sub "sub_old" "active" "monthly" FEB_2025 MAR_2025 in
  let invoice := fixture_invoice "in_1" (Cust_id "cus_1") (Some 2999) (PI_id "pi_1") in
  let row := local_row "trial" "trialing" (JAN_2025 * 1000)
               ((JAN_2025 + days 30) * 1000) in
  let run := change_plan (stripe_stub current updated invoice None)
               (FEB_2025 * 1000) (Some user_1)
               (change_request "monthly" "price_monthly") (world_of [row]) in
  up_trial_end (change_plan_updateParams row current "monthly" "price_monthly")
    = Some TE_now /\
  fst run = {| http_status := 200; body := DEFERRED_ANSWER |} /\
  map plan_type (subscriptions (snd run)) = ["monthly"].
Proof. vm_compute. repeat split. Qed.

Ltac normalize_histories :=
  repeat match goal with
         | H : context [(_ ++ _) ++ _] |- _ => rewrite <- app_assoc in H
         end;
  cbn [app] in *.

(** C4, amended. For every plan-change request that makes the handler
    update the remote subscription, with the current and the target plan
    type not names inherited from [Object.prototype] (as the four plan
    types are): the update is for the remote subscription of the caller's
    row, which the handler retrieved just before, and its parameters are
    those of the decision table read first match first: trial to paid
    (the row is on trial, or the remote status is trialing, and the target
    is not trial) ends the trial now, with prorations and a new anchor;
    otherwise an interval change prorates with a new anchor; otherwise an
    upgrade prorates and keeps the anchor; anything else neither prorates
    nor moves the anchor.  When the update goes through (and the period the
    provider answers with can be spelled as dates), the answer is settled
    by the latest invoice of the updated subscription, as the provider
    returns it after the update: if the change charges now (trial, upgrade
    or interval change) and that invoice's payment intent carries a
    non-empty client secret, the answer is [requiresPayment = true] with
    that very secret; if the change charges now and the retrieval of the
    invoice throws, the answer is 400 with its message; in every other
    case it is the deferred answer, [requiresPayment = false]. *)
Theorem change_plan_update_parameters (stripe : Stripe) (now : Z)
    (user : User) (req : ChangePlanRequest) (w : World)
    (currentSub : SubscriptionRow) (target price : string)
    (sid : option string) (p : UpdateParams) (o : option Exn)
    (Hrow : exactly_one (filter (fun r => user_id r === u_id user) (subscriptions w))
      = Some currentSub)
    (Htarget : newPlanType req = Some target)
    (Hprice : newPriceId req = Some price)
    (Hcurrent : inherited (plan_type currentSub) = false)
    (Hnew : inherited target = false)
    (Hcall : In (SubscriptionsUpdate sid p, o)
                (new_calls w (snd (change_plan stripe now (Some user) req w)))) :
  let run := change_plan stripe now (Some user) req w in
  exists stripeSubscription before after,
    new_calls w (snd run) =
      before ++ (SubscriptionsRetrieve sid, None) ::
                (SubscriptionsUpdate sid p, o) :: after /\
    subscriptions_retrieve stripe (calls w ++ before) sid = inr stripeSubscription /\
    p = change_plan_updateParams currentSub stripeSubscription target price /\
    follows_cascade currentSub stripeSubscription target p /\
    let h := calls w ++ before ++ [(SubscriptionsRetrieve sid, None)] in
    o = outcome (subscriptions_update stripe h sid p) /\
    forall updatedSubscription,
      subscriptions_update stripe h sid p = inr updatedSubscription ->
      Date_valid (sub_current_period_start updatedSubscription * 1000) = true ->
      Date_valid (sub_current_period_end updatedSubscription * 1000) = true ->
      fst run =
      if charges_now currentSub stripeSubscription target then
        match invoices_retrieve stripe (h ++ [(SubscriptionsUpdate sid p, None)])
                (sub_latest_invoice updatedSubscription) with
        | inr latestInvoice =>
            let clientSecret :=
              pi_client_secret (inv_payment_intent latestInvoice) in
            if truthy clientSecret then
              {| http_status := 200;
                 body :=
                   ChangePlanBody true true clientSecret
                     (Some (change_plan_message
                              (isCurrentlyTrial currentSub stripeSubscription)
                              (hasIntervalChange (plan_type currentSub) target)
                              (isUpgrade (plan_type currentSub) target))) |}
            else {| http_status := 200; body := DEFERRED_ANSWER |}
        | inl e => {| http_status := 400; body := ErrorBody (message_of e) |}
        end
      else {| http_status := 200; body := DEFERRED_ANSWER |}.
Proof.
  cbv zeta.
  destruct (change_plan stripe now (Some user) req w) as [resp w'] eqn:Hrun.
  unfold change_plan, change_plan_body in Hrun.
  rewrite Htarget, Hprice in Hrun. cbn [nullish_def] in Hrun.
  exec Hrun; log_cases Hcall; inversion Hrow; subst;
    normalize_histories;
    match goal with
    | H : subscriptions_retrieve stripe (calls w ++ ?b) _ = inr ?s3 |- _ =>
        exists s3, b
    | H : subscriptions_retrieve stripe (calls w) _ = inr ?s3 |- _ =>
        exists s3, (@nil (Call * option Exn)); rewrite ?app_nil_r
    end;
    eexists;
    (split;
     [ unfold new_calls; cbn [snd calls]; rewrite <- ?app_assoc;
       rewrite skipn_app_exact; cbn [app]; reflexivity |]);
    (split; [assumption |]);
    (split; [reflexivity |]);
    (split; [apply updateParams_cascade |]);
    rewrite <- ?app_assoc; cbn [app];
    match goal with
    | H : subscriptions_update _ _ _ _ = _ |- _ => rewrite H
    end;
    (split; [reflexivity |]);
    intros updated Hupdated _ _; inversion Hupdated; subst; cbn [fst];
    unfold charges_now;
    repeat match goal with
           | H : _ = _ |- _ => rewrite H
           end;
    reflexivity.
Qed.

Lemma change_plan_update_parameters_witness :
  let w := world_of [monthly_row] in
  let run := change_plan stripe_monthly_to_annual (JAN_2025 * 1000 + 1)
               (Some user_1) (change_request "annual" "price_annual") w in
  let p := change_plan_updateParams monthly_row monthly_sub "annual" "price_annual" in
  In (SubscriptionsUpdate (Some "sub_old") p, None) (new_calls w (snd run)) /\
  follows_cascade monthly_row monthly_sub "annual" p /\
  up_proration_behavior p = Some "create_prorations" /\
  up_billing_cycle_anchor p = Some "now" /\
  fst run =
  {| http_status := 200;
     body :=
       ChangePlanBody true true (Some "pi_1_secret")
         (Some "Billing interval changed. You'll be charged the prorated amount for the new plan.") |}.
Proof.
  cbv zeta.
  assert (Hcall :
            In (SubscriptionsUpdate (Some "sub_old")
                  (change_plan_updateParams monthly_row monthly_sub
                     "annual" "price_annual"), None)
               (new_calls (world_of [monthly_row])
                  (snd (change_plan stripe_monthly_to_annual (JAN_2025 * 1000 + 1)
                          (Some user_1) (change_request "annual" "price_annual")
                          (world_of [monthly_row])))))
    by (vm_compute; right; left; reflexivity).
  split; [exact Hcall |].
  destruct (change_plan_update_parameters stripe_monthly_to_annual
              (JAN_2025 * 1000 + 1) user_1
              (change_request "annual" "price_annual") (world_of [monthly_row])
              monthly_row "annual" "price_annual" (Some "sub_old")
              (change_plan_updateParams monthly_row monthly_sub
                 "annual" "price_annual") None
              eq_refl eq_refl eq_refl eq_refl eq_refl Hcall)
    as (sub & before & after & _ & Hsub & _ & _ & _ & Hanswer).
  inversion Hsub; subst sub.
  split; [apply updateParams_cascade |].
  split; [reflexivity |]. split; [reflexivity |].
  rewrite (Hanswer annual_sub eq_refl eq_refl eq_refl). reflexivity.
Defined.


(** ** Two spellings of one status *)










(** ** Webhook sync *)

(** A subscription-updated event that names its user reaches the database
    function with exactly the arguments derived from the event's own
    subscription object, and the rows become what that function returns. *)
Lemma handleSubscriptionUpdated_calls_rpc
    (handle_subscription_webhook :
       WebhookArgs -> list SubscriptionRow -> Exn + list SubscriptionRow)
    (subscription : Subscription) (w : World) (uid : string)
    (rows' : list SubscriptionRow) :
  md_get "user_id" (sub_metadata subscription) = Some uid ->
  uid <> "" ->
  Date_valid (sub_current_period_start subscription * 1000) = true ->
  Date_valid (sub_current_period_end subscription * 1000) = true ->
  handle_subscription_webhook (subscription_updated_args subscription uid)
    (subscriptions w) = inr rows' ->
  handleSubscriptionUpdated handle_subscription_webhook subscription w =
  (inr (result_done "subscription_updated" uid (metadata_plan_type subscription)
          (stripe_period subscription (metadata_plan_type subscription))),
   {| subscriptions := rows'; invoices := invoices w;
      restaurants := restaurants w; calls := calls w |}).
Proof.
  intros Huid Hset Hs He Hrpc.
  unfold handleSubscriptionUpdated, rpc.
  unfold try_catch, bind, lift, get_subscriptions, put_subscriptions, ret.
  rewrite Huid, (truthy_Some uid Hset).
  cbn [negb nullish_def fst snd subscriptions].
  rewrite (calculatePeriodFromStripe_valid _ _ Hs He).
  cbn [fst snd subscriptions]. rewrite Hrpc. reflexivity.
Qed.

(* ===================================================================== *)
(** * Part III. Further properties of the code *)
(* ===================================================================== *)

(** ** The webhook function *)

Lemma local_status_cases (s : string) :
  local_status_of_remote s = "active" \/
  local_status_of_remote s = "past_due" \/
  local_status_of_remote s = "canceled" \/
  (local_status_of_remote s = s /\
   (s = "unpaid" \/ s = "incomplete" \/ s = "incomplete_expired")).
Proof.
  unfold local_status_of_remote.
  destruct (s === "active") eqn:E1; cbn [orb]; [auto|].
  destruct (s === "trialing") eqn:E2; cbn [orb]; [auto|].
  destruct (s === "past_due") eqn:E3; cbn [orb]; [auto|].
  destruct (s === "canceled") eqn:E4; cbn [orb]; [auto|].
  destruct (s === "cancelled") eqn:E5; cbn [orb]; [auto|].
  destruct (s === "unpaid") eqn:E6; cbn [orb];
    [apply String.eqb_eq in E6; right; right; right; auto|].
  destruct (s === "incomplete") eqn:E7; cbn [orb];
    [apply String.eqb_eq in E7; right; right; right; auto|].
  destruct (s === "incomplete_expired") eqn:E8; cbn [orb];
    [apply String.eqb_eq in E8; right; right; right; auto|].
  auto.
Qed.

(** X1. The status the subscription-updated branch stores is always one of
    active, past_due, canceled, unpaid, incomplete and incomplete_expired
    (so never trialing, and never the double-l spelling), and mapping a
    stored status again gives it back. *)
Theorem local_status_of_remote_closed (s : string) :
  In (local_status_of_remote s)
     ["active"; "past_due"; "canceled"; "unpaid"; "incomplete";
      "incomplete_expired"] /\
  local_status_of_remote (local_status_of_remote s) = local_status_of_remote s.
Proof.
  destruct (local_status_cases s) as [H | [H | [H | [H [Hs | [Hs | Hs]]]]]];
    rewrite ?H; subst; cbn; auto 10.
Qed.

Section WebhookProperties.

Variable handle_subscription_webhook :
  WebhookArgs -> list SubscriptionRow -> Exn + list SubscriptionRow.
Variable addMonths : Z -> Z -> Z.
Variable addYears : Z -> Z -> Z.
Variable addDays : Z -> Z -> Z.
Variable constructEvent : string -> string -> string -> Exn + StripeEvent.

Ltac unfold_webhook H :=
  unfold handleCheckoutCompleted, handlePaymentSucceeded, handleInvoiceEvent,
    handleInvoicePaymentFailed, handleSubscriptionUpdated,
    handleSubscriptionDeleted, rpc, persistInvoiceToDatabase,
    get_restaurants, get_invoices, put_invoices, lift in H.

(** Every branch of the dispatcher returns a report, and a report of
    failure comes with the [subscriptions] table as it was. *)
Lemma dispatch_reports (stripe : Stripe) (now : Z) (event : Event) (w : World) :
  exists result w',
    dispatch handle_subscription_webhook addMonths addYears addDays
      stripe now event w = (inr result, w') /\
    (pr_success result = false -> subscriptions w' = subscriptions w).
Proof.
  destruct (dispatch handle_subscription_webhook addMonths addYears addDays
              stripe now event w) as [r w'] eqn:Hrun.
  destruct event; cbn [dispatch] in Hrun; unfold_webhook Hrun; exec Hrun;
    eexists; eexists; (split; [reflexivity|]); cbn; intros Hs;
    solve [reflexivity | discriminate Hs].
Qed.

(** X2. Whenever the webhook function answers with a status other than
    200 (so that the provider will deliver the event again), the
    [subscriptions] table is as it was before the delivery. *)
Theorem webhook_non_200_keeps_subscriptions (stripe : Stripe) (now : Z)
    (signature webhookSecret : option string) (body : string) (w : World)
    (Hstatus :
       response_status
         (fst (stripe_webhook handle_subscription_webhook addMonths addYears
            addDays constructEvent stripe now signature webhookSecret body w)) <> 200) :
  subscriptions (snd (stripe_webhook handle_subscription_webhook addMonths addYears
            addDays constructEvent stripe now signature webhookSecret body w)) =
  subscriptions w.
Proof.
  revert Hstatus. unfold stripe_webhook.
  destruct (truthy signature); cbn [negb]; [|reflexivity].
  destruct (truthy webhookSecret); cbn [negb]; [|reflexivity].
  destruct (constructEvent _ _ _) as [e | event]; [reflexivity|].
  destruct (toISOString _) as [e | iso]; [reflexivity|].
  destruct (dispatch_reports stripe now (ev_carried event) w)
    as (result & w' & Hrun & Hkeep).
  rewrite Hrun. cbn [fst snd response_status].
  destruct (pr_success result); [intros H; now contradiction H|].
  intros _. now apply Hkeep.
Qed.

(** X3. A delivery that is not verified (no signature header, no
    configured secret, or a signature that does not verify) changes
    nothing and issues no remote call; it is answered 500 when the header
    is there and the secret is not configured, and 400 otherwise. *)
Theorem webhook_unverified_has_no_effect (stripe : Stripe) (now : Z)
    (signature webhookSecret : option string) (body : string) (w : World)
    (Hunverified :
       truthy signature = false \/ truthy webhookSecret = false \/
       exists e,
         constructEvent body (nullish_def signature "")
           (nullish_def webhookSecret "") = inl e) :
  snd (stripe_webhook handle_subscription_webhook addMonths addYears
            addDays constructEvent stripe now signature webhookSecret body w) = w /\
  response_status (fst (stripe_webhook handle_subscription_webhook addMonths addYears
            addDays constructEvent stripe now signature webhookSecret body w)) =
  if truthy signature && negb (truthy webhookSecret) then 500 else 400.
Proof.
  unfold stripe_webhook.
  destruct (truthy signature) eqn:Hsig; cbn [negb andb]; [|now split].
  destruct (truthy webhookSecret) eqn:Hsec; cbn [negb]; [|now split].
  destruct Hunverified as [H | [H | [e H]]]; try discriminate H.
  rewrite H. now split.
Qed.

(** X4. A verified event whose creation time is a date [Date] can hold
    is always answered with the report of its branch, under the event's
    own type: no branch lets an exception reach the outer handler, and the
    status is 200 exactly when the branch reports success.  A verified
    event whose creation time is beyond that range is answered 400 with
    "Invalid time value" under the type "unknown", before any branch runs,
    and nothing changes. *)
Theorem webhook_verified_event_is_reported (stripe : Stripe) (now : Z)
    (signature webhookSecret : option string) (body : string)
    (event : StripeEvent) (w : World)
    (Hsig : truthy signature = true)
    (Hsecret : truthy webhookSecret = true)
    (Hevent :
       constructEvent body (nullish_def signature "")
         (nullish_def webhookSecret "") = inr event) :
  if Date_valid (ev_created event * 1000) then
    exists result,
      fst (stripe_webhook handle_subscription_webhook addMonths addYears
              addDays constructEvent stripe now signature webhookSecret body w) =
      EventResponse (if pr_success result then 200 else 400)
        (event_type (ev_carried event)) result now /\
      fst (dispatch handle_subscription_webhook addMonths addYears addDays
             stripe now (ev_carried event) w) = inr result
  else
    stripe_webhook handle_subscription_webhook addMonths addYears
      addDays constructEvent stripe now signature webhookSecret body w =
    (ErrorResponse 400 "Invalid time value" "unknown" now, w).
Proof.
  unfold stripe_webhook. rewrite Hsig, Hsecret, Hevent. cbn [negb].
  unfold toISOString.
  destruct (Date_valid (ev_created event * 1000)); [|reflexivity].
  destruct (dispatch_reports stripe now (ev_carried event) w)
    as (result & w' & Hrun & _).
  rewrite Hrun. exists result. now split.
Qed.

(** X5. A payment intent without the user or plan metadata is
    acknowledged as processed, while a checkout session without them is
    reported as failed; neither changes anything nor issues a remote
    call. *)
Theorem missing_metadata_payment_vs_checkout (stripe : Stripe) (now : Z)
    (paymentIntent : PaymentIntent) (session : CheckoutSession) (w : World)
    (Hintent :
       truthy (md_get_opt "user_id" (pin_metadata paymentIntent)) = false \/
       truthy (md_get_opt "plan_type" (pin_metadata paymentIntent)) = false)
    (Hsession :
       truthy (md_get_opt "user_id" (cs_metadata session)) = false \/
       truthy (md_get_opt "plan_type" (cs_metadata session)) = false) :
  handlePaymentSucceeded handle_subscription_webhook addMonths addYears addDays
    now paymentIntent w =
  (inr (result_skipped "payment_succeeded_no_metadata"), w) /\
  handleCheckoutCompleted handle_subscription_webhook addMonths addYears addDays
    stripe now session w =
  (inr (result_failed "checkout_completed"
          (Error "Missing required metadata in checkout session")), w).
Proof.
  unfold handlePaymentSucceeded, handleCheckoutCompleted, try_catch, throw, ret.
  split.
  - destruct Hintent as [H | H]; rewrite H; cbn [negb orb];
      rewrite ?orb_true_r; reflexivity.
  - destruct Hsession as [H | H]; rewrite H; cbn [negb orb];
      rewrite ?orb_true_r; reflexivity.
Qed.

(** The plan types [calculatePeriodForPayment] knows. *)
Lemma calculatePeriodForPayment_invalid (now : Z) (planType : string)
    (Hm : planType <> "monthly") (Hs : planType <> "semiannual")
    (Ha : planType <> "annual") (Ht : planType <> "trial") :
  calculatePeriodForPayment addMonths addYears addDays now planType =
  inl (Error ("Invalid plan type: " ++ planType)%string).
Proof.
  unfold calculatePeriodForPayment.
  apply String.eqb_neq in Hm, Hs, Ha, Ht. now rewrite Hm, Hs, Ha, Ht.
Qed.

(** X6. A one-time payment whose plan type is none of monthly,
    semiannual, annual and trial is reported as failed with the message
    "Invalid plan type: <plan>", and nothing is written; the same holds
    for a checkout session that is not in subscription mode or names no
    subscription. *)
Theorem one_time_payment_invalid_plan (stripe : Stripe) (now : Z)
    (paymentIntent : PaymentIntent) (session : CheckoutSession)
    (userId planType : string) (w : World)
    (Huser : userId <> "")
    (Hplan : planType <> "")
    (Hm : planType <> "monthly") (Hs : planType <> "semiannual")
    (Ha : planType <> "annual") (Ht : planType <> "trial")
    (Hiu : md_get_opt "user_id" (pin_metadata paymentIntent) = Some userId)
    (Hip : md_get_opt "plan_type" (pin_metadata paymentIntent) = Some planType)
    (Hsu : md_get_opt "user_id" (cs_metadata session) = Some userId)
    (Hsp : md_get_opt "plan_type" (cs_metadata session) = Some planType)
    (Hmode :
       cs_mode session <> Some "subscription" \/
       truthy (cs_subscription session) = false) :
  let failed action :=
    result_failed action (Error ("Invalid plan type: " ++ planType)%string) in
  handlePaymentSucceeded handle_subscription_webhook addMonths addYears addDays
    now paymentIntent w = (inr (failed "payment_succeeded"), w) /\
  handleCheckoutCompleted handle_subscription_webhook addMonths addYears addDays
    stripe now session w = (inr (failed "checkout_completed"), w).
Proof.
  intros failed. subst failed.
  pose proof (truthy_Some userId Huser) as Tu.
  pose proof (truthy_Some planType Hplan) as Tp.
  unfold handlePaymentSucceeded, handleCheckoutCompleted.
  rewrite Hiu, Hip, Hsu, Hsp, Tu, Tp. cbn [negb orb nullish_def].
  assert (Hpath :
            (match cs_mode session with
             | Some m => m === "subscription"
             | None => false
             end && truthy (cs_subscription session)) = false).
  { destruct Hmode as [H | H]; [|rewrite H; apply andb_false_r].
    destruct (cs_mode session) as [m|]; [|reflexivity].
    destruct (m === "subscription") eqn:E; [|reflexivity].
    apply String.eqb_eq in E. subst m. now contradiction H. }
  rewrite Hpath.
  unfold try_catch, bind, lift, ret.
  rewrite (calculatePeriodForPayment_invalid now planType Hm Hs Ha Ht).
  now split.
Qed.

(** The owner [persistInvoiceToDatabase] resolves for an invoice: the user
    of the first local row of the invoice's customer. *)
Lemma persist_orphan (now : Z) (invoice : Invoice) (w : World)
    (Horphan :
       truthy (invoice_customer_id (inv_customer invoice)) = false \/
       first_by_customer
         (nullish_def (invoice_customer_id (inv_customer invoice)) "")
         (subscriptions w) = None) :
  persistInvoiceToDatabase now invoice w =
  (inl (Error ("CRITICAL: Could not find user_id for Customer: " ++
               nullish_def (invoice_customer_id (inv_customer invoice))
                 "undefined")%string), w).
Proof.
  unfold persistInvoiceToDatabase, bind, get_subscriptions, get_restaurants,
    throw.
  destruct Horphan as [H | H]; rewrite H; [reflexivity|].
  now destruct (truthy _).
Qed.

(** X7. An invoice whose customer has no local subscription row is
    reported as failed by both invoice branches, before any remote call:
    no invoice row is written and nothing else changes. *)
Theorem orphaned_invoice_is_rejected (stripe : Stripe) (now : Z)
    (invoice : Invoice) (w : World)
    (Horphan :
       truthy (invoice_customer_id (inv_customer invoice)) = false \/
       first_by_customer
         (nullish_def (invoice_customer_id (inv_customer invoice)) "")
         (subscriptions w) = None) :
  let e :=
    Error ("CRITICAL: Could not find user_id for Customer: " ++
           nullish_def (invoice_customer_id (inv_customer invoice))
             "undefined")%string in
  handleInvoiceEvent handle_subscription_webhook stripe now invoice w =
  (inr (result_failed "invoice_processing_failed" e), w) /\
  handleInvoicePaymentFailed handle_subscription_webhook stripe now invoice w =
  (inr (result_failed "invoice_payment_failed" e), w).
Proof.
  intros e. subst e.
  unfold handleInvoiceEvent, handleInvoicePaymentFailed, try_catch, bind.
  rewrite (persist_orphan now invoice w Horphan). now split.
Qed.

(** What [persistInvoiceToDatabase] does for an invoice whose customer has
    a local row with a user. *)
Lemma persist_known (now : Z) (invoice : Invoice) (cid : string)
    (row : SubscriptionRow) (w : World)
    (Hcid : invoice_customer_id (inv_customer invoice) = Some cid)
    (Hcid' : cid <> "")
    (Hrow : first_by_customer cid (subscriptions w) = Some row)
    (Huser : user_id row <> "") :
  persistInvoiceToDatabase now invoice w =
  match invoiceRow_dates invoice with
  | inr _ =>
      (inr tt,
       {| subscriptions := subscriptions w;
          invoices :=
            upsert (invoiceRow now invoice (user_id row)
                      (js_or (Some (id row)) None)
                      (restaurant_name_for (Some (user_id row)) (restaurants w)))
              (invoices w);
          restaurants := restaurants w;
          calls := calls w |})
  | inl e => (inl e, w)
  end.
Proof.
  unfold persistInvoiceToDatabase, bind, lift, get_subscriptions,
    get_restaurants, get_invoices, put_invoices.
  rewrite Hcid, (truthy_Some cid Hcid'). cbn [nullish_def]. rewrite Hrow.
  rewrite (js_or_Some (user_id row) None Huser).
  destruct (invoiceRow_dates invoice) as [e | []]; reflexivity.
Qed.

(** X8. The invoice is stored before its subscription is looked up: when
    the customer is known and the lookup of the invoice's subscription
    fails, the event is reported as failed, the invoice row is in the
    table all the same, and the [subscriptions] table is untouched.  (When
    one of the invoice's timestamps is beyond the range of [Date] the
    persister throws before it stores: the event is reported as failed
    with that error, and nothing changes.) *)
Theorem invoice_stored_before_subscription_lookup (stripe : Stripe) (now : Z)
    (invoice : Invoice) (cid : string) (row : SubscriptionRow) (e : Exn)
    (w : World)
    (Hcid : invoice_customer_id (inv_customer invoice) = Some cid)
    (Hcid' : cid <> "")
    (Hrow : first_by_customer cid (subscriptions w) = Some row)
    (Huser : user_id row <> "")
    (Hsub : truthy (inv_subscription invoice) = true)
    (Hfail :
       subscriptions_retrieve stripe (calls w) (inv_subscription invoice) =
       inl e) :
  let stored :=
    invoiceRow now invoice (user_id row) (js_or (Some (id row)) None)
      (restaurant_name_for (Some (user_id row)) (restaurants w)) in
  let '(r, w') :=
    handleInvoiceEvent handle_subscription_webhook stripe now invoice w in
  match invoiceRow_dates invoice with
  | inr _ =>
      r = inr (result_failed "invoice_processing_failed" e) /\
      In stored (invoices w') /\
      subscriptions w' = subscriptions w
  | inl d =>
      r = inr (result_failed "invoice_processing_failed" d) /\ w' = w
  end.
Proof.
  intros stored. subst stored.
  unfold handleInvoiceEvent, try_catch, bind.
  rewrite (persist_known now invoice cid row w Hcid Hcid' Hrow Huser).
  destruct (invoiceRow_dates invoice) as [d | []]; [now split |].
  rewrite Hsub. cbn [negb]. unfold remote. cbn [calls]. rewrite Hfail.
  cbn. split; [reflexivity|]. split; [apply upsert_In | reflexivity].
Qed.

(** X9. An invoice that belongs to no subscription is only stored: both
    invoice branches report success, write the invoice row, leave the
    [subscriptions] table alone and issue no remote call.  (When one of
    the invoice's timestamps is beyond the range of [Date] the persister
    throws before it stores: both branches report failure with that error,
    and nothing changes.) *)
Theorem invoice_without_subscription_is_only_stored (stripe : Stripe) (now : Z)
    (invoice : Invoice) (cid : string) (row : SubscriptionRow) (w : World)
    (Hcid : invoice_customer_id (inv_customer invoice) = Some cid)
    (Hcid' : cid <> "")
    (Hrow : first_by_customer cid (subscriptions w) = Some row)
    (Huser : user_id row <> "")
    (Hsub : truthy (inv_subscription invoice) = false) :
  let w' :=
    {| subscriptions := subscriptions w;
       invoices :=
         upsert (invoiceRow now invoice (user_id row)
                   (js_or (Some (id row)) None)
                   (restaurant_name_for (Some (user_id row)) (restaurants w)))
           (invoices w);
       restaurants := restaurants w;
       calls := calls w |} in
  match invoiceRow_dates invoice with
  | inr _ =>
      handleInvoiceEvent handle_subscription_webhook stripe now invoice w =
      (inr (result_skipped "invoice_persisted_no_subscription"), w') /\
      handleInvoicePaymentFailed handle_subscription_webhook stripe now invoice w =
      (inr (result_skipped "invoice_payment_failed_no_subscription"), w')
  | inl d =>
      handleInvoiceEvent handle_subscription_webhook stripe now invoice w =
      (inr (result_failed "invoice_processing_failed" d), w) /\
      handleInvoicePaymentFailed handle_subscription_webhook stripe now invoice w =
      (inr (result_failed "invoice_payment_failed" d), w)
  end.
Proof.
  intros w'. subst w'.
  unfold handleInvoiceEvent, handleInvoicePaymentFailed, try_catch, bind.
  rewrite (persist_known now invoice cid row w Hcid Hcid' Hrow Huser).
  destruct (invoiceRow_dates invoice) as [d | []]; [now split |].
  rewrite Hsub. cbn [negb]. now split.
Qed.

(** X10. A processed invoice event, whose dates can all be spelled (the
    timestamps of the invoice that the persister and the cross-reference
    log convert, and the period start and end of the retrieved
    subscription, are within the range of [Date]), stores the invoice,
    retrieves the invoice's subscription once and hands the database
    function the period of that subscription, with status active when the
    invoice is paid (whatever the status of the subscription), past_due
    when it is open, and otherwise the subscription's own status, not
    mapped. *)
Theorem invoice_event_processed (stripe : Stripe) (now : Z)
    (invoice : Invoice) (cid userId : string) (row : SubscriptionRow)
    (subscription : Subscription) (rows' : list SubscriptionRow) (w : World)
    (Hcid : invoice_customer_id (inv_customer invoice) = Some cid)
    (Hcid' : cid <> "")
    (Hrow : first_by_customer cid (subscriptions w) = Some row)
    (Huser : user_id row <> "")
    (Hsub : truthy (inv_subscription invoice) = true)
    (Hfound :
       subscriptions_retrieve stripe (calls w) (inv_subscription invoice) =
       inr subscription)
    (Hmeta : md_get "user_id" (sub_metadata subscription) = Some userId)
    (Hmeta' : userId <> "")
    (Hdates : invoiceRow_dates invoice = inr tt)
    (Hlog : cross_reference_log invoice = inr tt)
    (Hstart : Date_valid (sub_current_period_start subscription * 1000) = true)
    (Hend : Date_valid (sub_current_period_end subscription * 1000) = true)
    (Hdb :
       handle_subscription_webhook
         {| p_user_id := userId;
            p_plan_type := metadata_plan_type subscription;
            p_status :=
              match inv_status invoice with
              | Some "paid" => "active"
              | Some "open" => "past_due"
              | _ => sub_status subscription
              end;
            p_stripe_subscription_id := Some (sub_id subscription);
            p_stripe_customer_id := sub_customer subscription;
            p_period_start :=
              iso_of_seconds (sub_current_period_start subscription);
            p_period_end :=
              iso_of_seconds (sub_current_period_end subscription) |}
         (subscriptions w) = inr rows') :
  calculatePeriodFromStripe subscription (metadata_plan_type subscription) =
  inr (stripe_period subscription (metadata_plan_type subscription)) /\
  handleInvoiceEvent handle_subscription_webhook stripe now invoice w =
  (inr (result_done "invoice_processed" userId
          (metadata_plan_type subscription)
          (stripe_period subscription (metadata_plan_type subscription))),
   {| subscriptions := rows';
      invoices :=
        upsert (invoiceRow now invoice (user_id row)
                  (js_or (Some (id row)) None)
                  (restaurant_name_for (Some (user_id row)) (restaurants w)))
          (invoices w);
      restaurants := restaurants w;
      calls :=
        calls w ++ [(SubscriptionsRetrieve (inv_subscription invoice), None)] |}).
Proof.
  pose proof (calculatePeriodFromStripe_valid subscription
                (metadata_plan_type subscription) Hstart Hend) as Hperiod.
  split; [exact Hperiod |].
  unfold handleInvoiceEvent, try_catch, bind.
  rewrite (persist_known now invoice cid row w Hcid Hcid' Hrow Huser), Hdates.
  rewrite Hsub. cbn [negb]. unfold remote. cbn [calls]. rewrite Hfound.
  rewrite Hmeta, (truthy_Some userId Hmeta'). cbn [negb nullish_def outcome].
  unfold lift. rewrite Hperiod, Hlog.
  unfold rpc, bind, get_subscriptions, put_subscriptions.
  cbn [subscriptions invoices restaurants calls fst snd].
  assert (Hstatus :
            invoice_event_status invoice subscription =
            match inv_status invoice with
            | Some "paid" => "active"
            | Some "open" => "past_due"
            | _ => sub_status subscription
            end).
  { unfold invoice_event_status.
    destruct (inv_status invoice) as [s|]; [|reflexivity].
    destruct (s === "paid") eqn:E1.
    - apply String.eqb_eq in E1. now subst s.
    - destruct (s === "open") eqn:E2.
      + apply String.eqb_eq in E2. now subst s.
      + apply String.eqb_neq in E1, E2.
        repeat match goal with
               | |- context [match ?x with _ => _ end] =>
                   destruct x; try reflexivity; try congruence
               end. }
  unfold invoice_webhook_args. rewrite Hstatus.
  change (start (stripe_period subscription
                   (metadata_plan_type subscription)))
    with (iso_of_seconds (sub_current_period_start subscription)).
  change (end_ (stripe_period subscription
                  (metadata_plan_type subscription)))
    with (iso_of_seconds (sub_current_period_end subscription)).
  rewrite Hdb. reflexivity.
Qed.

End WebhookProperties.

Lemma webhook_non_200_keeps_subscriptions_witness :
  let stripe := stripe_without_subscriptions in
  let w := world_of [local_row "monthly" "active" JAN_2025 FEB_2025] in
  let run :=
    stripe_webhook db_stamps calendar_months calendar_years calendar_days
      (verifier (InvoicePaymentSucceeded (subscription_invoice "paid")))
      stripe 0 (Some "sig_ok") (Some "whsec_1") "{}" w in
  response_status (fst run) <> 200 /\ subscriptions (snd run) = subscriptions w.
Proof.
  cbv zeta. split; [vm_compute; discriminate|].
  apply webhook_non_200_keeps_subscriptions. vm_compute; discriminate.
Defined.

Lemma webhook_unverified_has_no_effect_witness :
  let w := world_of [local_row "monthly" "active" JAN_2025 FEB_2025] in
  let event := CustomerSubscriptionDeleted
                 (remote_sub "sub_old" "canceled" "monthly" JAN_2025 FEB_2025) in
  let run :=
    stripe_webhook db_stamps calendar_months calendar_years calendar_days
      (verifier event) stripe_without_subscriptions 0 (Some "sig_forged")
      (Some "whsec_1") "{}" w in
  (exists e, verifier event "{}" "sig_forged" "whsec_1" = inl e) /\
  snd run = w /\ response_status (fst run) = 400.
Proof.
  cbv zeta. split; [eexists; reflexivity|].
  apply (webhook_unverified_has_no_effect db_stamps calendar_months
           calendar_years calendar_days
           (verifier (CustomerSubscriptionDeleted
                        (remote_sub "sub_old" "canceled" "monthly" JAN_2025
                           FEB_2025)))
           stripe_without_subscriptions 0 (Some "sig_forged") (Some "whsec_1")
           "{}").
  right; right. eexists; reflexivity.
Defined.

Lemma webhook_verified_event_is_reported_witness :
  let w := world_of [local_row "monthly" "active" JAN_2025 FEB_2025] in
  let event := CustomerSubscriptionDeleted
                 (remote_sub "sub_old" "canceled" "monthly" JAN_2025 FEB_2025) in
  verifier event "{}" "sig_ok" "whsec_1" =
  inr {| ev_created := JAN_2025; ev_carried := event |} /\
  exists result,
    fst (stripe_webhook db_stamps calendar_months calendar_years calendar_days
           (verifier event) stripe_without_subscriptions 0 (Some "sig_ok")
           (Some "whsec_1") "{}" w) =
    EventResponse (if pr_success result then 200 else 400) (event_type event)
      result 0 /\
    fst (dispatch db_stamps calendar_months calendar_years calendar_days
           stripe_without_subscriptions 0 event w) = inr result.
Proof.
  cbv zeta. split; [reflexivity|].
  exact (webhook_verified_event_is_reported db_stamps calendar_months
           calendar_years calendar_days
           (verifier (CustomerSubscriptionDeleted
                        (remote_sub "sub_old" "canceled" "monthly" JAN_2025
                           FEB_2025)))
           stripe_without_subscriptions 0 (Some "sig_ok") (Some "whsec_1") "{}"
           {| ev_created := JAN_2025;
              ev_carried :=
                CustomerSubscriptionDeleted
                  (remote_sub "sub_old" "canceled" "monthly" JAN_2025 FEB_2025) |}
           (world_of [local_row "monthly" "active" JAN_2025 FEB_2025])
           eq_refl eq_refl eq_refl).
Defined.

Lemma missing_metadata_payment_vs_checkout_witness :
  let w := world_of [local_row "monthly" "active" JAN_2025 FEB_2025] in
  truthy (md_get_opt "user_id" (pin_metadata intent_without_metadata)) = false /\
  truthy (md_get_opt "user_id" (cs_metadata session_without_metadata)) = false /\
  handlePaymentSucceeded db_stamps calendar_months calendar_years calendar_days
    0 intent_without_metadata w =
  (inr (result_skipped "payment_succeeded_no_metadata"), w) /\
  handleCheckoutCompleted db_stamps calendar_months calendar_years calendar_days
    stripe_without_subscriptions 0 session_without_metadata w =
  (inr (result_failed "checkout_completed"
          (Error "Missing required metadata in checkout session")), w).
Proof.
  cbv zeta. split; [reflexivity|]. split; [reflexivity|].
  apply missing_metadata_payment_vs_checkout; left; reflexivity.
Defined.

Lemma one_time_payment_invalid_plan_witness :
  let w := world_of [local_row "monthly" "active" JAN_2025 FEB_2025] in
  let failed action :=
    result_failed action (Error "Invalid plan type: weekly") in
  md_get_opt "plan_type" (pin_metadata (intent_of_plan "weekly")) = Some "weekly" /\
  md_get_opt "plan_type" (cs_metadata (session_of_plan "weekly")) = Some "weekly" /\
  handlePaymentSucceeded db_stamps calendar_months calendar_years calendar_days
    0 (intent_of_plan "weekly") w = (inr (failed "payment_succeeded"), w) /\
  handleCheckoutCompleted db_stamps calendar_months calendar_years calendar_days
    stripe_without_subscriptions 0 (session_of_plan "weekly") w =
  (inr (failed "checkout_completed"), w).
Proof.
  cbv zeta. split; [reflexivity|]. split; [reflexivity|].
  apply (one_time_payment_invalid_plan db_stamps calendar_months calendar_years
           calendar_days stripe_without_subscriptions 0 (intent_of_plan "weekly")
           (session_of_plan "weekly") "user_1" "weekly");
    try discriminate; try reflexivity.
  left. discriminate.
Defined.

Lemma orphaned_invoice_is_rejected_witness :
  let w := world_of [local_row "monthly" "active" JAN_2025 FEB_2025] in
  let invoice := fixture_invoice "in_9" (Cust_id "cus_9") (Some 2999) PI_none in
  let e := Error "CRITICAL: Could not find user_id for Customer: cus_9" in
  first_by_customer "cus_9" (subscriptions w) = None /\
  handleInvoiceEvent db_stamps stripe_without_subscriptions 0 invoice w =
  (inr (result_failed "invoice_processing_failed" e), w) /\
  handleInvoicePaymentFailed db_stamps stripe_without_subscriptions 0 invoice w =
  (inr (result_failed "invoice_payment_failed" e), w).
Proof.
  cbv zeta. split; [reflexivity|].
  apply (orphaned_invoice_is_rejected db_stamps stripe_without_subscriptions 0
           (fixture_invoice "in_9" (Cust_id "cus_9") (Some 2999) PI_none)).
  right. reflexivity.
Defined.

Lemma invoice_stored_before_subscription_lookup_witness :
  let row := local_row "monthly" "active" JAN_2025 FEB_2025 in
  let w := world_of [row] in
  let invoice := subscription_invoice "paid" in
  let stored :=
    invoiceRow 0 invoice "user_1" (Some "row_1") "Restaurant" in
  first_by_customer "cus_1" (subscriptions w) = Some row /\
  subscriptions_retrieve stripe_without_subscriptions (calls w)
    (inv_subscription invoice) = inl (Error "No such subscription") /\
  let '(r, w') :=
    handleInvoiceEvent db_stamps stripe_without_subscriptions 0 invoice w in
  r = inr (result_failed "invoice_processing_failed"
             (Error "No such subscription")) /\
  In stored (invoices w') /\
  subscriptions w' = subscriptions w.
Proof.
  cbv zeta. split; [reflexivity|]. split; [reflexivity|].
  exact (invoice_stored_before_subscription_lookup db_stamps
           stripe_without_subscriptions 0 (subscription_invoice "paid") "cus_1"
           (local_row "monthly" "active" JAN_2025 FEB_2025)
           (Error "No such subscription")
           (world_of [local_row "monthly" "active" JAN_2025 FEB_2025])
           eq_refl ltac:(discriminate) eq_refl ltac:(discriminate)
           eq_refl eq_refl).
Defined.

Lemma invoice_without_subscription_is_only_stored_witness :
  let row := local_row "monthly" "active" JAN_2025 FEB_2025 in
  let w := world_of [row] in
  let w' :=
    {| subscriptions := [row];
       invoices := [invoiceRow 0 invoice_2999 "user_1" (Some "row_1") "Restaurant"];
       restaurants := [];
       calls := [] |} in
  first_by_customer "cus_1" (subscriptions w) = Some row /\
  truthy (inv_subscription invoice_2999) = false /\
  handleInvoiceEvent db_stamps stripe_without_subscriptions 0 invoice_2999 w =
  (inr (result_skipped "invoice_persisted_no_subscription"), w') /\
  handleInvoicePaymentFailed db_stamps stripe_without_subscriptions 0
    invoice_2999 w =
  (inr (result_skipped "invoice_payment_failed_no_subscription"), w').
Proof.
  cbv zeta. split; [reflexivity|]. split; [reflexivity|].
  exact (invoice_without_subscription_is_only_stored db_stamps
           stripe_without_subscriptions 0 invoice_2999 "cus_1"
           (local_row "monthly" "active" JAN_2025 FEB_2025)
           (world_of [local_row "monthly" "active" JAN_2025 FEB_2025])
           eq_refl ltac:(discriminate) eq_refl ltac:(discriminate) eq_refl).
Defined.

Lemma invoice_event_processed_witness :
  let row := local_row "monthly" "active" JAN_2025 FEB_2025 in
  let w := world_of [row] in
  let canceled := remote_sub "sub_old" "canceled" "monthly" FEB_2025 MAR_2025 in
  let stripe :=
    stripe_stub canceled canceled (subscription_invoice "paid") None in
  let invoice := subscription_invoice "paid" in
  subscriptions_retrieve stripe (calls w) (inv_subscription invoice) =
  inr canceled /\
  handleInvoiceEvent db_stamps stripe 0 invoice w =
  (inr (result_done "invoice_processed" "user_1" "monthly"
          (stripe_period canceled "monthly")),
   {| subscriptions :=
        [local_row "monthly" "active" (iso_of_seconds FEB_2025)
           (iso_of_seconds MAR_2025)];
      invoices := [invoiceRow 0 invoice "user_1" (Some "row_1") "Restaurant"];
      restaurants := [];
      calls := [(SubscriptionsRetrieve (Some "sub_old"), None)] |}).
Proof.
  cbv zeta. split; [reflexivity|].
  apply (invoice_event_processed db_stamps
           (stripe_stub
              (remote_sub "sub_old" "canceled" "monthly" FEB_2025 MAR_2025)
              (remote_sub "sub_old" "canceled" "monthly" FEB_2025 MAR_2025)
              (subscription_invoice "paid") None)
           0 (subscription_invoice "paid") "cus_1" "user_1"
           (local_row "monthly" "active" JAN_2025 FEB_2025)
           (remote_sub "sub_old" "canceled" "monthly" FEB_2025 MAR_2025));
    try discriminate; reflexivity.
Defined.

(** ** Writes of the user-initiated handlers *)

Lemma reads_ret {A : Type} (a : A) : reads (ret a).
Proof. intros w. reflexivity. Qed.

Lemma reads_throw {A : Type} (msg : string) : reads (@throw A msg).
Proof. intros w. reflexivity. Qed.

Lemma reads_rethrow {A : Type} (e : Exn) : reads (@rethrow A e).
Proof. intros w. reflexivity. Qed.

Lemma reads_remote {A : Type} (c : Call) (answer : Log -> Exn + A) :
  reads (remote c answer).
Proof. intros w. reflexivity. Qed.

Lemma reads_get_subscriptions : reads get_subscriptions.
Proof. intros w. reflexivity. Qed.

Lemma reads_bind {A B : Type} (m : M A) (k : A -> M B) :
  reads m -> (forall a, reads (k a)) -> reads (bind m k).
Proof.
  intros Hm Hk w. unfold bind. specialize (Hm w).
  destruct (m w) as [[e | a] w1]; cbn [snd] in *; [exact Hm|].
  rewrite Hk. exact Hm.
Qed.

Lemma reads_try_catch {A : Type} (m : M A) (h : Exn -> M A) :
  reads m -> (forall e, reads (h e)) -> reads (try_catch m h).
Proof.
  intros Hm Hh w. unfold try_catch. specialize (Hm w).
  destruct (m w) as [[e | a] w1]; cbn [snd] in *; [|exact Hm].
  rewrite Hh. exact Hm.
Qed.

Lemma reads_require (v : option string) (msg : string) : reads (require v msg).
Proof.
  unfold require. destruct v as [s|]; [destruct (s !== "")|];
    auto using reads_ret, reads_throw.
Qed.

Lemma reads_select_by_user (uid : string) : reads (select_by_user uid).
Proof. intros w. reflexivity. Qed.

Lemma reads_select_by_id_and_user (rid : option string) (uid : string) :
  reads (select_by_id_and_user rid uid).
Proof. intros w. reflexivity. Qed.

Lemma reads_attach_payment_method (stripe : Stripe) (pm : option string)
    (cus : string) : reads (attach_payment_method stripe pm cus).
Proof.
  unfold attach_payment_method, when.
  destruct pm as [pm|]; [destruct (pm !== "")|]; try apply reads_ret.
  apply reads_try_catch.
  - apply reads_bind; [apply reads_remote | intros; apply reads_remote].
  - intros e. destruct (includes _ _); [apply reads_ret | apply reads_rethrow].
Qed.

Lemma reads_resolve_fingerprint (stripe : Stripe) (pm : option string) :
  reads (resolve_fingerprint stripe pm).
Proof.
  unfold resolve_fingerprint.
  destruct pm as [pm|]; [destruct (pm !== "")|]; try apply reads_ret.
  apply reads_try_catch; [|intros; apply reads_ret].
  apply reads_bind; [apply reads_remote | intros; apply reads_ret].
Qed.

Lemma reads_trial_fingerprint_guard (t : bool) (fp : option string)
    (uid : string) : reads (trial_fingerprint_guard t fp uid).
Proof.
  unfold trial_fingerprint_guard.
  destruct (t && truthy fp); [|apply reads_ret].
  apply reads_bind; [apply reads_get_subscriptions|].
  intros rows. destruct (has_duplicate_fingerprint _ _ _);
    [apply reads_throw | apply reads_ret].
Qed.

Lemma once_reads {A : Type} (ins : bool) (rows : list SubscriptionRow)
    (u : string) (m : M A) : reads m -> once ins rows u m.
Proof. intros Hm w Hw. rewrite Hm, Hw. constructor. Qed.

Lemma once_bind_reads {A B : Type} (ins : bool) (rows : list SubscriptionRow)
    (u : string) (m : M A) (k : A -> M B) :
  reads m -> (forall a, yields rows m a -> once ins rows u (k a)) ->
  once ins rows u (bind m k).
Proof.
  intros Hm Hk w Hw. unfold bind.
  pose proof (Hm w) as Hr.
  destruct (m w) as [[e | a] w1] eqn:Hrun; cbn [snd] in *.
  - rewrite Hr, Hw. constructor.
  - apply Hk; [|congruence]. exists w. rewrite Hrun. now split.
Qed.

Lemma once_bind_then_reads {A B : Type} (ins : bool)
    (rows : list SubscriptionRow) (u : string) (m : M A) (k : A -> M B) :
  once ins rows u m -> (forall a, reads (k a)) -> once ins rows u (bind m k).
Proof.
  intros Hm Hk w Hw. unfold bind. specialize (Hm w Hw).
  destruct (m w) as [[e | a] w1]; cbn [snd] in *; [exact Hm|].
  now rewrite Hk.
Qed.

Lemma once_update (ins : bool) (rows : list SubscriptionRow) (u : string)
    (c : SubscriptionRow) (p : RowPatch) :
  In c rows -> user_id c = u -> once ins rows u (update_by_id (Some (id c)) p).
Proof.
  intros Hin Hu w Hw. unfold update_by_id, bind, get_subscriptions,
    put_subscriptions. cbn. rewrite Hw. now apply write_update.
Qed.

Lemma once_insert (rows : list SubscriptionRow) (u : string)
    (r : SubscriptionRow) :
  user_id r = u ->
  exactly_one (filter (fun r => user_id r === u) rows) = None ->
  once true rows u (insert_row r).
Proof.
  intros Hu Hnone w Hw. unfold insert_row, bind, get_subscriptions,
    put_subscriptions. cbn. rewrite Hw. now apply write_insert.
Qed.

Lemma yields_select_by_user (rows : list SubscriptionRow) (u : string)
    (found : option SubscriptionRow) :
  yields rows (select_by_user u) found ->
  found = exactly_one (filter (fun r => user_id r === u) rows).
Proof. intros (w & Hw & Hrun). cbn in Hrun. congruence. Qed.

Lemma yields_select_by_id_and_user (rows : list SubscriptionRow)
    (rid : option string) (u : string) (c : SubscriptionRow) :
  yields rows (select_by_id_and_user rid u) (Some c) ->
  In c rows /\ user_id c = u /\ rid = Some (id c).
Proof.
  intros (w & Hw & Hrun). cbn in Hrun. inversion Hrun as [Hsel]. clear Hrun.
  apply exactly_one_In, filter_In in Hsel. rewrite Hw in Hsel.
  destruct Hsel as [Hin Htest]. destruct rid as [i|]; [|discriminate].
  apply andb_true_iff in Htest. destruct Htest as [Hi Hu].
  apply String.eqb_eq in Hi, Hu. subst. auto.
Qed.

Lemma selected_row_is_own (rows : list SubscriptionRow) (u : string)
    (c : SubscriptionRow) :
  exactly_one (filter (fun r => user_id r === u) rows) = Some c ->
  In c rows /\ user_id c = u.
Proof.
  intros Hsel. apply exactly_one_In, filter_In in Hsel.
  destruct Hsel as [Hin Hu]. apply String.eqb_eq in Hu. auto.
Qed.

Ltac reads_walk :=
  lazymatch goal with
  | |- reads (bind _ _) => apply reads_bind; [reads_walk | intros ?; reads_walk]
  | |- reads (try_catch _ _) =>
      apply reads_try_catch; [reads_walk | intros ?; reads_walk]
  | |- reads (match ?x with _ => _ end) => destruct x; reads_walk
  | |- reads _ =>
      first [ apply reads_ret | apply reads_throw | apply reads_rethrow
            | apply reads_remote | apply reads_require
            | apply reads_select_by_user | apply reads_select_by_id_and_user
            | apply reads_attach_payment_method
            | apply reads_resolve_fingerprint
            | apply reads_trial_fingerprint_guard
            | apply reads_get_subscriptions ]
  end.

Ltac once_leaf :=
  lazymatch goal with
  | |- once _ _ _ (update_by_id (Some (id ?c)) _) =>
      lazymatch goal with
      | H : yields _ (select_by_user _) (Some c) |- _ =>
          apply yields_select_by_user in H; symmetry in H;
          apply selected_row_is_own in H; destruct H; now apply once_update
      end
  | |- once _ _ _ (update_by_id ?rid _) =>
      lazymatch goal with
      | H : yields _ (select_by_id_and_user rid _) (Some ?c) |- _ =>
          apply yields_select_by_id_and_user in H;
          destruct H as (? & ? & Hrid); rewrite Hrid; now apply once_update
      end
  | |- once _ _ _ (insert_row _) =>
      lazymatch goal with
      | H : yields _ (select_by_user _) None |- _ =>
          apply yields_select_by_user in H; symmetry in H;
          now apply once_insert
      end
  end.

Ltac once_walk :=
  lazymatch goal with
  | |- once _ _ _ (bind _ _) =>
      first
        [ apply once_bind_reads; [solve [reads_walk] | intros ? ?; once_walk]
        | apply once_bind_then_reads;
          [once_walk | intros ?; solve [reads_walk]] ]
  | |- once _ _ _ (update_by_id _ _) => once_leaf
  | |- once _ _ _ (insert_row _) => once_leaf
  | |- once _ _ _ (match ?x with _ => _ end) =>
      first [ solve [apply once_reads; reads_walk] | destruct x; once_walk ]
  | |- once _ _ _ _ => apply once_reads; solve [reads_walk]
  end.

Lemma create_payment_writes_once rows stripe now new_id (user : User) req :
  once true rows (u_id user) (create_payment_body stripe now new_id (Some user) req).
Proof.
  unfold create_payment_body, create_payment_after_check. cbv zeta. once_walk.
Qed.

Lemma change_plan_writes_once rows stripe now (user : User) req :
  once false rows (u_id user) (change_plan_body stripe now (Some user) req).
Proof. unfold change_plan_body. cbv zeta. once_walk. Qed.

Lemma cancel_subscription_writes_once rows stripe now (user : User) req :
  once false rows (u_id user) (cancel_subscription_body stripe now (Some user) req).
Proof. unfold cancel_subscription_body. cbv zeta. once_walk. Qed.

Lemma reactivate_subscription_writes_once rows stripe now (user : User) req :
  once false rows (u_id user)
    (reactivate_subscription_body stripe now (Some user) req).
Proof. unfold reactivate_subscription_body. cbv zeta. once_walk. Qed.

Lemma reactivate_recreate_canceled_writes_once rows stripe now (user : User)
    req :
  once false rows (u_id user)
    (reactivate_recreate_canceled_body stripe now (Some user) req).
Proof. unfold reactivate_recreate_canceled_body. cbv zeta. once_walk. Qed.

Lemma reactivate_recreate_any_writes_once rows stripe now (user : User) req :
  once false rows (u_id user)
    (reactivate_recreate_any_body stripe now (Some user) req).
Proof. unfold reactivate_recreate_any_body. cbv zeta. once_walk. Qed.

Lemma serve_once (ins : bool) (u : string) (m : M ResponseBody) (w : World) :
  once ins (subscriptions w) u m ->
  write_of ins u (subscriptions w) (subscriptions (snd (serve m w))).
Proof.
  intros Hm. specialize (Hm w eq_refl). unfold serve.
  now destruct (m w) as [[e | b] w'].
Qed.

(** Every handler of the family writes the table at most once, and then
    on behalf of the caller. *)
Lemma invoke_writes_once (stripe : Stripe) (now : Z) (user : User)
    (i : Invocation) (w : World) :
  write_of (may_insert i) (u_id user) (subscriptions w)
    (subscriptions (snd (invoke stripe now (Some user) i w))).
Proof.
  destruct i; cbn [invoke may_insert]; apply serve_once.
  - apply create_payment_writes_once.
  - apply change_plan_writes_once.
  - apply cancel_subscription_writes_once.
  - apply reactivate_subscription_writes_once.
  - apply reactivate_recreate_canceled_writes_once.
  - apply reactivate_recreate_any_writes_once.
Qed.

Lemma row_key_apply_patch (p : RowPatch) (r : SubscriptionRow) :
  row_key (apply_patch p r) = row_key r.
Proof. reflexivity. Qed.

(** X11. No user-initiated handler deletes or reorders rows, or changes
    the id, the owner or the restaurant of a row; only create-payment
    adds a row, at most one per call, and it belongs to the caller. *)
Theorem handlers_keep_row_identity (stripe : Stripe) (now : Z) (user : User)
    (i : Invocation) (w : World) :
  exists added,
    map row_key (subscriptions (snd (invoke stripe now (Some user) i w))) =
    map row_key (subscriptions w) ++ map row_key added /\
    (length added <= 1)%nat /\
    (forall r, In r added -> user_id r = u_id user) /\
    (may_insert i = false -> added = []).
Proof.
  destruct (invoke_writes_once stripe now user i w) as [| c p Hin Hu | r Hi Hu Hn].
  - exists []. rewrite app_nil_r. cbn [length In].
    split; [reflexivity|]. split; [apply Nat.le_0_l|].
    split; [intros r []|reflexivity].
  - exists []. rewrite app_nil_r, map_map. cbn [length In].
    split; [|split; [apply Nat.le_0_l|split; [intros r []|reflexivity]]].
    apply map_ext. intros r. destruct (id r === id c); reflexivity.
  - exists [r]. rewrite map_app. cbn [length In].
    split; [reflexivity|]. split; [apply Nat.le_refl|].
    split; [intros r' [<- | []]; exact Hu|congruence].
Qed.

Lemma filter_map_fixed {A : Type} (P : A -> bool) (f : A -> A) (l : list A) :
  (forall a, In a l -> P (f a) = P a) ->
  (forall a, In a l -> P a = true -> f a = a) ->
  filter P (map f l) = filter P l.
Proof.
  induction l as [| a l IH]; intros HP Hf; [reflexivity|].
  cbn [map filter]. rewrite HP by (left; reflexivity).
  rewrite (IH (fun b Hb => HP b (or_intror Hb))
              (fun b Hb => Hf b (or_intror Hb))).
  destruct (P a) eqn:E; [|reflexivity].
  now rewrite (Hf a (or_introl eq_refl) E).
Qed.

Lemma NoDup_map_id_eq (rows : list SubscriptionRow) (a b : SubscriptionRow) :
  NoDup (map id rows) -> In a rows -> In b rows -> id a = id b -> a = b.
Proof.
  induction rows as [| r rows IH]; intros Hnd Ha Hb Heq; [destruct Ha|].
  cbn [map] in Hnd. inversion Hnd as [| ? ? Hnotin Hnd']. subst.
  destruct Ha as [<- | Ha], Hb as [<- | Hb]; auto.
  - exfalso. apply Hnotin. rewrite Heq. now apply in_map.
  - exfalso. apply Hnotin. rewrite <- Heq. now apply in_map.
Qed.

(** X12. When row ids are unique, an invocation by one user leaves the
    rows of every other user exactly as they were, and adds none for
    them. *)
Theorem handlers_leave_other_users_rows (stripe : Stripe) (now : Z)
    (user : User) (i : Invocation) (w : World)
    (Hunique : NoDup (map id (subscriptions w))) :
  filter (fun r => user_id r !== u_id user)
    (subscriptions (snd (invoke stripe now (Some user) i w))) =
  filter (fun r => user_id r !== u_id user) (subscriptions w).
Proof.
  destruct (invoke_writes_once stripe now user i w) as [| c p Hin Hu | r Hi Hu Hn].
  - reflexivity.
  - apply filter_map_fixed.
    + intros a _. destruct (id a === id c); reflexivity.
    + intros a Ha Hother. destruct (id a === id c) eqn:E; [|reflexivity].
      apply String.eqb_eq in E.
      rewrite (NoDup_map_id_eq _ a c Hunique Ha Hin E) in Hother.
      rewrite Hu, String.eqb_refl in Hother. discriminate.
  - rewrite filter_app. cbn [filter]. rewrite Hu, String.eqb_refl. cbn [negb].
    apply app_nil_r.
Qed.

(** X13. Without an authenticated caller every handler of the family
    answers 400 "Unauthorized", issues no remote call and writes
    nothing. *)
Theorem handlers_refuse_anonymous (stripe : Stripe) (now : Z) (i : Invocation)
    (w : World) :
  invoke stripe now None i w =
  ({| http_status := 400; body := ErrorBody "Unauthorized" |}, w).
Proof. destruct i; reflexivity. Qed.

Lemma exactly_one_filter_none {A : Type} (P : A -> bool) (l : list A) :
  (forall a, In a l -> P a = false) -> exactly_one (filter P l) = None.
Proof.
  intros H. replace (filter P l) with (@nil A); [reflexivity|].
  symmetry. induction l as [| a l IH]; [reflexivity|].
  cbn [filter]. rewrite H by (left; reflexivity).
  apply IH. intros; apply H; now right.
Qed.

(** X14. A cancellation or reactivation that names a row which is not
    the caller's (or names none) is answered 400 "Subscription not
    found"; no remote call is issued and nothing is written, in all four
    handlers. *)
Theorem foreign_row_is_not_found (stripe : Stripe) (now : Z) (user : User)
    (rid : option string) (w : World)
    (Hforeign :
       forall r i, In r (subscriptions w) -> rid = Some i -> id r = i ->
                   user_id r <> u_id user) :
  let not_found :=
    ({| http_status := 400; body := ErrorBody "Subscription not found" |}, w) in
  cancel_subscription stripe now (Some user) {| cr_subscriptionId := rid |} w =
  not_found /\
  forall pm price,
    let req :=
      {| rr_subscriptionId := rid; rr_paymentMethodId := pm;
         rr_priceId := price |} in
    reactivate_subscription stripe now (Some user) req w = not_found /\
    reactivate_recreate_canceled stripe now (Some user) req w = not_found /\
    reactivate_recreate_any stripe now (Some user) req w = not_found.
Proof.
  assert (Hnone :
            exactly_one
              (filter (fun r =>
                         match rid with
                         | Some i => (id r === i) && (user_id r === u_id user)
                         | None => false
                         end) (subscriptions w)) = None).
  { apply exactly_one_filter_none. intros r Hin.
    destruct rid as [i|]; [|reflexivity].
    destruct (id r === i) eqn:E; [|reflexivity].
    apply String.eqb_eq in E.
    apply String.eqb_neq. cbn [andb]. now apply (Hforeign r i). }
  cbv zeta.
  unfold cancel_subscription, reactivate_subscription,
    reactivate_recreate_canceled, reactivate_recreate_any, serve,
    cancel_subscription_body, reactivate_subscription_body,
    reactivate_recreate_canceled_body, reactivate_recreate_any_body,
    select_by_id_and_user, bind, get_subscriptions, ret, throw.
  cbn [cr_subscriptionId rr_subscriptionId].
  rewrite Hnone. auto.
Qed.

(** X15. The reactivation handler and its variant that recreates a
    canceled subscription refuse a row whose stored period has ended,
    before any remote call: the answer is 400 with the "expired" message
    and nothing changes. *)
Theorem expired_row_is_not_reactivated (stripe : Stripe) (now : Z)
    (user : User) (req : ReactivateRequest) (c : SubscriptionRow) (w : World)
    (Hrow :
       exactly_one
         (filter (fun r =>
                    match rr_subscriptionId req with
                    | Some i => (id r === i) && (user_id r === u_id user)
                    | None => false
                    end) (subscriptions w)) = Some c)
    (Hexpired : current_period_end c <= now) :
  let expired :=
    ({| http_status := 400; body := ErrorBody MSG_EXPIRED |}, w) in
  reactivate_subscription stripe now (Some user) req w = expired /\
  reactivate_recreate_canceled stripe now (Some user) req w = expired.
Proof.
  cbv zeta.
  unfold reactivate_subscription, reactivate_recreate_canceled, serve,
    reactivate_subscription_body, reactivate_recreate_canceled_body,
    select_by_id_and_user, bind, get_subscriptions, ret, throw.
  rewrite Hrow. apply Z.leb_le in Hexpired. rewrite Hexpired. auto.
Qed.

Lemma cancel_success (stripe : Stripe) (now : Z) (user : option User)
    (req : CancelRequest) (w : World) :
  http_status (fst (cancel_subscription stripe now user req w)) = 200 ->
  subscriptions (snd (cancel_subscription stripe now user req w)) =
  map (fun r =>
         match cr_subscriptionId req with
         | Some i =>
             if id r === i then
               apply_patch
                 {| set_plan_type := None;
                    set_status := Some "cancelled";
                    set_stripe_subscription_id := None;
                    set_stripe_customer_id := None;
                    set_current_period_start := None;
                    set_current_period_end := None;
                    set_cancel_at_period_end := Some true;
                    set_card_fingerprint := None;
                    set_pending_plan_change := None;
                    set_scheduled_payment_method_id := None;
                    set_updated_at := Some now |} r
             else r
         | None => r
         end) (subscriptions w).
Proof.
  destruct (cancel_subscription stripe now user req w) as [resp w'] eqn:Hrun.
  unfold cancel_subscription, cancel_subscription_body in Hrun.
  exec Hrun; cbn [fst snd http_status subscriptions]; intros H200;
    try discriminate H200; reflexivity.
Qed.

Lemma reactivate_success (stripe : Stripe) (now : Z) (user : option User)
    (req : ReactivateRequest) (w : World) :
  http_status (fst (reactivate_subscription stripe now user req w)) = 200 ->
  subscriptions (snd (reactivate_subscription stripe now user req w)) =
  map (fun r =>
         match rr_subscriptionId req with
         | Some i => if id r === i then apply_patch (resume_patch now) r else r
         | None => r
         end) (subscriptions w).
Proof.
  destruct (reactivate_subscription stripe now user req w) as [resp w'] eqn:Hrun.
  unfold reactivate_subscription, reactivate_subscription_body in Hrun.
  exec Hrun; cbn [fst snd http_status subscriptions]; intros H200;
    try discriminate H200; reflexivity.
Qed.

(** X16. A cancellation followed by a reactivation of the same row, both
    answered 200, leaves the table as a reactivation alone would: status
    active, cancel_at_period_end false, the time of the reactivation as
    updated_at, and every other column as before the cancellation. *)
Theorem cancel_then_reactivate (stripe : Stripe) (now1 now2 : Z)
    (user : option User) (rid pm price : option string) (w : World) :
  let canceled :=
    cancel_subscription stripe now1 user {| cr_subscriptionId := rid |} w in
  let resumed :=
    reactivate_subscription stripe now2 user
      {| rr_subscriptionId := rid; rr_paymentMethodId := pm;
         rr_priceId := price |} (snd canceled) in
  http_status (fst canceled) = 200 ->
  http_status (fst resumed) = 200 ->
  subscriptions (snd resumed) =
  map (fun r =>
         match rid with
         | Some i => if id r === i then apply_patch (resume_patch now2) r else r
         | None => r
         end) (subscriptions w).
Proof.
  cbv zeta. intros H1 H2.
  rewrite (reactivate_success _ _ _ _ _ H2), (cancel_success _ _ _ _ _ H1).
  cbn [cr_subscriptionId rr_subscriptionId]. rewrite map_map.
  apply map_ext. intros r. destruct rid as [i|]; [|reflexivity].
  destruct (id r === i) eqn:E; cbn [apply_patch id]; rewrite E; reflexivity.
Qed.

Lemma handlers_leave_other_users_rows_witness :
  let other :=
    {| id := "row_2"; user_id := "user_2"; restaurant_id := None;
       stripe_customer_id := Some "cus_2";
       stripe_subscription_id := Some "sub_2";
       plan_type := "annual"; status := "active";
       current_period_start := JAN_2025; current_period_end := JAN_2026;
       cancel_at_period_end := false; card_fingerprint := None;
       pending_plan_change := None; scheduled_payment_method_id := None;
       updated_at := 0 |} in
  let w := world_of [local_row "monthly" "active" JAN_2025 FEB_2025; other] in
  let stripe := stripe_stub monthly_sub monthly_sub (empty_invoice "in_1") None in
  let i := CancelSubscription {| cr_subscriptionId := Some "row_1" |} in
  NoDup (map id (subscriptions w)) /\
  filter (fun r => user_id r !== "user_1")
    (subscriptions (snd (invoke stripe 0 (Some user_1) i w))) = [other].
Proof.
  cbv zeta.
  assert (Hunique :
            NoDup ["row_1"; "row_2"]).
  { constructor; [intros [H | []]; discriminate H|].
    constructor; [intros []|constructor]. }
  split; [exact Hunique|].
  exact (handlers_leave_other_users_rows
           (stripe_stub monthly_sub monthly_sub (empty_invoice "in_1") None) 0
           user_1 (CancelSubscription {| cr_subscriptionId := Some "row_1" |})
           (world_of
              [local_row "monthly" "active" JAN_2025 FEB_2025;
               {| id := "row_2"; user_id := "user_2"; restaurant_id := None;
                  stripe_customer_id := Some "cus_2";
                  stripe_subscription_id := Some "sub_2";
                  plan_type := "annual"; status := "active";
                  current_period_start := JAN_2025;
                  current_period_end := JAN_2026;
                  cancel_at_period_end := false; card_fingerprint := None;
                  pending_plan_change := None;
                  scheduled_payment_method_id := None;
                  updated_at := 0 |}]) Hunique).
Defined.

Lemma foreign_row_is_not_found_witness :
  let w := world_of [local_row "monthly" "active" JAN_2025 FEB_2025] in
  let stripe := stripe_stub monthly_sub monthly_sub (empty_invoice "in_1") None in
  let not_found :=
    ({| http_status := 400; body := ErrorBody "Subscription not found" |}, w) in
  user_id (local_row "monthly" "active" JAN_2025 FEB_2025) <> u_id user_2 /\
  cancel_subscription stripe 0 (Some user_2)
    {| cr_subscriptionId := Some "row_1" |} w = not_found /\
  reactivate_recreate_any stripe 0 (Some user_2)
    {| rr_subscriptionId := Some "row_1"; rr_paymentMethodId := Some "pm_1";
       rr_priceId := Some "price_monthly" |} w = not_found.
Proof.
  cbv zeta. split; [discriminate|].
  destruct (foreign_row_is_not_found
              (stripe_stub monthly_sub monthly_sub (empty_invoice "in_1") None)
              0 user_2 (Some "row_1")
              (world_of [local_row "monthly" "active" JAN_2025 FEB_2025]))
    as [Hcancel Hreactivate].
  - intros r i [<- | []] _ _. discriminate.
  - split; [exact Hcancel|].
    apply (Hreactivate (Some "pm_1") (Some "price_monthly")).
Defined.

Lemma expired_row_is_not_reactivated_witness :
  let row := local_row "monthly" "cancelled" JAN_2025 FEB_2025 in
  let w := world_of [row] in
  let stripe := stripe_stub monthly_sub monthly_sub (empty_invoice "in_1") None in
  let expired :=
    ({| http_status := 400; body := ErrorBody MSG_EXPIRED |}, w) in
  current_period_end row <= MAR_2025 /\
  reactivate_subscription stripe MAR_2025 (Some user_1) reactivate_request w =
  expired /\
  reactivate_recreate_canceled stripe MAR_2025 (Some user_1) reactivate_request w
  = expired.
Proof.
  cbv zeta. split; [vm_compute; discriminate|].
  apply (expired_row_is_not_reactivated
           (stripe_stub monthly_sub monthly_sub (empty_invoice "in_1") None)
           MAR_2025 user_1 reactivate_request
           (local_row "monthly" "cancelled" JAN_2025 FEB_2025)
           (world_of [local_row "monthly" "cancelled" JAN_2025 FEB_2025]));
    [reflexivity | vm_compute; discriminate].
Defined.

Lemma cancel_then_reactivate_witness :
  let w := world_of [local_row "monthly" "past_due" JAN_2025 FEB_2025] in
  let stripe := stripe_stub monthly_sub monthly_sub (empty_invoice "in_1") None in
  let canceled :=
    cancel_subscription stripe 10 (Some user_1)
      {| cr_subscriptionId := Some "row_1" |} w in
  let resumed :=
    reactivate_subscription stripe 20 (Some user_1)
      {| rr_subscriptionId := Some "row_1"; rr_paymentMethodId := Some "pm_1";
         rr_priceId := None |} (snd canceled) in
  http_status (fst canceled) = 200 /\
  http_status (fst resumed) = 200 /\
  subscriptions (snd resumed) =
  [apply_patch (resume_patch 20)
     (local_row "monthly" "past_due" JAN_2025 FEB_2025)].
Proof.
  cbv zeta. split; [reflexivity|]. split; [reflexivity|].
  apply (cancel_then_reactivate
           (stripe_stub monthly_sub monthly_sub (empty_invoice "in_1") None)
           10 20 (Some user_1) (Some "row_1") (Some "pm_1") None
           (world_of [local_row "monthly" "past_due" JAN_2025 FEB_2025]));
    reflexivity.
Defined.

(** ** The preview handler against the change-plan handler *)

Section PreviewProperties.

Variable retrieve : option string -> Exn + Subscription.
Variable retrieveUpcoming : InvoiceParams -> Exn + UpcomingInvoice.
Variable subscription_currency : Subscription -> option string.
Variable toLocaleDateString : Z -> string.
Variable toUpperCase : string -> string.



(** X19. For a caller without a single subscription row, or whose row is
    not linked to a remote subscription, the preview answers 200 "This
    will be a new subscription", whereas the change-plan handler answers
    400 and leaves the table as it is. *)
Theorem preview_promises_what_change_plan_refuses (stripe : Stripe) (now : Z)
    (user : User) (req : ChangePlanRequest) (w : World)
    (Hprice : truthy (newPriceId req) = true)
    (Hplan : truthy (newPlanType req) = true)
    (Hrow :
       match exactly_one (filter (fun r => user_id r === u_id user)
                            (subscriptions w)) with
       | Some currentSub => truthy (stripe_subscription_id currentSub) = false
       | None => True
       end) :
  preview_plan_change retrieve retrieveUpcoming subscription_currency
    toLocaleDateString toUpperCase now (Some user) req (subscriptions w) =
  {| preview_status := 200;
     preview_body := PreviewNew "usd" "This will be a new subscription." |} /\
  http_status (fst (change_plan stripe now (Some user) req w)) = 400 /\
  subscriptions (snd (change_plan stripe now (Some user) req w)) =
  subscriptions w.
Proof.
  split.
  - unfold preview_plan_change. rewrite Hprice, Hplan. cbn [negb orb].
    destruct (exactly_one _) as [c|]; [|reflexivity].
    now rewrite Hrow.
  - destruct (change_plan stripe now (Some user) req w) as [resp w'] eqn:Hrun.
    cbn [fst snd].
    unfold change_plan, change_plan_body, serve, select_by_user in Hrun.
    rewrite Hprice, Hplan in Hrun. cbn [negb orb] in Hrun.
    unfold bind at 1 in Hrun. unfold bind at 1 in Hrun.
    unfold get_subscriptions in Hrun. unfold ret at 1 in Hrun.
    cbv beta iota in Hrun.
    revert Hrun Hrow.
    destruct (exactly_one _) as [c|]; intros Hrun Hrow;
      [|unfold throw in Hrun; inversion Hrun; now split].
    unfold bind at 1 in Hrun.
    pose proof (reads_require (stripe_customer_id c)
                  "No Stripe customer found" w) as Hr1.
    destruct (require (stripe_customer_id c) _ w) as [[e | cus] w1];
      cbn [snd] in Hr1; [inversion Hrun; subst; now split|].
    unfold bind at 1 in Hrun.
    pose proof (reads_attach_payment_method stripe (cpr_paymentMethodId req)
                  cus w1) as Hr2.
    destruct (attach_payment_method stripe (cpr_paymentMethodId req) cus w1)
      as [[e | []] w2]; cbn [snd] in Hr2;
      [inversion Hrun; subst; split; [reflexivity | congruence]|].
    unfold bind at 1 in Hrun.
    assert (Hnone :
              forall msg, require (stripe_subscription_id c) msg w2 =
                          (inl (Error msg), w2)).
    { intros msg. unfold require, throw.
      destruct (stripe_subscription_id c) as [s|]; [|reflexivity].
      cbn [truthy] in Hrow. now rewrite Hrow. }
    rewrite Hnone in Hrun. inversion Hrun; subst.
    split; [reflexivity | congruence].
Qed.

End PreviewProperties.


Lemma preview_promises_what_change_plan_refuses_witness :
  let w := world_of [] in
  let req := change_request "monthly" "price_monthly" in
  exactly_one (filter (fun r => user_id r === u_id user_1) (subscriptions w)) =
  None /\
  preview_plan_change (preview_retrieve annual_sub) (preview_upcoming 0)
    no_currency date_stub upper_ascii 0 (Some user_1) req (subscriptions w) =
  {| preview_status := 200;
     preview_body := PreviewNew "usd" "This will be a new subscription." |} /\
  http_status
    (fst (change_plan stripe_monthly_to_annual 0 (Some user_1) req w)) = 400 /\
  subscriptions (snd (change_plan stripe_monthly_to_annual 0 (Some user_1) req w))
  = subscriptions w.
Proof.
  cbv zeta. split; [reflexivity|].
  apply (preview_promises_what_change_plan_refuses (preview_retrieve annual_sub)
           (preview_upcoming 0) no_currency date_stub upper_ascii
           stripe_monthly_to_annual 0 user_1
           (change_request "monthly" "price_monthly") (world_of []));
    reflexivity.
Defined.

(** ** Starter-pack orders *)

Lemma HARDWARE_PRICING_positive (item : HardwareItem) (code : string) (n : Z) :
  HARDWARE_PRICING item code = Some n -> 0 < n.
Proof.
  unfold HARDWARE_PRICING. destruct item;
    repeat match goal with
           | |- context [?a === ?b] => destruct (a === b)
           end;
    intros H; inversion H; reflexivity.
Qed.

Lemma getCents_positive (item : HardwareItem) (currency : string) :
  0 < getCents item currency.
Proof.
  unfold getCents.
  set (code := if currency !== "" then currency else DEFAULT_CURRENCY).
  destruct (HARDWARE_PRICING item code) as [n|] eqn:E.
  - pose proof (HARDWARE_PRICING_positive item code n E) as Hn.
    unfold js_orZ, truthyZ.
    destruct (n =? 0) eqn:Z0; [apply Z.eqb_eq in Z0; lia|]. exact Hn.
  - destruct item; reflexivity.
Qed.

(** X20. The amount sent to the payment provider for a starter-pack
    order is never negative, and it is zero exactly for a first order of a
    user counted as having an active paid subscription that does not
    include the tablet. *)
Theorem stripe_amount_zero_iff_free_first_order
    (isFirst hasPaid includesTablet : bool) (currency : string) :
  0 <= calculateStripeAmount isFirst hasPaid includesTablet currency /\
  (calculateStripeAmount isFirst hasPaid includesTablet currency = 0 <->
   isFirst = true /\ hasPaid = true /\ includesTablet = false).
Proof.
  unfold calculateStripeAmount.
  pose proof (getCents_positive starter_kit currency).
  pose proof (getCents_positive tablet_bundle currency).
  destruct isFirst, hasPaid, includesTablet; cbn [andb];
    (split; [lia|]); split; try lia; intuition (try lia; discriminate).
Qed.

(** X21. A currency that is empty or not one of the ten configured
    codes, and not a name inherited from [Object.prototype], is priced at
    the USD amount, for both items and so for the whole order. *)
Theorem unknown_currency_is_priced_in_usd (currency : string)
    (isFirst hasPaid includesTablet : bool)
    (Hunknown : HARDWARE_PRICING starter_kit currency = None)
    (Hown : inherited currency = false) :
  getCents starter_kit currency = 1500 /\
  getCents tablet_bundle currency = 14900 /\
  calculateStripeAmount isFirst hasPaid includesTablet currency =
  calculateStripeAmount isFirst hasPaid includesTablet "USD".
Proof.
  assert (Htablet : HARDWARE_PRICING tablet_bundle currency = None).
  { revert Hunknown. unfold HARDWARE_PRICING.
    repeat match goal with
           | |- context [?a === ?b] => destruct (a === b); try discriminate
           end.
    reflexivity. }
  assert (Hk : getCents starter_kit currency = 1500).
  { unfold getCents. destruct (currency !== ""); [|reflexivity].
    now rewrite Hunknown. }
  assert (Ht : getCents tablet_bundle currency = 14900).
  { unfold getCents. destruct (currency !== ""); [|reflexivity].
    now rewrite Htablet. }
  unfold calculateStripeAmount. rewrite Hk, Ht. auto.
Qed.

(** X22. [hasActivePaidSubscription] answers false only for a user whose
    single active row is a trial; a user with no active row, or with
    several, counts as having an active paid subscription. *)
Theorem active_paid_subscription_false_iff (rows : list SubscriptionRow)
    (userId : string) :
  hasActivePaidSubscription rows userId = false <->
  exists data,
    exactly_one
      (filter (fun r => (user_id r === userId) && (status r === "active")) rows)
    = Some data /\
    plan_type data = "trial".
Proof.
  unfold hasActivePaidSubscription.
  destruct (exactly_one _) as [data|]; split.
  - intros H. exists data. split; [reflexivity|].
    apply negb_false_iff, String.eqb_eq in H. exact H.
  - intros (d & Hd & Ht). inversion Hd. subst d.
    rewrite Ht. reflexivity.
  - discriminate.
  - intros (d & Hd & _). discriminate.
Qed.

Lemma find_none_of {A : Type} (P : A -> bool) (l : list A) :
  (forall a, In a l -> P a = false) -> find P l = None.
Proof.
  induction l as [| a l IH]; intros H; [reflexivity|].
  cbn [find]. rewrite H by (left; reflexivity).
  apply IH. intros; apply H; now right.
Qed.

(** X23. A user with no active subscription row and no order pays
    nothing for the starter kit: the first order is priced at zero
    without the tablet, and at the price of the tablet alone with it. *)
Theorem first_order_without_subscription_is_free
    (rows : list SubscriptionRow) (orders : list OrderRow) (userId : string)
    (includesTablet : bool) (currency : string)
    (Hrows :
       forall r, In r rows -> user_id r = userId -> status r <> "active")
    (Horders : forall o, In o orders -> o_user_id o <> userId) :
  calculateStripeAmount (isFirstOrder orders userId)
    (hasActivePaidSubscription rows userId) includesTablet currency =
  if includesTablet then getCents tablet_bundle currency else 0.
Proof.
  assert (Hfirst : isFirstOrder orders userId = true).
  { unfold isFirstOrder. rewrite find_none_of; [reflexivity|].
    intros o Ho. apply Horders, String.eqb_neq in Ho. now rewrite Ho. }
  assert (Hpaid : hasActivePaidSubscription rows userId = true).
  { unfold hasActivePaidSubscription.
    rewrite exactly_one_filter_none; [reflexivity|].
    intros r Hr. destruct (user_id r === userId) eqn:E; [|reflexivity].
    apply String.eqb_eq in E. apply (Hrows r Hr), String.eqb_neq in E.
    exact E. }
  unfold calculateStripeAmount. rewrite Hfirst, Hpaid. reflexivity.
Qed.

(** X24. The index of a status in the progress order lies between -1
    and 5.  A status that is not a name inherited from [Object.prototype]
    has a position in the progress order (an index from 0 to 5) exactly
    when it has a label of its own; any other such status has index -1 and
    is shown as it is. *)
Theorem status_index_and_label (status : string)
    (Hown : inherited status = false) :
  -1 <= getStatusIndex status <= 5 /\
  (getStatusIndex status = -1 <-> getStatusLabel status = status).
Proof.
  clear Hown.
  unfold getStatusIndex, getStatusLabel, indexOf.
  rewrite !(String.eqb_sym _ status).
  destruct (status === "pending") eqn:E1;
    [apply String.eqb_eq in E1; subst; cbn; intuition (try lia; discriminate)|].
  destruct (status === "received") eqn:E2;
    [apply String.eqb_eq in E2; subst; cbn; intuition (try lia; discriminate)|].
  destruct (status === "preparing") eqn:E3;
    [apply String.eqb_eq in E3; subst; cbn; intuition (try lia; discriminate)|].
  destruct (status === "configuring") eqn:E4;
    [apply String.eqb_eq in E4; subst; cbn; intuition (try lia; discriminate)|].
  destruct (status === "out_for_delivery") eqn:E5;
    [apply String.eqb_eq in E5; subst; cbn; intuition (try lia; discriminate)|].
  destruct (status === "delivered") eqn:E6;
    [apply String.eqb_eq in E6; subst; cbn; intuition (try lia; discriminate)|].
  cbn. intuition lia.
Qed.

Section DeliveryProperties.

Variable offset : Z.

Ltac euclid :=
  unfold getDay, getHours, setHours, nextDay, local_day in *;
  change MS_PER_DAY with 86400000 in *; change MS_PER_HOUR with 3600000 in *;
  Z.to_euclidean_division_equations; lia.

Lemma local_day_setHours (t h : Z) :
  0 <= h < 24 -> local_day offset (setHours offset t h) = local_day offset t.
Proof.
  intros Hh. unfold local_day, setHours. euclid.
Qed.

Lemma local_day_nextDay (t : Z) :
  local_day offset (nextDay t) = local_day offset t + 1.
Proof.
  unfold local_day, nextDay. euclid.
Qed.

Lemma getDay_next_morning (t : Z) :
  getDay offset (setHours offset (nextDay t) 10) = (getDay offset t + 1) mod 7.
Proof.
  unfold getDay. rewrite local_day_setHours by lia. rewrite local_day_nextDay.
  euclid.
Qed.

Lemma getDay_range (t : Z) : 0 <= getDay offset t < 7.
Proof. unfold getDay. apply Z.mod_pos_bound. lia. Qed.

Lemma next_morning_later (t : Z) :
  t < setHours offset (nextDay t) 10.
Proof.
  unfold setHours, nextDay, local_day. euclid.
Qed.

Lemma skipWeekend_spec (t : Z) :
  exists d,
    skipWeekend offset 2 t = Some d /\
    getDay offset d <> 0 /\ getDay offset d <> 6 /\ t <= d /\
    (getDay offset t <> 0 -> getDay offset t <> 6 -> d = t).
Proof.
  pose proof (getDay_range t) as Hr.
  pose proof (getDay_next_morning t) as H1.
  pose proof (getDay_next_morning (setHours offset (nextDay t) 10)) as H2.
  pose proof (next_morning_later t) as L1.
  pose proof (next_morning_later (setHours offset (nextDay t) 10)) as L2.
  set (t1 := setHours offset (nextDay t) 10) in *.
  set (t2 := setHours offset (nextDay t1) 10) in *.
  cbn [skipWeekend]. fold t1. fold t2.
  destruct (getDay offset t =? 0) eqn:E0; cbn [orb].
  - apply Z.eqb_eq in E0. rewrite E0 in H1. cbn in H1.
    rewrite H1. cbn. exists t1. repeat split; try lia.
  - destruct (getDay offset t =? 6) eqn:E6.
    + apply Z.eqb_eq in E6. rewrite E6 in H1. cbn in H1.
      rewrite H1 in H2 |- *. cbn in H2 |- *. rewrite H2. cbn.
      exists t2. repeat split; try lia.
    + apply Z.eqb_neq in E0, E6. exists t. repeat split; auto; lia.
Qed.

(** X25. In a time zone with a fixed offset, the estimated delivery is
    computed within two rounds of the loop, never falls on a Saturday or a
    Sunday, and lies after the order; an order placed before 15 o'clock on
    a day from Monday to Friday is due the same day, nine hours after the
    started hour. *)
Theorem estimated_delivery_on_a_weekday (orderDate : Z) :
  exists d,
    calculateEstimatedDeliveryDate offset 2 orderDate = Some d /\
    getDay offset d <> 0 /\ getDay offset d <> 6 /\
    orderDate < d /\
    (getHours offset orderDate < 15 ->
     getDay offset orderDate <> 0 -> getDay offset orderDate <> 6 ->
     d = setHours offset orderDate (getHours offset orderDate + 9)).
Proof.
  unfold calculateEstimatedDeliveryDate.
  assert (Hhour : 0 <= getHours offset orderDate < 24).
  { unfold getHours. euclid. }
  destruct (getHours offset orderDate >=? 17) eqn:E.
  - destruct (skipWeekend_spec (setHours offset (nextDay orderDate) 10))
      as (d & Hd & H0 & H6 & Hle & _).
    exists d. pose proof (next_morning_later orderDate).
    repeat split; auto; lia.
  - destruct (skipWeekend_spec
                (setHours offset orderDate (getHours offset orderDate + 9)))
      as (d & Hd & H0 & H6 & Hle & Hsame).
    exists d.
    assert (Hlater :
              orderDate <
              setHours offset orderDate (getHours offset orderDate + 9)).
    { revert Hhour. unfold setHours, getHours, local_day. euclid. }
    repeat split; auto; try lia.
    intros Hlt Hn0 Hn6. apply Hsame.
    + unfold getDay in *. rewrite local_day_setHours by lia. exact Hn0.
    + unfold getDay in *. rewrite local_day_setHours by lia. exact Hn6.
Qed.

End DeliveryProperties.

Lemma unknown_currency_is_priced_in_usd_witness :
  HARDWARE_PRICING starter_kit "JPY" = None /\
  inherited "JPY" = false /\
  getCents starter_kit "JPY" = 1500 /\
  getCents tablet_bundle "JPY" = 14900 /\
  calculateStripeAmount false true true "JPY" =
  calculateStripeAmount false true true "USD".
Proof.
  split; [reflexivity|]. split; [reflexivity|].
  apply unknown_currency_is_priced_in_usd; reflexivity.
Defined.

Lemma status_index_and_label_witness :
  inherited "shipped" = false /\
  getStatusIndex "shipped" = -1 /\ getStatusLabel "shipped" = "shipped" /\
  getStatusIndex "preparing" = 2.
Proof.
  split; [reflexivity |].
  destruct (status_index_and_label "shipped" eq_refl) as [_ [Hlabel _]].
  split; [reflexivity |]. split; [apply Hlabel; reflexivity | reflexivity].
Defined.

Lemma first_order_without_subscription_is_free_witness :
  let rows := [local_row "monthly" "cancelled" JAN_2025 FEB_2025] in
  let orders :=
    [{| o_id := "order_1"; o_user_id := "user_2";
        o_payment_status := "completed" |}] in
  status (local_row "monthly" "cancelled" JAN_2025 FEB_2025) <> "active" /\
  calculateStripeAmount (isFirstOrder orders "user_1")
    (hasActivePaidSubscription rows "user_1") false "AED" = 0.
Proof.
  cbv zeta. split; [discriminate|].
  apply (first_order_without_subscription_is_free
           [local_row "monthly" "cancelled" JAN_2025 FEB_2025]
           [{| o_id := "order_1"; o_user_id := "user_2";
               o_payment_status := "completed" |}] "user_1" false "AED").
  - intros r [<- | []] _. discriminate.
  - intros o [<- | []]. discriminate.
Defined.

(** ** A successful create-payment *)

Lemma bind_inr {A B : Type} (m : M A) (k : A -> M B) (w w' : World) (b : B) :
  bind m k w = (inr b, w') ->
  exists a w1, m w = (inr a, w1) /\ k a w1 = (inr b, w').
Proof.
  unfold bind. destruct (m w) as [[e | a] w1]; [discriminate|].
  intros H. now exists a, w1.
Qed.

Lemma serve_200 (m : M ResponseBody) (w : World) :
  http_status (fst (serve m w)) = 200 ->
  exists b, m w = (inr b, snd (serve m w)) /\ body (fst (serve m w)) = b.
Proof.
  unfold serve. destruct (m w) as [[e | b] w']; cbn; [discriminate|].
  intros _. now exists b.
Qed.

(** Peel the first statement off a run that returned: its result, the
    world it left, and the table it kept. *)
Ltac peel H a w1 Hm R :=
  apply bind_inr in H; destruct H as (a & w1 & Hm & H);
  match type of Hm with
  | ?m ?w = _ =>
      assert (R : reads m) by reads_walk;
      specialize (R w); rewrite Hm in R; cbn [snd] in R
  end.

(** X26. When create-payment answers 200, the table holds a row of the
    caller that is linked to the subscription named in the answer, with
    plan type trial exactly when a trial was asked for, and with the
    customer the caller's row already had, if it had one. *)
Theorem create_payment_links_row (stripe : Stripe) (now : Z) (new_id : string)
    (user : User) (req : CreatePaymentRequest) (w : World)
    (Hok :
       http_status (fst (create_payment stripe now new_id (Some user) req w))
       = 200) :
  let run := create_payment stripe now new_id (Some user) req w in
  exists secret sid row,
    body (fst run) = CreatePaymentBody secret sid /\
    In row (subscriptions (snd run)) /\
    user_id row = u_id user /\
    stripe_subscription_id row = Some sid /\
    plan_type row = (if isTrial req then "trial" else planType req) /\
    forall r,
      exactly_one (filter (fun r => user_id r === u_id user) (subscriptions w))
      = Some r ->
      id row = id r /\
      (truthy (stripe_customer_id r) = true ->
       stripe_customer_id row = stripe_customer_id r).
Proof.
  cbv zeta. unfold create_payment in *.
  destruct (serve_200 _ _ Hok) as (b & Hrun & Hbody).
  rewrite Hbody.
  set (w' := snd (serve (create_payment_body stripe now new_id (Some user) req) w))
    in *.
  clearbody w'. clear Hok Hbody.
  unfold create_payment_body, create_payment_after_check in Hrun.
  cbv zeta in Hrun.
  peel Hrun price w1 H1 R1.
  peel Hrun fp w2 H2 R2.
  peel Hrun u3 w3 H3 R3.
  peel Hrun dbSub w4 H4 R4.
  peel Hrun cus w5 H5 R5.
  peel Hrun u6 w6 H6 R6.
  peel Hrun active w7 H7 R7.
  peel Hrun subscription w8 H8 R8.
  apply bind_inr in Hrun. destruct Hrun as ([] & w9 & Hwrite & Hret).
  unfold ret in Hret. inversion Hret. subst b w9. clear Hret.
  assert (Hrows : subscriptions w8 = subscriptions w) by congruence.
  assert (Hsel :
            dbSub =
            exactly_one
              (filter (fun r => user_id r === u_id user) (subscriptions w))).
  { cbn in H4. inversion H4. congruence. }
  eexists. exists (sub_id subscription).
  destruct dbSub as [r |].
  - symmetry in Hsel. destruct (selected_row_is_own _ _ _ Hsel) as [Hin Hu].
    unfold update_by_id, bind, get_subscriptions, put_subscriptions in Hwrite.
    inversion Hwrite as [Hw']. cbn [subscriptions]. rewrite Hrows.
    eexists. split; [reflexivity|]. split.
    + apply in_map_iff. exists r. split; [|exact Hin].
      rewrite String.eqb_refl. reflexivity.
    + cbn [apply_patch user_id stripe_subscription_id plan_type id
             stripe_customer_id set_plan_type set_stripe_subscription_id
             set_stripe_customer_id nullish_def].
      split; [exact Hu|]. split; [reflexivity|]. split; [reflexivity|].
      intros r0 Hr0. rewrite Hsel in Hr0. inversion Hr0. subst r0.
      split; [reflexivity|]. intros Hcus. rewrite Hcus in H5.
      unfold ret in H5. inversion H5.
      destruct (stripe_customer_id r); [reflexivity | discriminate Hcus].
  - unfold insert_row, bind, get_subscriptions, put_subscriptions in Hwrite.
    inversion Hwrite as [Hw']. cbn [subscriptions]. rewrite Hrows.
    eexists. split; [reflexivity|]. split.
    + apply in_or_app. right. left. reflexivity.
    + cbn [user_id stripe_subscription_id plan_type].
      split; [reflexivity|]. split; [reflexivity|]. split; [reflexivity|].
      intros r0 Hr0. rewrite <- Hsel in Hr0. discriminate Hr0.
Qed.

Lemma create_payment_links_row_witness :
  let stripe := stripe_stub monthly_sub monthly_sub (empty_invoice "in_1") None in
  let run :=
    create_payment stripe 0 "row_9" (Some user_2) (trial_request "pm_1")
      (world_of [local_row "monthly" "active" JAN_2025 FEB_2025]) in
  http_status (fst run) = 200 /\
  exists secret sid row,
    body (fst run) = CreatePaymentBody secret sid /\
    In row (subscriptions (snd run)) /\
    user_id row = u_id user_2 /\
    stripe_subscription_id row = Some sid /\
    plan_type row = "trial" /\
    forall r,
      exactly_one
        (filter (fun r => user_id r === u_id user_2)
           [local_row "monthly" "active" JAN_2025 FEB_2025]) = Some r ->
      id row = id r /\
      (truthy (stripe_customer_id r) = true ->
       stripe_customer_id row = stripe_customer_id r).
Proof.
  cbv zeta. split; [reflexivity|].
  apply (create_payment_links_row
           (stripe_stub monthly_sub monthly_sub (empty_invoice "in_1") None) 0
           "row_9" user_2 (trial_request "pm_1")
           (world_of [local_row "monthly" "active" JAN_2025 FEB_2025])).
  reflexivity.
Defined.

(** ** Pages *)

Section PaymentMethodsProperties.

Variable render : Z -> string.

Lemma seen_iff (seen : list string) (k : string) :
  existsb (fun k' => k' === k) seen = true <-> In k seen.
Proof.
  rewrite existsb_exists. split.
  - intros (k' & Hin & Heq). apply String.eqb_eq in Heq. now subst.
  - intros Hin. exists k. split; [exact Hin | apply String.eqb_refl].
Qed.

Lemma uniqueMethods_from_spec (methods : list PaymentMethod) :
  forall seen,
    let shown := uniqueMethods_from render seen methods in
    NoDup (map (cardKey render) shown) /\
    (forall m, In m shown -> ~ In (cardKey render m) seen /\ In m methods) /\
    (forall m, In m methods ->
               In (cardKey render m) seen \/
               In (cardKey render m) (map (cardKey render) shown)).
Proof.
  induction methods as [| m methods IH]; intros seen; cbn zeta.
  - cbn. split; [constructor|]. split; intros m [].
  - cbn [uniqueMethods_from].
    destruct (existsb _ seen) eqn:E.
    + apply seen_iff in E. destruct (IH seen) as (Hnd & Hsub & Hcov).
      split; [exact Hnd|]. split.
      * intros m' Hm'. destruct (Hsub m' Hm'). split; [assumption | now right].
      * intros m' [<- | Hm']; [now left | now apply Hcov].
    + assert (Hnew : ~ In (cardKey render m) seen).
      { intros Hin. apply seen_iff in Hin. congruence. }
      destruct (IH (cardKey render m :: seen)) as (Hnd & Hsub & Hcov).
      split; [|split].
      * cbn [map]. constructor; [|exact Hnd].
        intros Hin. apply in_map_iff in Hin. destruct Hin as (m' & Hk & Hm').
        destruct (Hsub m' Hm') as [Hfresh _]. apply Hfresh. left. now symmetry.
      * intros m' [<- | Hm']; [split; [exact Hnew | now left]|].
        destruct (Hsub m' Hm') as [Hfresh Hin]. split; [|now right].
        intros Hs. apply Hfresh. now right.
      * intros m' [<- | Hm']; [right; now left|].
        destruct (Hcov m' Hm') as [[Heq | Hs] | Hin].
        -- right. left. exact Heq.
        -- now left.
        -- right. now right.
Qed.

Lemma uniqueMethods_from_fixed (methods : list PaymentMethod) :
  forall seen,
    NoDup (map (cardKey render) methods) ->
    (forall m, In m methods -> ~ In (cardKey render m) seen) ->
    uniqueMethods_from render seen methods = methods.
Proof.
  induction methods as [| m methods IH]; intros seen Hnd Hfresh; [reflexivity|].
  cbn [uniqueMethods_from].
  destruct (existsb _ seen) eqn:E.
  - apply seen_iff in E. exfalso. apply (Hfresh m); [now left | exact E].
  - cbn [map] in Hnd. inversion Hnd as [| ? ? Hnotin Hnd']. subst.
    f_equal. apply IH; [exact Hnd'|].
    intros m' Hm' [Heq | Hs].
    + apply Hnotin. rewrite Heq. now apply in_map.
    + apply (Hfresh m'); [now right | exact Hs].
Qed.

(** X27. The payment methods shown on the billing page carry pairwise
    different card keys; each of them is one of the methods received, every
    card key received is still shown, the first method received is always
    kept, and removing duplicates again changes nothing. *)
Theorem payment_methods_are_deduplicated (methods : list PaymentMethod) :
  let shown := uniqueMethods render methods in
  NoDup (map (cardKey render) shown) /\
  (forall m, In m shown -> In m methods) /\
  (forall m, In m methods ->
             In (cardKey render m) (map (cardKey render) shown)) /\
  hd_error shown = hd_error methods /\
  uniqueMethods render shown = shown.
Proof.
  cbv zeta. unfold uniqueMethods.
  destruct (uniqueMethods_from_spec methods []) as (Hnd & Hsub & Hcov).
  split; [exact Hnd|]. split; [intros m Hm; now apply Hsub|]. split.
  - intros m Hm. destruct (Hcov m Hm) as [[] | Hin]. exact Hin.
  - split; [destruct methods; reflexivity|].
    apply uniqueMethods_from_fixed; [exact Hnd | intros m _ []].
Qed.

End PaymentMethodsProperties.

(** X28. The upgrade page always offers at least two plans, so that a
    current plan is always selected among them; to a subscriber who is
    not on trial it does not offer the plan they have, and, when the plan
    type of their row is not a name inherited from [Object.prototype],
    every plan it offers ranks above or below theirs. *)
Theorem upgrade_page_offers (currentSubscription : option SubscriptionRow)
    (selectedPlan : string) :
  (2 <= length (plans currentSubscription))%nat /\
  (exists p, currentPlan currentSubscription selectedPlan = Some p /\
             In p (plans currentSubscription)) /\
  forall s,
    currentSubscription = Some s ->
    plan_type s <> "trial" -> status s <> "trialing" ->
    ~ In (plan_type s) (plans currentSubscription) /\
    (inherited (plan_type s) = false ->
     forall p, In p (plans currentSubscription) ->
               isUpgrade (plan_type s) p = true \/
               isDowngrade (plan_type s) p = true).
Proof.
  assert (Hlen : (2 <= length (plans currentSubscription))%nat).
  { unfold plans, allPlans. destruct currentSubscription as [s|];
      [|cbn; auto with arith].
    destruct ((plan_type s === "trial") || (status s === "trialing"));
      [cbn; auto with arith|].
    cbn [filter]. rewrite !(String.eqb_sym _ (plan_type s)).
    destruct (plan_type s === "monthly") eqn:E1;
      [apply String.eqb_eq in E1; rewrite E1; cbn; auto with arith|].
    destruct (plan_type s === "semiannual") eqn:E2;
      [apply String.eqb_eq in E2; rewrite E2; cbn; auto with arith|].
    destruct (plan_type s === "annual"); cbn; auto with arith. }
  split; [exact Hlen|]. split.
  - unfold currentPlan.
    destruct (find _ (plans currentSubscription)) as [p|] eqn:F.
    + exists p. split; [reflexivity|]. now apply find_some in F.
    + destruct (plans currentSubscription) as [| p l]; [cbn in Hlen; lia|].
      exists p. split; [reflexivity | now left].
  - intros s -> Htrial Htrialing. unfold plans.
    apply String.eqb_neq in Htrial, Htrialing. rewrite Htrial, Htrialing.
    cbn [orb]. split.
    + intros Hin. apply filter_In in Hin. destruct Hin as [_ Hneq].
      rewrite String.eqb_refl in Hneq. discriminate.
    + intros _ p Hin. apply filter_In in Hin. destruct Hin as [Hp Hneq].
      apply negb_true_iff, String.eqb_neq in Hneq.
      assert (Hlevel :
                plan_type s = "monthly" \/ plan_type s = "semiannual" \/
                plan_type s = "annual" \/ plan_level (plan_type s) = 0).
      { unfold plan_level, PLAN_HIERARCHY. rewrite Htrial.
        destruct (plan_type s === "monthly") eqn:E1;
          [apply String.eqb_eq in E1; auto|].
        destruct (plan_type s === "semiannual") eqn:E2;
          [apply String.eqb_eq in E2; auto|].
        destruct (plan_type s === "annual") eqn:E3;
          [apply String.eqb_eq in E3; auto|].
        auto. }
      unfold isUpgrade, isDowngrade.
      destruct Hp as [<- | [<- | [<- | []]]];
        destruct Hlevel as [H | [H | [H | H]]]; rewrite H in *;
        try (now contradiction Hneq); auto.
Qed.

(** ** Events processed from the payload alone *)

(** X29. The subscription-updated, subscription-deleted and
    payment-succeeded branches work from the event payload alone: they
    issue no remote call and leave the invoice and restaurant tables as
    they are, whatever the database function answers. *)
Theorem payload_only_events (db : WebhookArgs -> list SubscriptionRow ->
                                  Exn + list SubscriptionRow)
    (addMonths addYears addDays : Z -> Z -> Z) (stripe : Stripe) (now : Z)
    (event : Event) (w : World) :
  let w' := snd (dispatch db addMonths addYears addDays stripe now event w) in
  match event with
  | CustomerSubscriptionUpdated _ | CustomerSubscriptionDeleted _
  | PaymentIntentSucceeded _ | OtherEvent _ =>
      calls w' = calls w /\ invoices w' = invoices w /\
      restaurants w' = restaurants w
  | _ => restaurants w' = restaurants w
  end.
Proof.
  cbv zeta.
  destruct (dispatch db addMonths addYears addDays stripe now event w)
    as [r w'] eqn:Hrun.
  destruct event; cbn [dispatch] in Hrun;
    unfold handleCheckoutCompleted, handlePaymentSucceeded, handleInvoiceEvent,
      handleInvoicePaymentFailed, handleSubscriptionUpdated,
      handleSubscriptionDeleted, rpc, persistInvoiceToDatabase,
      get_restaurants, get_invoices, put_invoices, lift in Hrun;
    exec Hrun; cbn; auto.
Qed.
